(** * SocketService: the connection layer of the receiver dashboard

    A shallow embedding of [SocketService.ts] (publisher discovery, connection
    lifecycle, payload decoding and the callback surface) together with the
    properties its specification states.

    Conventions of the embedding.
    - A [Uint8Array] / [ArrayBuffer] is a [list byte].
    - A JavaScript string is a [string], its characters the code units
      0..255: the strings the service builds itself (the binary string of
      [arrayBufferToBase64], URLs, messages) have no others, and a text
      payload is only handed on.
    - A JavaScript number is a [spec_float]; the service computes with none.
    - The service is a state ([state]) and its methods and listeners are
      computations over it that return or throw ([M]). The callbacks it
      calls and the lines it logs are recorded in the state, in order.
    - The platform functions the service calls but does not define
      ([btoa], [DataView.getFloat32], [fetch], socket.io's [io] and the
      events it delivers) are modelled after their standards and
      documentation, each one where it is used; [URL] and the typed-array
      constructor on arguments that are not buffers are parameters
      ([Platform]), and [plain_platform] gives them after the URL Standard
      and ECMAScript. *)

From Stdlib Require Import List Strings.String Strings.Ascii Strings.Byte NArith ZArith QArith Lia Bool.
From Stdlib Require Import DecimalString DecimalN SpecFloat.
From Stdlib Require HexadecimalString.
Import ListNotations.

Local Open Scope string_scope.

(** ** Bytes and binary strings *)

(** [String.fromCharCode(b)] for a byte [b]: the one-character string whose
    code unit is [b]. *)
Definition fromCharCode (b : byte) : string :=
  String (ascii_of_byte b) EmptyString.

(** The code units of a binary string, read back as bytes. *)
Fixpoint bytes_of_binary (s : string) : list byte :=
  match s with
  | EmptyString => []
  | String c rest => byte_of_ascii c :: bytes_of_binary rest
  end.

(** ** Base64 (RFC 4648, section 4) *)

Module Base64.

Definition alphabet : string :=
  "ABCDEFGHIJKLMNOPQRSTUVWXYZabcdefghijklmnopqrstuvwxyz0123456789+/".

Definition pad : ascii := "="%char.

(** The character of a 6-bit group. *)
Definition sextet_char (n : N) : ascii :=
  match String.get (N.to_nat n) alphabet with
  | Some c => c
  | None => pad
  end.

(** The 6-bit group of a character of the alphabet. *)
Fixpoint index_from (i : N) (c : ascii) (s : string) : option N :=
  match s with
  | EmptyString => None
  | String d rest => if (c =? d)%char then Some i else index_from (N.succ i) c rest
  end.

Definition char_sextet (c : ascii) : option N := index_from 0 c alphabet.

Definition code (c : ascii) : N := N_of_ascii c.

(** A full 24-bit input group, written as four characters. *)
Definition encode3 (a b c : ascii) (tail : string) : string :=
  let n := (code a * 65536 + code b * 256 + code c)%N in
  String (sextet_char (n / 262144))
    (String (sextet_char ((n / 4096) mod 64))
       (String (sextet_char ((n / 64) mod 64))
          (String (sextet_char (n mod 64)) tail))).

(** A final group of 16 bits: two zero bits are added, one pad character. *)
Definition encode2 (a b : ascii) : string :=
  let n := ((code a * 256 + code b) * 4)%N in
  String (sextet_char (n / 4096))
    (String (sextet_char ((n / 64) mod 64))
       (String (sextet_char (n mod 64))
          (String pad EmptyString))).

(** A final group of 8 bits: four zero bits are added, two pad characters. *)
Definition encode1 (a : ascii) : string :=
  let n := (code a * 16)%N in
  String (sextet_char (n / 64))
    (String (sextet_char (n mod 64))
       (String pad (String pad EmptyString))).

(** [btoa]: its argument is a binary string, one byte per character.
    (The platform function throws on a code unit above 255; a [string]
    has none.) *)
Fixpoint btoa (s : string) : string :=
  match s with
  | EmptyString => EmptyString
  | String a EmptyString => encode1 a
  | String a (String b EmptyString) => encode2 a b
  | String a (String b (String c rest)) => encode3 a b c (btoa rest)
  end.

Definition byte_of_N (n : N) : byte :=
  match Byte.of_N n with
  | Some b => b
  | None => x00
  end.

Definition decode3 (c1 c2 c3 c4 : ascii) : option (list byte) :=
  match char_sextet c1, char_sextet c2, char_sextet c3, char_sextet c4 with
  | Some s1, Some s2, Some s3, Some s4 =>
      let m := (s1 * 262144 + s2 * 4096 + s3 * 64 + s4)%N in
      Some [byte_of_N (m / 65536); byte_of_N ((m / 256) mod 256);
            byte_of_N (m mod 256)]
  | _, _, _, _ => None
  end.

Definition decode2 (c1 c2 c3 : ascii) : option (list byte) :=
  match char_sextet c1, char_sextet c2, char_sextet c3 with
  | Some s1, Some s2, Some s3 =>
      let m := (s1 * 4096 + s2 * 64 + s3)%N in
      Some [byte_of_N (m / 1024); byte_of_N ((m / 4) mod 256)]
  | _, _, _ => None
  end.

Definition decode1 (c1 c2 : ascii) : option (list byte) :=
  match char_sextet c1, char_sextet c2 with
  | Some s1, Some s2 =>
      let m := (s1 * 64 + s2)%N in
      Some [byte_of_N (m / 16)]
  | _, _ => None
  end.

(** The decoder of a padded base64 text: groups of four characters, pad
    characters only at the end of the last group. *)
Fixpoint decode (s : string) : option (list byte) :=
  match s with
  | EmptyString => Some []
  | String c1 (String c2 (String c3 (String c4 rest))) =>
      if (c4 =? pad)%char then
        match rest with
        | EmptyString =>
            if (c3 =? pad)%char then decode1 c1 c2 else decode2 c1 c2 c3
        | String _ _ => None
        end
      else
        match decode3 c1 c2 c3 c4, decode rest with
        | Some front, Some back => Some (front ++ back)%list
        | _, _ => None
        end
  | _ => None
  end.

End Base64.

(** [arrayBufferToBase64]: the loop appends the character of every byte to
    [binary], then [btoa] encodes it. *)
Definition arrayBufferToBase64 (uint8Array : list byte) : string :=
  let binary :=
    fold_left (fun binary b => binary ++ fromCharCode b) uint8Array EmptyString in
  Base64.btoa binary.

(** ** Payloads and errors *)

(** The values a socket event can carry. *)
#[warnings="-register-all"]
Inductive js_value : Type :=
| JSUndefined
| JSNull
| JSBoolean (b : bool)
| JSNumber (x : spec_float)
| JSString (s : string)
| JSArrayBuffer (bytes : list byte)
| JSUint8Array (bytes : list byte)
| JSObject (fields : list (string * js_value)).

Inductive js_error : Type :=
| TypeError
| RangeError
| AbortError
| TransportError (reason : string).

(** The platform functions whose full definition the service does not depend
    on: [new URL(s).hostname] ([None]: the constructor throws) and
    [new Uint8Array(v)] for an argument that is not a buffer. *)
Class Platform : Type := {
  URL_hostname : string -> option string;
  Uint8Array_of_other : js_value -> js_error + list byte
}.

(** [v.name]. Reading a property of [undefined] or [null] throws; an object
    has the property or yields [undefined]; the other values do not have any
    of the properties this service reads. *)
Fixpoint lookup_field (name : string) (fields : list (string * js_value)) : js_value :=
  match fields with
  | [] => JSUndefined
  | (k, v) :: rest => if (k =? name)%string then v else lookup_field name rest
  end.

Definition get_prop (v : js_value) (name : string) : js_error + js_value :=
  match v with
  | JSUndefined | JSNull => inl TypeError
  | JSObject fields => inr (lookup_field name fields)
  | _ => inr JSUndefined
  end.

(** ** [DataView.getFloat32] *)

Module Float32.

(** The bytes of a little-endian word. *)
Fixpoint le_combine (raw : list byte) : Z :=
  match raw with
  | [] => 0
  | b :: rest => Z.of_N (Byte.to_N b) + 256 * le_combine rest
  end.

(** The binary32 value of a 32-bit pattern: bit 31 is the sign, bits 30..23
    the biased exponent, bits 22..0 the fraction. *)
Definition of_bits (w : Z) : spec_float :=
  let sign := Z.testbit w 31 in
  let e := Z.land (Z.shiftr w 23) (Z.ones 8) in
  let m := Z.land w (Z.ones 23) in
  if (e =? 0)%Z then
    if (m =? 0)%Z then S754_zero sign else S754_finite sign (Z.to_pos m) (-149)
  else if (e =? 255)%Z then
    if (m =? 0)%Z then S754_infinity sign else S754_nan
  else S754_finite sign (Z.to_pos (2 ^ 23 + m)) (e - 150).

(** [view.getFloat32(byteOffset, littleEndian)] on a view of a whole
    buffer: a [RangeError] when four bytes are not available. *)
Definition getFloat32 (view : list byte) (byteOffset : nat) (littleEndian : bool)
  : js_error + spec_float :=
  if (List.length view <? byteOffset + 4)%nat then inl RangeError
  else
    let raw := firstn 4 (skipn byteOffset view) in
    let raw := if littleEndian then raw else rev raw in
    inr (of_bits (le_combine raw)).

(** The rational a float denotes, when it is a number. *)
Definition to_Q (f : spec_float) : option Q :=
  match f with
  | S754_zero _ => Some 0%Q
  | S754_finite s m e =>
      let q := (inject_Z (Zpos m) * Qpower (2 # 1) e)%Q in
      Some (Qred (if s then - q else q)%Q)
  | _ => None
  end.

(** The reading of the standard, field by field: for the four bytes
    [b0 b1 b2 b3] in the order they arrive. *)
Definition ieee754_single_le (b0 b1 b2 b3 : byte) : spec_float :=
  let n0 := Z.of_N (Byte.to_N b0) in
  let n1 := Z.of_N (Byte.to_N b1) in
  let n2 := Z.of_N (Byte.to_N b2) in
  let n3 := Z.of_N (Byte.to_N b3) in
  let sign := (128 <=? n3)%Z in
  let exponent := ((n3 mod 128) * 2 + n2 / 128)%Z in
  let fraction := ((n2 mod 128) * 65536 + n1 * 256 + n0)%Z in
  if (exponent =? 0)%Z then
    if (fraction =? 0)%Z then S754_zero sign
    else S754_finite sign (Z.to_pos fraction) (-149)
  else if (exponent =? 255)%Z then
    if (fraction =? 0)%Z then S754_infinity sign else S754_nan
  else S754_finite sign (Z.to_pos (8388608 + fraction)) (exponent - 150).

End Float32.

(** ** The service and its surroundings *)

Inductive status : Type := Active | Inactive.

Record VitalSigns : Type := {
  heartrate : js_value;
  resprate : js_value;
  temp : js_value
}.

(** One invocation of a registered callback. *)
Inductive notification : Type :=
| VitalSignsUpdate (vitals : VitalSigns) (image : js_value)
| RGBImageUpdate (imageData : string)
| ThermalImageUpdate (imageData : string)
| FPSUpdate (fps : spec_float)
| ConnectionStatusChange (st : status) (ip : string).

Inductive console_entry : Type :=
| console_log (message : string)
| console_error (message : string).

(** What socket.io holds for one socket returned by [io]: it is trying to
    connect (for the first time, or again after a drop), connected, or
    closed for good (disconnected by the client, or out of attempts). *)
Inductive phase : Type := Opening | Open | Closed.

Inductive promise_state : Type :=
| Pending
| Resolved
| Rejected (e : js_error).

Record io_socket : Type := {
  sock_url : string;
  sock_phase : phase;
  (** reconnection attempts the manager has left *)
  sock_retries : nat;
  (** how many times [setupEventHandlers] attached the data listeners *)
  data_listeners : nat;
  (** the promise of the [connect()] call that created the socket *)
  sock_promise : nat
}.

Record promise : Type := {
  outcome : promise_state;
  (** [.catch(console.error)] is attached *)
  catch_logs : bool
}.

Definition connected (k : io_socket) : bool :=
  match sock_phase k with Open => true | _ => false end.

Definition live (k : io_socket) : bool :=
  match sock_phase k with Closed => false | _ => true end.

(** The fields of [SocketService], then the sockets and the promises created
    so far (each named by its position), the callback invocations and the
    console. *)
Record state : Type := {
  socket : option nat;
  publisherUrl : string;
  isConnected : bool;
  onVitalSignsUpdate : bool;
  onRGBImageUpdate : bool;
  onThermalImageUpdate : bool;
  onFPSUpdate : bool;
  onConnectionStatusChange : bool;
  sockets : list io_socket;
  promises : list promise;
  delivered : list notification;
  console : list console_entry
}.

Definition set_socket (v : option nat) (s : state) : state :=
  {| socket := v; publisherUrl := publisherUrl s; isConnected := isConnected s;
     onVitalSignsUpdate := onVitalSignsUpdate s; onRGBImageUpdate := onRGBImageUpdate s;
     onThermalImageUpdate := onThermalImageUpdate s; onFPSUpdate := onFPSUpdate s;
     onConnectionStatusChange := onConnectionStatusChange s;
     sockets := sockets s; promises := promises s; delivered := delivered s; console := console s |}.

Definition set_publisherUrl (v : string) (s : state) : state :=
  {| socket := socket s; publisherUrl := v; isConnected := isConnected s;
     onVitalSignsUpdate := onVitalSignsUpdate s; onRGBImageUpdate := onRGBImageUpdate s;
     onThermalImageUpdate := onThermalImageUpdate s; onFPSUpdate := onFPSUpdate s;
     onConnectionStatusChange := onConnectionStatusChange s;
     sockets := sockets s; promises := promises s; delivered := delivered s; console := console s |}.

Definition set_isConnected (v : bool) (s : state) : state :=
  {| socket := socket s; publisherUrl := publisherUrl s; isConnected := v;
     onVitalSignsUpdate := onVitalSignsUpdate s; onRGBImageUpdate := onRGBImageUpdate s;
     onThermalImageUpdate := onThermalImageUpdate s; onFPSUpdate := onFPSUpdate s;
     onConnectionStatusChange := onConnectionStatusChange s;
     sockets := sockets s; promises := promises s; delivered := delivered s; console := console s |}.

Definition set_sockets (v : list io_socket) (s : state) : state :=
  {| socket := socket s; publisherUrl := publisherUrl s; isConnected := isConnected s;
     onVitalSignsUpdate := onVitalSignsUpdate s; onRGBImageUpdate := onRGBImageUpdate s;
     onThermalImageUpdate := onThermalImageUpdate s; onFPSUpdate := onFPSUpdate s;
     onConnectionStatusChange := onConnectionStatusChange s;
     sockets := v; promises := promises s; delivered := delivered s; console := console s |}.

Definition set_promises (v : list promise) (s : state) : state :=
  {| socket := socket s; publisherUrl := publisherUrl s; isConnected := isConnected s;
     onVitalSignsUpdate := onVitalSignsUpdate s; onRGBImageUpdate := onRGBImageUpdate s;
     onThermalImageUpdate := onThermalImageUpdate s; onFPSUpdate := onFPSUpdate s;
     onConnectionStatusChange := onConnectionStatusChange s;
     sockets := sockets s; promises := v; delivered := delivered s; console := console s |}.

Definition set_delivered (v : list notification) (s : state) : state :=
  {| socket := socket s; publisherUrl := publisherUrl s; isConnected := isConnected s;
     onVitalSignsUpdate := onVitalSignsUpdate s; onRGBImageUpdate := onRGBImageUpdate s;
     onThermalImageUpdate := onThermalImageUpdate s; onFPSUpdate := onFPSUpdate s;
     onConnectionStatusChange := onConnectionStatusChange s;
     sockets := sockets s; promises := promises s; delivered := v; console := console s |}.

Definition set_console (v : list console_entry) (s : state) : state :=
  {| socket := socket s; publisherUrl := publisherUrl s; isConnected := isConnected s;
     onVitalSignsUpdate := onVitalSignsUpdate s; onRGBImageUpdate := onRGBImageUpdate s;
     onThermalImageUpdate := onThermalImageUpdate s; onFPSUpdate := onFPSUpdate s;
     onConnectionStatusChange := onConnectionStatusChange s;
     sockets := sockets s; promises := promises s; delivered := delivered s; console := v |}.

(** The five callback slots. *)
Inductive slot : Type :=
| slot_VitalSigns | slot_RGBImage | slot_ThermalImage | slot_FPS | slot_ConnectionStatus.

Definition registered (sl : slot) (s : state) : bool :=
  match sl with
  | slot_VitalSigns => onVitalSignsUpdate s
  | slot_RGBImage => onRGBImageUpdate s
  | slot_ThermalImage => onThermalImageUpdate s
  | slot_FPS => onFPSUpdate s
  | slot_ConnectionStatus => onConnectionStatusChange s
  end.

Definition register (sl : slot) (s : state) : state :=
  {| socket := socket s; publisherUrl := publisherUrl s; isConnected := isConnected s;
     onVitalSignsUpdate :=
       match sl with slot_VitalSigns => true | _ => onVitalSignsUpdate s end;
     onRGBImageUpdate :=
       match sl with slot_RGBImage => true | _ => onRGBImageUpdate s end;
     onThermalImageUpdate :=
       match sl with slot_ThermalImage => true | _ => onThermalImageUpdate s end;
     onFPSUpdate :=
       match sl with slot_FPS => true | _ => onFPSUpdate s end;
     onConnectionStatusChange :=
       match sl with slot_ConnectionStatus => true | _ => onConnectionStatusChange s end;
     sockets := sockets s; promises := promises s; delivered := delivered s; console := console s |}.

(** ** Computations that may throw *)

Inductive result (A : Type) : Type :=
| Return (a : A) (s : state)
| Throw (e : js_error) (s : state).

Arguments Return {A} a s.
Arguments Throw {A} e s.

Definition M (A : Type) : Type := state -> result A.

Definition ret {A} (a : A) : M A := fun s => Return a s.

Definition throw {A} (e : js_error) : M A := fun s => Throw e s.

Definition bind {A B} (m : M A) (k : A -> M B) : M B :=
  fun s =>
    match m s with
    | Return a s' => k a s'
    | Throw e s' => Throw e s'
    end.

(** [try { body } catch (error) { handler }] *)
Definition try_catch {A} (body : M A) (handler : js_error -> M A) : M A :=
  fun s =>
    match body s with
    | Return a s' => Return a s'
    | Throw e s' => handler e s'
    end.

Definition gets {A} (f : state -> A) : M A := fun s => Return (f s) s.

Definition modify (f : state -> state) : M unit := fun s => Return tt (f s).

Definition lift {A} (r : js_error + A) : M A :=
  match r with
  | inl e => throw e
  | inr a => ret a
  end.

(** The state a computation leaves, however it ends. *)
Definition after {A} (r : result A) : state :=
  match r with
  | Return _ s => s
  | Throw _ s => s
  end.

Definition raised {A} (r : result A) : option js_error :=
  match r with
  | Return _ _ => None
  | Throw e _ => Some e
  end.

Declare Scope js_scope.
Delimit Scope js_scope with js.
Notation "x <- m ;; k" := (bind m (fun x => k))
  (at level 61, m at next level, right associativity) : js_scope.
Notation "m ;; k" := (bind m (fun _ => k))
  (at level 61, right associativity) : js_scope.
Local Open Scope js_scope.

Definition log (message : string) : M unit :=
  modify (fun s => set_console (console s ++ [console_log message])%list s).

Definition error (message : string) : M unit :=
  modify (fun s => set_console (console s ++ [console_error message])%list s).

(** [this.onX?.(args)]: the callback runs when one is registered. What a
    callback does is the consumer's; here it is recorded and returns. *)
Definition invoke (sl : slot) (n : notification) : M unit :=
  fun s =>
    if registered sl s
    then Return tt (set_delivered (delivered s ++ [n])%list s)
    else Return tt s.

(** ** Publisher discovery *)

(** What the network does with a GET request: a response with a status after
    some milliseconds, a failure after some milliseconds, or nothing. *)
Inductive fetch_outcome : Type :=
| Responds (latency : N) (http_status : N)
| Fails (latency : N)
| Hangs.

Definition network : Type := string -> fetch_outcome.

(** What a probe does to the outside, in order. *)
Inductive io_event : Type :=
| IO_setTimeout (ms : N)
| IO_clearTimeout
| IO_fetch_GET (url : string)
| IO_log (message : string).

Definition port_string (port : N) : string :=
  NilEmpty.string_of_uint (N.to_uint port).

(** [fetch(url, {method: 'GET', signal})] with the signal aborted [abort_after]
    milliseconds after the call: the promise resolves with the response when
    it comes before the abort and rejects otherwise (a reply at the very
    instant of the abort counts as late). *)
Definition fetch_GET (net : network) (url : string) (abort_after : N) : js_error + N :=
  match net url with
  | Responds t http_status => if (t <? abort_after)%N then inr http_status else inl AbortError
  | Fails t => if (t <? abort_after)%N then inl TypeError else inl AbortError
  | Hangs => inl AbortError
  end.

(** [response.ok]: the status is in the range 200-299. *)
Definition response_ok (http_status : N) : bool :=
  ((200 <=? http_status) && (http_status <=? 299))%N.

Definition testConnection (net : network) (ip : string) (port : N) : bool * list io_event :=
  let url := "http://" ++ ip ++ ":" ++ port_string port ++ "/ping" in
  let begun := [IO_setTimeout 2000; IO_log "Testing connection to"; IO_fetch_GET url] in
  match fetch_GET net url 2000 with
  | inr http_status =>
      (response_ok http_status && (http_status =? 200)%N,
       begun ++ [IO_clearTimeout; IO_log "Connection test result for"])%list
  | inl _ =>
      (false, begun ++ [IO_log "Connection test failed for"])%list
  end.

Definition testIPs : list string := ["10.0.0.32"; "127.0.0.1"; "localhost"].

(** The [for (const ip of testIPs)] loop, with its [return] from inside. *)
Fixpoint probe_in_turn (net : network) (port : N) (ips : list string)
  : option string * list io_event :=
  match ips with
  | [] => (None, [IO_log "No publisher found at known IPs"])
  | ip :: rest =>
      let '(reachable, evs) := testConnection net ip port in
      if reachable
      then (Some ip, IO_log "Testing IP:" :: evs ++ [IO_log "Publisher found at"])%list
      else
        let '(found, later) := probe_in_turn net port rest in
        (found, IO_log "Testing IP:" :: evs ++ later)%list
  end.

Definition discoverPublisher (net : network) : option string * list io_event :=
  let publisherPort := 27182%N in
  probe_in_turn net publisherPort testIPs.

(** The requests among the effects of a run. *)
Fixpoint requests (evs : list io_event) : list string :=
  match evs with
  | [] => []
  | IO_fetch_GET url :: rest => url :: requests rest
  | _ :: rest => requests rest
  end.

Fixpoint timers (evs : list io_event) : list N :=
  match evs with
  | [] => []
  | IO_setTimeout ms :: rest => ms :: timers rest
  | _ :: rest => timers rest
  end.

Definition ping_url (port : N) (ip : string) : string :=
  "http://" ++ ip ++ ":" ++ port_string port ++ "/ping".

(** A candidate answers the probe: HTTP 200 in less than two seconds. *)
Definition answers (net : network) (port : N) (ip : string) : bool :=
  match net (ping_url port ip) with
  | Responds t http_status => (t <? 2000)%N && (http_status =? 200)%N
  | _ => false
  end.

(** The candidates up to and including the first that answers. *)
Fixpoint until_first (f : string -> bool) (ips : list string) : list string :=
  match ips with
  | [] => []
  | ip :: rest => if f ip then [ip] else ip :: until_first f rest
  end.

(** ** Decoding and the connection *)

Definition update_nth {A} (i : nat) (f : A -> A) (l : list A) : list A :=
  firstn i l ++ match skipn i l with
                | [] => []
                | x :: rest => f x :: rest
                end.

Definition set_phase (p : phase) (k : io_socket) : io_socket :=
  {| sock_url := sock_url k; sock_phase := p; sock_retries := sock_retries k;
     data_listeners := data_listeners k; sock_promise := sock_promise k |}.

Definition set_retries (n : nat) (k : io_socket) : io_socket :=
  {| sock_url := sock_url k; sock_phase := sock_phase k; sock_retries := n;
     data_listeners := data_listeners k; sock_promise := sock_promise k |}.

Definition add_listeners (k : io_socket) : io_socket :=
  {| sock_url := sock_url k; sock_phase := sock_phase k; sock_retries := sock_retries k;
     data_listeners := S (data_listeners k); sock_promise := sock_promise k |}.

Definition settle (o : promise_state) (p : promise) : promise :=
  {| outcome := o; catch_logs := catch_logs p |}.

Definition attach_catch (p : promise) : promise :=
  {| outcome := outcome p; catch_logs := true |}.

Definition describe (e : js_error) : string :=
  match e with
  | TypeError => "TypeError"
  | RangeError => "RangeError"
  | AbortError => "AbortError"
  | TransportError reason => reason
  end.

Inductive data_event : Type :=
| add_chip | update_chip | update_feed | thermal_image | frame_rate.

Definition reconnectionAttempts : nat := 5.

Definition publisher_url (publisherIP : string) (publisherPort : N) : string :=
  "http://" ++ publisherIP ++ ":" ++ port_string publisherPort.

(** [new SocketService(publisherIP, publisherPort)] *)
Definition new_SocketService (publisherIP : string) (publisherPort : N) : state :=
  {| socket := None;
     publisherUrl := publisher_url publisherIP publisherPort;
     isConnected := false;
     onVitalSignsUpdate := false; onRGBImageUpdate := false;
     onThermalImageUpdate := false; onFPSUpdate := false;
     onConnectionStatusChange := false;
     sockets := []; promises := []; delivered := []; console := [] |}.

Section Service.
Context {platform : Platform}.

Definition socket_at (i : nat) : M (option io_socket) :=
  gets (fun s => nth_error (sockets s) i).

Definition update_socket (i : nat) (f : io_socket -> io_socket) : M unit :=
  modify (fun s => set_sockets (update_nth i f (sockets s)) s).

(** [resolve(true)] and [reject(error)]: a settled promise stays as it is;
    a rejection reaches [console.error] when [.catch(console.error)] is
    attached. *)
Definition resolve (p : nat) : M unit :=
  modify (fun s =>
    set_promises
      (update_nth p (fun pr => match outcome pr with
                               | Pending => settle Resolved pr
                               | _ => pr
                               end) (promises s)) s).

Definition reject (p : nat) (e : js_error) : M unit :=
  pr <- gets (fun s => nth_error (promises s) p) ;;
  match pr with
  | Some pr =>
      match outcome pr with
      | Pending =>
          modify (fun s => set_promises (update_nth p (settle (Rejected e)) (promises s)) s) ;;
          if catch_logs pr then error (describe e) else ret tt
      | _ => ret tt
      end
  | None => ret tt
  end.

Definition new_URL_hostname (url : string) : M string :=
  match URL_hostname url with
  | Some hostname => ret hostname
  | None => throw TypeError
  end.

Definition getIPFromUrl : M string :=
  try_catch
    (url <- gets publisherUrl ;;
     new_URL_hostname url)
    (fun _ => ret "Unknown").

(** [new Uint8Array(data)] *)
Definition new_Uint8Array (data : js_value) : M (list byte) :=
  match data with
  | JSArrayBuffer bytes => ret bytes
  | JSUint8Array bytes => ret bytes
  | other => lift (Uint8Array_of_other other)
  end.

(** [new DataView(buffer)]: a [TypeError] unless [buffer] is an
    [ArrayBuffer]. *)
Definition new_DataView (buffer : js_value) : M (list byte) :=
  match buffer with
  | JSArrayBuffer bytes => ret bytes
  | _ => throw TypeError
  end.

Definition bytesToFloat (buffer : js_value) : M spec_float :=
  view <- new_DataView buffer ;;
  lift (Float32.getFloat32 view 0 true).

Definition handleChipUpdate (data : js_value) : M unit :=
  try_catch
    (chipData <- lift (get_prop data "chip_data") ;;
     hr <- lift (get_prop chipData "heartrate") ;;
     rr <- lift (get_prop chipData "resprate") ;;
     t <- lift (get_prop chipData "temp") ;;
     let vitals := {| heartrate := hr; resprate := rr; temp := t |} in
     chip_img <- lift (get_prop chipData "chip_img") ;;
     invoke slot_VitalSigns (VitalSignsUpdate vitals chip_img))
    (fun _ => error "Error handling chip update:").

(** The listeners [setupEventHandlers] attaches. *)
Definition on_update_feed (data : js_value) : M unit :=
  try_catch
    (match data with
     | JSArrayBuffer bytes =>
         let uint8Array := bytes in
         invoke slot_RGBImage (RGBImageUpdate (arrayBufferToBase64 uint8Array))
     | JSUint8Array bytes =>
         invoke slot_RGBImage (RGBImageUpdate (arrayBufferToBase64 bytes))
     | JSString base64String =>
         invoke slot_RGBImage (RGBImageUpdate base64String)
     | _ => error "Unknown data format for update_feed:"
     end)
    (fun _ => error "Error processing RGB image data:").

Definition on_thermal_image (data : js_value) : M unit :=
  try_catch
    (uint8Array <- new_Uint8Array data ;;
     let base64String := arrayBufferToBase64 uint8Array in
     invoke slot_ThermalImage (ThermalImageUpdate base64String))
    (fun _ => error "Error processing thermal image data:").

Definition on_frame_rate (data : js_value) : M unit :=
  fps <- bytesToFloat data ;;
  invoke slot_FPS (FPSUpdate fps).

Definition listener (name : data_event) (data : js_value) : M unit :=
  match name with
  | add_chip => handleChipUpdate data
  | update_chip => handleChipUpdate data
  | update_feed => on_update_feed data
  | thermal_image => on_thermal_image data
  | frame_rate => on_frame_rate data
  end.

Definition setupEventHandlers : M unit :=
  cur <- gets socket ;;
  match cur with
  | None => ret tt
  | Some i => update_socket i add_listeners
  end.

(** The listeners [connect()] attaches; [p] is the promise of that call. *)
Definition on_connect (p : nat) : M unit :=
  log "Connected to publisher:" ;;
  log "Socket ID:" ;;
  modify (set_isConnected true) ;;
  ip <- getIPFromUrl ;;
  invoke slot_ConnectionStatus (ConnectionStatusChange Active ip) ;;
  setupEventHandlers ;;
  resolve p.

Definition on_disconnect : M unit :=
  log "Disconnected from publisher:" ;;
  modify (set_isConnected false) ;;
  invoke slot_ConnectionStatus (ConnectionStatusChange Inactive "Disconnected").

Definition on_connect_error (p : nat) (err : js_error) : M unit :=
  error "Connection error:" ;;
  modify (set_isConnected false) ;;
  invoke slot_ConnectionStatus (ConnectionStatusChange Inactive "Connection Error") ;;
  reject p err.

(** [socket.disconnect()] of socket.io: the socket is closed for good, and
    its 'disconnect' listener runs when it was connected. *)
Definition socket_disconnect (i : nat) : M unit :=
  k <- socket_at i ;;
  match k with
  | Some k =>
      update_socket i (set_phase Closed) ;;
      if connected k then on_disconnect else ret tt
  | None => ret tt
  end.

(** [io(url, {autoConnect: true, reconnection: true, reconnectionAttempts: 5,
    forceNew: true, ...})]: a new socket that starts to connect. *)
Definition io (url : string) (p : nat) : M nat :=
  i <- gets (fun s => List.length (sockets s)) ;;
  modify (fun s =>
    set_sockets (sockets s ++ [{| sock_url := url; sock_phase := Opening;
                                  sock_retries := reconnectionAttempts;
                                  data_listeners := 0; sock_promise := p |}])%list s) ;;
  ret i.

Definition new_Promise : M nat :=
  p <- gets (fun s => List.length (promises s)) ;;
  modify (fun s =>
    set_promises (promises s ++ [{| outcome := Pending; catch_logs := false |}])%list s) ;;
  ret p.

(** [this.socket?.connected] *)
Definition current_connected (s : state) : bool :=
  match socket s with
  | Some i => match nth_error (sockets s) i with
              | Some k => connected k
              | None => false
              end
  | None => false
  end.

Definition socket_connected : M bool := gets current_connected.

(** [connect()]; the result names the promise it returns. *)
Definition connect : M nat :=
  p <- new_Promise ;;
  try_catch
    (c <- socket_connected ;;
     cur <- gets socket ;;
     match c, cur with
     | true, Some i => socket_disconnect i
     | _, _ => ret tt
     end ;;
     log "Attempting to connect to:" ;;
     url <- gets publisherUrl ;;
     i <- io url p ;;
     modify (set_socket (Some i)))
    (fun e =>
       error "Error setting up socket connection:" ;;
       reject p e) ;;
  ret p.

Definition changeConnection (newIP : string) (port : N) : M unit :=
  modify (set_publisherUrl (publisher_url newIP port)) ;;
  p <- connect ;;
  modify (fun s => set_promises (update_nth p attach_catch (promises s)) s).

Definition disconnect : M unit :=
  c <- socket_connected ;;
  cur <- gets socket ;;
  match c, cur with
  | true, Some i => socket_disconnect i
  | _, _ => ret tt
  end ;;
  modify (set_isConnected false).

Definition getConnectionStatus (s : state) : bool := isConnected s.

Definition getConnectedIP : M string := getIPFromUrl.

(** *** What socket.io delivers *)

Fixpoint times (n : nat) (m : M unit) : M unit :=
  match n with
  | O => ret tt
  | S n' => m ;; times n' m
  end.

(** The handshake of socket [i] completes. *)
Definition deliver_connect (i : nat) : M unit :=
  k <- socket_at i ;;
  match k with
  | Some k =>
      match sock_phase k with
      | Opening =>
          update_socket i (fun k => set_phase Open (set_retries reconnectionAttempts k)) ;;
          on_connect (sock_promise k)
      | _ => ret tt
      end
  | None => ret tt
  end.

(** An attempt of socket [i] fails; the manager tries again while it has
    attempts left and gives up after. *)
Definition deliver_connect_error (i : nat) (reason : string) : M unit :=
  k <- socket_at i ;;
  match k with
  | Some k =>
      match sock_phase k with
      | Opening =>
          on_connect_error (sock_promise k) (TransportError reason) ;;
          match sock_retries k with
          | O => update_socket i (set_phase Closed)
          | S n => update_socket i (set_retries n)
          end
      | _ => ret tt
      end
  | None => ret tt
  end.

(** The transport of the connected socket [i] closes; the manager starts to
    reconnect. *)
Definition deliver_drop (i : nat) : M unit :=
  k <- socket_at i ;;
  match k with
  | Some k =>
      match sock_phase k with
      | Open =>
          update_socket i (fun k => set_phase Opening (set_retries reconnectionAttempts k)) ;;
          on_disconnect
      | _ => ret tt
      end
  | None => ret tt
  end.

(** A data event arrives on the connected socket [i]: every listener
    attached for it runs. *)
Definition deliver_data (i : nat) (name : data_event) (data : js_value) : M unit :=
  k <- socket_at i ;;
  match k with
  | Some k =>
      match sock_phase k with
      | Open => times (data_listeners k) (listener name data)
      | _ => ret tt
      end
  | None => ret tt
  end.

Inductive event : Type :=
| Call_connect
| Call_disconnect
| Call_changeConnection (newIP : string) (port : N)
| Call_setCallback (sl : slot)
| Net_connect (i : nat)
| Net_connect_error (i : nat) (reason : string)
| Net_drop (i : nat)
| Net_data (i : nat) (name : data_event) (data : js_value).

Definition step (e : event) : M unit :=
  match e with
  | Call_connect => _ <- connect ;; ret tt
  | Call_disconnect => disconnect
  | Call_changeConnection newIP port => changeConnection newIP port
  | Call_setCallback sl => modify (register sl)
  | Net_connect i => deliver_connect i
  | Net_connect_error i reason => deliver_connect_error i reason
  | Net_drop i => deliver_drop i
  | Net_data i name data => deliver_data i name data
  end.

Fixpoint run (evs : list event) (s : state) : state :=
  match evs with
  | [] => s
  | e :: rest => run rest (after (step e s))
  end.


Definition keeps_target (e : event) : bool :=
  match e with
  | Call_changeConnection _ _ => false
  | _ => true
  end.

Definition count_live (s : state) : nat :=
  List.length (filter live (sockets s)).

Definition last_vitals (s : state) : option notification :=
  last (map Some (filter (fun n => match n with VitalSignsUpdate _ _ => true | _ => false end)
                         (delivered s))) None.

End Service.

(** ** Readings used in the statements *)

(** Each byte as its one-character string, in order: the binary string the
    specification describes. *)
Definition byte_chars (bytes : list byte) : string :=
  fold_right (fun b rest => String (ascii_of_byte b) rest) EmptyString bytes.

Definition nullish (v : js_value) : bool :=
  match v with
  | JSUndefined | JSNull => true
  | _ => false
  end.

(** [v.name] where reading it does not throw. *)
Definition prop (v : js_value) (name : string) : js_value :=
  match get_prop v name with
  | inr x => x
  | inl _ => JSUndefined
  end.

(** The address the status callback is given for a URL. *)
Definition hostname_or_unknown {platform : Platform} (url : string) : string :=
  match URL_hostname url with
  | Some hostname => hostname
  | None => "Unknown"
  end.

(** A computation leaves the reading [f] of the state as it was. *)
Definition keeps {A B} (f : state -> B) (m : M A) : Prop :=
  forall s, f (after (m s)) = f s.


(** Every character of a text satisfies [p]. *)
Fixpoint all_chars (p : ascii -> bool) (s : string) : bool :=
  match s with
  | EmptyString => true
  | String c rest => p c && all_chars p rest
  end.

(** ** The platform, after its standards *)

(** Character classes and the text operations the two standards share. *)
Module Text.

Definition code (c : ascii) : N := N_of_ascii c.

Definition between (lo hi : N) (c : ascii) : bool :=
  ((lo <=? code c) && (code c <=? hi))%N.

Definition is_ASCII (c : ascii) : bool := (code c <? 128)%N.
Definition is_digit (c : ascii) : bool := between 48 57 c.
Definition is_upper (c : ascii) : bool := between 65 90 c.
Definition is_alpha (c : ascii) : bool := is_upper c || between 97 122 c.

Definition lower (c : ascii) : ascii :=
  if is_upper c then ascii_of_N (code c + 32) else c.

(** The value of a digit in a radix of at most 16, when it is one. *)
Definition digit_in (radix : N) (c : ascii) : option N :=
  let v := if is_digit c then Some (code c - 48)%N
           else if between 97 102 (lower c) then Some (code (lower c) - 87)%N
           else None in
  match v with
  | Some d => if (d <? radix)%N then Some d else None
  | None => None
  end.

(** The number a text of digits spells in a radix; the empty text spells 0. *)
Fixpoint number_from (radix : N) (acc : N) (s : string) : option N :=
  match s with
  | EmptyString => Some acc
  | String c rest =>
      match digit_in radix c with
      | Some d => number_from radix (acc * radix + d) rest
      | None => None
      end
  end.

Definition number_in (radix : N) (s : string) : option N := number_from radix 0 s.

Fixpoint map_chars (f : ascii -> ascii) (s : string) : string :=
  match s with
  | EmptyString => EmptyString
  | String c rest => String (f c) (map_chars f rest)
  end.

Fixpoint remove (p : ascii -> bool) (s : string) : string :=
  match s with
  | EmptyString => EmptyString
  | String c rest => if p c then remove p rest else String c (remove p rest)
  end.

Fixpoint strip_leading (p : ascii -> bool) (s : string) : string :=
  match s with
  | EmptyString => EmptyString
  | String c rest => if p c then strip_leading p rest else s
  end.

Fixpoint strip_trailing (p : ascii -> bool) (s : string) : string :=
  match s with
  | EmptyString => EmptyString
  | String c rest =>
      match strip_trailing p rest with
      | EmptyString => if p c then EmptyString else String c EmptyString
      | kept => String c kept
      end
  end.

Definition strip (p : ascii -> bool) (s : string) : string :=
  strip_trailing p (strip_leading p s).

(** The text before the first character that satisfies [p]. *)
Fixpoint before (p : ascii -> bool) (s : string) : string :=
  match s with
  | EmptyString => EmptyString
  | String c rest => if p c then EmptyString else String c (before p rest)
  end.

(** Strictly splitting a text on a character. *)
Fixpoint split_on (sep : ascii) (s : string) : list string :=
  match s with
  | EmptyString => [EmptyString]
  | String c rest =>
      if (c =? sep)%char then EmptyString :: split_on sep rest
      else match split_on sep rest with
           | part :: parts => String c part :: parts
           | [] => [String c EmptyString]
           end
  end.

Fixpoint starts_with (pre s : string) : bool :=
  match pre, s with
  | EmptyString, _ => true
  | String a pre', String b s' => (a =? b)%char && starts_with pre' s'
  | _, EmptyString => false
  end.

Definition decimal (n : N) : string := NilEmpty.string_of_uint (N.to_uint n).

(** A number in hexadecimal, in lower case and without leading zeros. *)
Definition hexadecimal (n : N) : string :=
  HexadecimalString.NilZero.string_of_uint (N.to_hex_uint n).

End Text.

(** [new URL(text).hostname] after the URL Standard (url.spec.whatwg.org),
    without a base URL. The model reads the URLs of the schemes http, https,
    ws, wss and ftp whose host is an IPv6 address in brackets or is written
    in ASCII; for the others it answers [Beyond]: a file URL or a URL of
    another scheme has a host of another kind, and a domain outside ASCII,
    or with a label that starts with xn--, needs the Unicode tables of
    IDNA. *)
Module URL.
Import Text.

Inductive parsed : Type :=
| Hostname (host : string)
| Failure
| Beyond.

Definition is_C0_control_or_space (c : ascii) : bool := (code c <=? 32)%N.

Definition is_tab_or_newline (c : ascii) : bool :=
  ((code c =? 9) || (code c =? 10) || (code c =? 13))%N.

(** The characters of a scheme after its first. *)
Definition is_scheme_char (c : ascii) : bool :=
  is_alpha c || is_digit c || (c =? "+")%char || (c =? "-")%char || (c =? ".")%char.

(** Scheme state: the scheme in lower case and what follows its colon. *)
Fixpoint scheme_state (s : string) : option (string * string) :=
  match s with
  | EmptyString => None
  | String c rest =>
      if (c =? ":")%char then Some (EmptyString, rest)
      else if is_scheme_char c
           then match scheme_state rest with
                | Some (scheme, remaining) => Some (String (lower c) scheme, remaining)
                | None => None
                end
           else None
  end.

Definition is_slash (c : ascii) : bool := ((c =? "/") || (c =? "\"))%char.

(** What ends the authority of a special URL. *)
Definition ends_authority (c : ascii) : bool :=
  ((c =? "/") || (c =? "?") || (c =? "#") || (c =? "\"))%char.

(** The text after the last at sign, when there is one. *)
Fixpoint after_last_at (s : string) : option string :=
  match s with
  | EmptyString => None
  | String c rest =>
      match after_last_at rest with
      | Some host => Some host
      | None => if (c =? "@")%char then Some rest else None
      end
  end.

(** Host state: the host, up to the first colon outside brackets, and the
    text after that colon. *)
Fixpoint host_state (inside_brackets : bool) (s : string) : string * option string :=
  match s with
  | EmptyString => (EmptyString, None)
  | String c rest =>
      if (c =? ":")%char && negb inside_brackets then (EmptyString, Some rest)
      else
        let inside := if (c =? "[")%char then true
                      else if (c =? "]")%char then false
                      else inside_brackets in
        let (host, port) := host_state inside rest in
        (String c host, port)
  end.

(** Port state, on the text between the colon and the end of the authority. *)
Definition port_state (s : string) : bool :=
  match s with
  | EmptyString => true
  | _ => match number_in 10 s with
         | Some port => (port <=? 65535)%N
         | None => false
         end
  end.

Fixpoint percent_decode (s : string) : string :=
  match s with
  | EmptyString => EmptyString
  | String c rest =>
      match rest with
      | String a (String b rest') =>
          match (if (c =? "%")%char then digit_in 16 a else None), digit_in 16 b with
          | Some h, Some l => String (ascii_of_N (16 * h + l)) (percent_decode rest')
          | _, _ => String c (percent_decode rest)
          end
      | _ => String c (percent_decode rest)
      end
  end.

Definition is_forbidden_host_code_point (c : ascii) : bool :=
  existsb (N.eqb (code c)) [0; 9; 10; 13; 32; 35; 47; 58; 60; 62; 63; 64; 91; 92; 93; 94; 124]%N.

Definition is_forbidden_domain_code_point (c : ascii) : bool :=
  is_forbidden_host_code_point c || (code c <=? 31)%N || (code c =? 37)%N
  || (code c =? 127)%N.

(** The IPv4 number parser. *)
Definition ipv4_number (s : string) : option N :=
  match s with
  | EmptyString => None
  | String "0" (String x rest) =>
      if ((x =? "x") || (x =? "X"))%char then number_in 16 rest
      else number_in 8 (String x rest)
  | _ => number_in 10 s
  end.

(** The ends-in-a-number checker. *)
Definition ends_in_a_number (s : string) : bool :=
  let parts := split_on "." s in
  match last parts EmptyString with
  | EmptyString =>
      match parts with
      | [_] => false
      | _ =>
          let l := last (removelast parts) EmptyString in
          match l with
          | EmptyString => false
          | _ => all_chars is_digit l || match ipv4_number l with Some _ => true | None => false end
          end
      end
  | l => all_chars is_digit l || match ipv4_number l with Some _ => true | None => false end
  end.

Fixpoint ipv4_numbers (parts : list string) : option (list N) :=
  match parts with
  | [] => Some []
  | part :: rest =>
      match ipv4_number part, ipv4_numbers rest with
      | Some n, Some ns => Some (n :: ns)
      | _, _ => None
      end
  end.

(** The numbers but the last are at most 255; the address they make with
    the last, which fills the places they leave. *)
Fixpoint ipv4_of (numbers : list N) (place : N) : option N :=
  match numbers with
  | [] => None
  | [l] => if (l <? 256 ^ (place + 1))%N then Some l else None
  | n :: rest =>
      if (255 <? n)%N then None
      else match ipv4_of rest (place - 1) with
           | Some v => Some (n * 256 ^ place + v)%N
           | None => None
           end
  end.

(** The IPv4 parser. *)
Definition ipv4_parser (s : string) : option N :=
  let parts := split_on "." s in
  let parts := match last parts EmptyString with
               | EmptyString => if (1 <? List.length parts)%nat then removelast parts else parts
               | _ => parts
               end in
  if (4 <? List.length parts)%nat then None
  else match ipv4_numbers parts with
       | Some numbers => ipv4_of numbers 3
       | None => None
       end.

(** The IPv4 serializer. *)
Definition ipv4_serializer (address : N) : string :=
  decimal (address / 256 ^ 3 mod 256) ++ "." ++ decimal (address / 256 ^ 2 mod 256)
  ++ "." ++ decimal (address / 256 mod 256) ++ "." ++ decimal (address mod 256).

(** The number two decimal parts of an IPv4 address inside an IPv6 address
    make, and the two pieces the four parts make. *)
Definition ipv4_piece (part : string) : option N :=
  match part with
  | EmptyString => None
  | String "0" (String _ _) => None
  | _ => match number_in 10 part with
         | Some v => if (v <=? 255)%N then Some v else None
         | None => None
         end
  end.

Definition ipv4_in_ipv6 (text : string) : option (list N) :=
  match map ipv4_piece (split_on "." text) with
  | [Some a; Some b; Some c; Some d] => Some [a * 256 + b; c * 256 + d]%N
  | _ => None
  end.

Definition is_hex_digit (c : ascii) : bool :=
  match digit_in 16 c with
  | Some _ => true
  | None => false
  end.

Definition piece_value (digits : string) : N :=
  match number_in 16 digits with
  | Some v => v
  | None => 0
  end.

(** The pieces of an IPv6 address in the order they are written, and where
    the double colon stands among them; [digits] are the hexadecimal digits
    read of the piece at hand. A double colon counts as one piece 0. *)
Fixpoint ipv6_pieces (s : string) (pieces : list N) (compress : option nat)
    (digits : string) : option (list N * option nat) :=
  match s with
  | EmptyString =>
      Some (match digits with
            | EmptyString => pieces
            | _ => (pieces ++ [piece_value digits])%list
            end, compress)
  | String c rest =>
      if match digits with EmptyString => (List.length pieces =? 8)%nat | _ => false end
      then None
      else if is_hex_digit c
      then if (String.length digits <? 4)%nat
           then ipv6_pieces rest pieces compress (digits ++ String c EmptyString)
           else None
      else if (c =? ".")%char
      then match digits with
           | EmptyString => None
           | _ => if (6 <? List.length pieces)%nat then None
                  else match ipv4_in_ipv6 (digits ++ s) with
                       | Some last_two => Some ((pieces ++ last_two)%list, compress)
                       | None => None
                       end
           end
      else if (c =? ":")%char
      then match digits with
           | EmptyString =>
               match compress with
               | Some _ => None
               | None => ipv6_pieces rest (pieces ++ [0%N])%list (Some (S (List.length pieces)))
                           EmptyString
               end
           | _ =>
               match rest with
               | EmptyString => None
               | _ => ipv6_pieces rest (pieces ++ [piece_value digits])%list compress EmptyString
               end
           end
      else None
  end.

(** The IPv6 parser: the eight pieces of the address. *)
Definition ipv6_parser (input : string) : option (list N) :=
  let read :=
    match input with
    | String ":" (String ":" rest) => ipv6_pieces rest [0%N] (Some 1%nat) EmptyString
    | String ":" _ => None
    | _ => ipv6_pieces input [] None EmptyString
    end in
  match read with
  | Some (pieces, Some compress) =>
      Some (firstn compress pieces ++ repeat 0%N (8 - List.length pieces)
            ++ skipn compress pieces)%list
  | Some (pieces, None) => if (List.length pieces =? 8)%nat then Some pieces else None
  | None => None
  end.

Fixpoint leading_zeros (pieces : list N) : nat :=
  match pieces with
  | 0%N :: rest => S (leading_zeros rest)
  | _ => O
  end.

(** Where the first longest run of pieces 0 starts and how long it is,
    among the runs longer than [snd best]. *)
Fixpoint compression (pieces : list N) (index : nat) (best : nat * nat) : nat * nat :=
  match pieces with
  | [] => best
  | _ :: rest =>
      let run := leading_zeros pieces in
      compression rest (S index) (if (snd best <? run)%nat then (index, run) else best)
  end.

(** The IPv6 serializer. *)
Definition ipv6_serializer (address : list N) : string :=
  let (start, run) := compression address 0 (O, 1%nat) in
  if (run <=? 1)%nat then String.concat ":" (map hexadecimal address)
  else String.concat ":" (map hexadecimal (firstn start address)) ++ "::"
       ++ String.concat ":" (map hexadecimal (skipn (start + run) address)).

(** The text between an opening bracket, which the host starts with, and a
    closing bracket at its end. *)
Fixpoint up_to_closing_bracket (s : string) : option string :=
  match s with
  | EmptyString => None
  | String c EmptyString => if (c =? "]")%char then Some EmptyString else None
  | String c rest =>
      match up_to_closing_bracket rest with
      | Some inner => Some (String c inner)
      | None => None
      end
  end.

Definition bracketed_host (input : string) : parsed :=
  match input with
  | String _ after_bracket =>
      match up_to_closing_bracket after_bracket with
      | Some inner =>
          match ipv6_parser inner with
          | Some address => Hostname ("[" ++ ipv6_serializer address ++ "]")
          | None => Failure
          end
      | None => Failure
      end
  | EmptyString => Failure
  end.

(** The host parser, for a host that is not opaque. *)
Definition host_parser (input : string) : parsed :=
  if starts_with "[" input then bracketed_host input
  else if negb (all_chars is_ASCII input) then Beyond
  else
    let domain := percent_decode input in
    if negb (all_chars is_ASCII domain) then Beyond
    else
      let asciiDomain := map_chars lower domain in
      if existsb (starts_with "xn--") (split_on "." asciiDomain) then Beyond
      else if negb (all_chars (fun c => negb (is_forbidden_domain_code_point c)) asciiDomain)
      then Failure
      else if ends_in_a_number asciiDomain
      then match ipv4_parser asciiDomain with
           | Some address => Hostname (ipv4_serializer address)
           | None => Failure
           end
      else Hostname asciiDomain.

(** Authority, host and port states of a special URL, on what follows the
    slashes after the scheme. *)
Definition authority_state (s : string) : parsed :=
  let authority := before ends_authority s in
  let host_and_port := match after_last_at authority with
                       | Some text => text
                       | None => authority
                       end in
  let (host, port) := host_state false host_and_port in
  match host with
  | EmptyString => Failure
  | _ =>
      match port with
      | Some digits => if port_state digits then host_parser host else Failure
      | None => host_parser host
      end
  end.

Definition hostname (url : string) : parsed :=
  let input := remove is_tab_or_newline (strip is_C0_control_or_space url) in
  match input with
  | EmptyString => Failure
  | String c _ =>
      if is_alpha c
      then match scheme_state input with
           | Some (scheme, remaining) =>
               if existsb (String.eqb scheme) ["http"; "https"; "ws"; "wss"; "ftp"]
               then authority_state (strip_leading is_slash remaining)
               else Beyond
           | None => Failure
           end
      else Failure
  end.

End URL.


(** [new Uint8Array(value)] after ECMAScript (the typed-array constructor,
    ToIndex, ToNumber, ToPrimitive, ToUint8). Memory is not bounded: an
    array of any length up to 2^53 - 1 is built. *)
Module ECMAScript.
Import Text.

(** A mathematical value before it is rounded to a Number, or what ToNumber
    gives instead. *)
Inductive value : Type :=
| NaN
| Infinity (negative : bool)
| Real (negative : bool) (numerator denominator : N).

(** The result of ToIntegerOrInfinity. *)
Inductive integer : Type :=
| Finite (z : Z)
| PlusInfinity
| MinusInfinity.

Definition is_white_space (c : ascii) : bool :=
  existsb (N.eqb (code c)) [9; 10; 11; 12; 13; 32; 160]%N.

(** The longest prefix of digits, and the rest. *)
Fixpoint digits_of (s : string) : string * string :=
  match s with
  | EmptyString => (EmptyString, EmptyString)
  | String c rest =>
      if is_digit c
      then let (digits, remaining) := digits_of rest in (String c digits, remaining)
      else (EmptyString, s)
  end.

Definition signed (s : string) : bool * string :=
  match s with
  | String "+" rest => (false, rest)
  | String "-" rest => (true, rest)
  | _ => (false, s)
  end.

(** ExponentPart, when the text is one or is empty. *)
Definition exponent_part (s : string) : option Z :=
  match s with
  | EmptyString => Some 0%Z
  | String e rest =>
      if ((e =? "e") || (e =? "E"))%char
      then let (negative, digits) := signed rest in
           match digits, number_in 10 digits with
           | String _ _, Some n => Some (if negative then - Z.of_N n else Z.of_N n)%Z
           | _, _ => None
           end
      else None
  end.

(** StrUnsignedDecimalLiteral but Infinity. *)
Definition unsigned_decimal (negative : bool) (s : string) : value :=
  let (whole, rest) := digits_of s in
  let (fraction, rest) :=
    match rest with
    | String "." after_dot => digits_of after_dot
    | _ => (EmptyString, rest)
    end in
  match (whole ++ fraction)%string, exponent_part rest, number_in 10 (whole ++ fraction) with
  | String _ _, Some e, Some digits =>
      let scale := (e - Z.of_nat (String.length fraction))%Z in
      if (0 <=? scale)%Z then Real negative (digits * 10 ^ Z.to_N scale) 1
      else Real negative digits (10 ^ Z.to_N (- scale))
  | _, _, _ => NaN
  end.

Definition non_decimal (radix : N) (digits : string) : value :=
  match digits, number_in radix digits with
  | String _ _, Some n => Real false n 1
  | _, _ => NaN
  end.

(** StringToNumber, before rounding. *)
Definition StringToNumber (s : string) : value :=
  match strip is_white_space s with
  | EmptyString => Real false 0 1
  | String "0" (String x digits) as literal =>
      if ((x =? "x") || (x =? "X"))%char then non_decimal 16 digits
      else if ((x =? "o") || (x =? "O"))%char then non_decimal 8 digits
      else if ((x =? "b") || (x =? "B"))%char then non_decimal 2 digits
      else unsigned_decimal false literal
  | literal =>
      let (negative, unsigned) := signed literal in
      if (unsigned =? "Infinity")%string then Infinity negative
      else unsigned_decimal negative unsigned
  end.

(** Rounding to the nearest, ties to even. *)
Definition round_half_even (numerator denominator : N) : N :=
  let k := (numerator / denominator)%N in
  let twice := (2 * (numerator mod denominator))%N in
  if (twice <? denominator)%N then k
  else if (denominator <? twice)%N then (k + 1)%N
  else if N.even k then k else (k + 1)%N.

(** The integral part of the binary64 number nearest to
    [numerator / denominator], when that number is finite: the quotient is
    rounded to 53 significant bits, then truncated. *)
Definition truncate_rounded (numerator denominator : N) : option N :=
  let bits := N.size (numerator / denominator) in
  let rounded :=
    if (bits <=? 53)%N
    then (round_half_even (numerator * 2 ^ (53 - bits)) denominator / 2 ^ (53 - bits))%N
    else (round_half_even numerator (denominator * 2 ^ (bits - 53)) * 2 ^ (bits - 53))%N in
  if (2 ^ 1024 <=? rounded)%N then None else Some rounded.

Definition integer_of (v : value) : integer :=
  match v with
  | NaN => Finite 0
  | Infinity negative => if negative then MinusInfinity else PlusInfinity
  | Real negative p q =>
      match truncate_rounded p q with
      | Some n => Finite (if negative then - Z.of_N n else Z.of_N n)
      | None => if negative then MinusInfinity else PlusInfinity
      end
  end.

(** [Array.prototype.join] of a typed array, which is its [toString]. *)
Fixpoint join (bytes : list byte) : string :=
  match bytes with
  | [] => EmptyString
  | [b] => decimal (Byte.to_N b)
  | b :: rest => decimal (Byte.to_N b) ++ "," ++ join rest
  end.

Definition has_own (name : string) (fields : list (string * js_value)) : bool :=
  existsb (fun kv => (fst kv =? name)%string) fields.

(** ToIntegerOrInfinity. An object is first made a primitive: a buffer and
    a plain object become a text that is no number, a typed array the text
    of its bytes joined by commas; an own property toString, which a value
    received in an event cannot make a function, leaves no way to a
    primitive. *)
Definition ToIntegerOrInfinity (v : js_value) : js_error + integer :=
  match v with
  | JSUndefined => inr (Finite 0)
  | JSNull => inr (Finite 0)
  | JSBoolean b => inr (Finite (if b then 1 else 0))
  | JSNumber x =>
      inr match x with
          | S754_zero _ | S754_nan => Finite 0
          | S754_infinity negative => if negative then MinusInfinity else PlusInfinity
          | S754_finite negative m e =>
              let magnitude := match e with
                               | Zneg k => Z.shiftr (Zpos m) (Zpos k)
                               | _ => Z.shiftl (Zpos m) e
                               end in
              Finite (if negative then - magnitude else magnitude)
          end
  | JSString text => inr (integer_of (StringToNumber text))
  | JSArrayBuffer _ => inr (Finite 0)
  | JSUint8Array bytes => inr (integer_of (StringToNumber (join bytes)))
  | JSObject fields => if has_own "toString" fields then inl TypeError else inr (Finite 0)
  end.

Definition max_safe : Z := (2 ^ 53 - 1)%Z.

Definition ToIndex (v : js_value) : js_error + N :=
  match ToIntegerOrInfinity v with
  | inl e => inl e
  | inr (Finite z) => if ((0 <=? z) && (z <=? max_safe))%Z then inr (Z.to_N z) else inl RangeError
  | inr _ => inl RangeError
  end.

Definition ToLength (v : js_value) : js_error + N :=
  match ToIntegerOrInfinity v with
  | inl e => inl e
  | inr (Finite z) => inr (Z.to_N (Z.min z max_safe))
  | inr PlusInfinity => inr (Z.to_N max_safe)
  | inr MinusInfinity => inr 0%N
  end.

Definition ToUint8 (v : js_value) : js_error + byte :=
  match ToIntegerOrInfinity v with
  | inl e => inl e
  | inr (Finite z) =>
      inr match Byte.of_N (Z.to_N (z mod 256)) with Some b => b | None => x00 end
  | inr _ => inr x00
  end.

(** The elements of an array-like object from index [k] on. *)
Fixpoint elements (fields : list (string * js_value)) (k : N) (count : nat)
  : js_error + list byte :=
  match count with
  | O => inr []
  | S count' =>
      match ToUint8 (lookup_field (decimal k) fields) with
      | inl e => inl e
      | inr b =>
          match elements fields (k + 1) count' with
          | inl e => inl e
          | inr rest => inr (b :: rest)
          end
      end
  end.

Definition new_Uint8Array (v : js_value) : js_error + list byte :=
  match v with
  | JSArrayBuffer bytes | JSUint8Array bytes => inr bytes
  | JSObject fields =>
      match ToLength (lookup_field "length" fields) with
      | inl e => inl e
      | inr len => elements fields 0 (N.to_nat len)
      end
  | primitive =>
      match ToIndex primitive with
      | inl e => inl e
      | inr len => inr (repeat x00 (N.to_nat len))
      end
  end.

End ECMAScript.

(** A platform to run statements on: its URL parser and its typed-array
    constructor are those of the two standards. A URL the model of the URL
    Standard does not read is taken as one the parser rejects; the service
    builds http URLs only. *)
Definition plain_platform : Platform :=
  {| URL_hostname := fun url => match URL.hostname url with
                                | URL.Hostname host => Some host
                                | _ => None
                                end;
     Uint8Array_of_other := ECMAScript.new_Uint8Array |}.

(** The URL parser of a platform is that of the URL Standard, where the
    model reads the URL. *)
Definition follows_URL_Standard (platform : Platform) : Prop :=
  forall url,
    match URL.hostname url with
    | URL.Hostname host => URL_hostname url = Some host
    | URL.Failure => URL_hostname url = None
    | URL.Beyond => True
    end.

(** The typed-array constructor of a platform is that of ECMAScript. *)
Definition follows_ECMAScript (platform : Platform) : Prop :=
  forall v, Uint8Array_of_other v = ECMAScript.new_Uint8Array v.

(** An IPv4 address as it is written: four numbers in decimal, with dots. *)
Definition dotted_quad (a b c d : N) : string :=
  Text.decimal a ++ "." ++ Text.decimal b ++ "." ++ Text.decimal c ++ "." ++ Text.decimal d.

(** A name of lower-case letters only, such as localhost. *)
Definition is_lower_letter (c : ascii) : bool := Text.between 97 122 c.

Definition plain_name (s : string) : bool :=
  negb (s =? EmptyString)%string && all_chars is_lower_letter s.

(** The addresses that come back as they are written: four decimal numbers
    of at most 255 without leading zeros, or a name of lower-case letters. *)
Definition is_plain_address (address : string) : Prop :=
  (exists a b c d : N,
      (a <= 255)%N /\ (b <= 255)%N /\ (c <= 255)%N /\ (d <= 255)%N
      /\ address = dotted_quad a b c d)
  \/ plain_name address = true.

(** The characters of such addresses. *)
Definition is_host_char (c : ascii) : bool :=
  Text.is_digit c || is_lower_letter c || (c =? ".")%char.

(** What a number of at most 255 looks like in decimal: a text of digits,
    not empty, that the IPv4 number parser reads back as the number. *)
Definition octet_checked (n : N) : bool :=
  all_chars Text.is_digit (Text.decimal n)
  && negb (Text.decimal n =? EmptyString)%string
  && negb (Text.starts_with "xn--" (Text.decimal n))
  && match URL.ipv4_number (Text.decimal n) with
     | Some m => (m =? n)%N
     | None => false
     end.

(** A character a base64 text may hold: one of the alphabet, or the pad. *)
Definition is_base64_char (c : ascii) : bool :=
  match Base64.char_sextet c with
  | Some _ => true
  | None => (c =? Base64.pad)%char
  end.

Fixpoint count_pads (s : string) : nat :=
  match s with
  | EmptyString => 0
  | String c rest => (if (c =? Base64.pad)%char then 1 else 0) + count_pads rest
  end.

(** One of the 64 characters of the base64 alphabet. *)
Definition is_alphabet_char (c : ascii) : bool :=
  match Base64.char_sextet c with
  | Some _ => true
  | None => false
  end.

(** A text of [n] pad characters. *)
Fixpoint pads (n : nat) : string :=
  match n with
  | O => EmptyString
  | S n' => String Base64.pad (pads n')
  end.

(** ** The address form of the diagnostics screen *)

(** The regular expressions [validateIP] needs: characters, ranges,
    sequence, alternative; [r?] and [r{n}] are written with them. A test
    with a pattern anchored at both ends ([^...$]) asks whether the whole
    text is in the language, which the derivatives decide. *)
Module Regex.

Inductive regex : Type :=
| Empty
| Eps
| Chr (c : ascii)
| Range (lo hi : ascii)
| Seq (r1 r2 : regex)
| Alt (r1 r2 : regex).

Definition Opt (r : regex) : regex := Alt r Eps.

Fixpoint Times (n : nat) (r : regex) : regex :=
  match n with
  | O => Eps
  | S n' => Seq r (Times n' r)
  end.

Definition in_range (lo hi c : ascii) : bool :=
  ((N_of_ascii lo <=? N_of_ascii c) && (N_of_ascii c <=? N_of_ascii hi))%N.

Fixpoint nullable (r : regex) : bool :=
  match r with
  | Empty => false
  | Eps => true
  | Chr _ => false
  | Range _ _ => false
  | Seq r1 r2 => nullable r1 && nullable r2
  | Alt r1 r2 => nullable r1 || nullable r2
  end.

Fixpoint derive (c : ascii) (r : regex) : regex :=
  match r with
  | Empty => Empty
  | Eps => Empty
  | Chr d => if (c =? d)%char then Eps else Empty
  | Range lo hi => if in_range lo hi c then Eps else Empty
  | Seq r1 r2 =>
      Alt (Seq (derive c r1) r2) (if nullable r1 then derive c r2 else Empty)
  | Alt r1 r2 => Alt (derive c r1) (derive c r2)
  end.

Fixpoint matches (r : regex) (s : string) : bool :=
  match s with
  | EmptyString => nullable r
  | String c rest => matches (derive c r) rest
  end.

(** The texts of an expression. *)
Fixpoint lang (r : regex) (s : string) : Prop :=
  match r with
  | Empty => False
  | Eps => s = EmptyString
  | Chr c => s = String c EmptyString
  | Range lo hi => exists c, s = String c EmptyString /\ in_range lo hi c = true
  | Seq r1 r2 => exists s1 s2, s = s1 ++ s2 /\ lang r1 s1 /\ lang r2 s2
  | Alt r1 r2 => lang r1 s \/ lang r2 s
  end.

End Regex.

(** [25[0-5]|2[0-4][0-9]|[01]?[0-9][0-9]?] *)
Definition octet_re : Regex.regex :=
  Regex.Alt
    (Regex.Seq (Regex.Chr "2") (Regex.Seq (Regex.Chr "5") (Regex.Range "0" "5")))
    (Regex.Alt
       (Regex.Seq (Regex.Chr "2") (Regex.Seq (Regex.Range "0" "4") (Regex.Range "0" "9")))
       (Regex.Seq (Regex.Opt (Regex.Alt (Regex.Chr "0") (Regex.Chr "1")))
          (Regex.Seq (Regex.Range "0" "9") (Regex.Opt (Regex.Range "0" "9"))))).

(** [^(?:(?:octet)\.){3}(?:octet)$] *)
Definition ipRegex : Regex.regex :=
  Regex.Seq (Regex.Times 3 (Regex.Seq octet_re (Regex.Chr "."))) octet_re.

Definition validateIP (ip : string) : bool := Regex.matches ipRegex ip.

(** The form: the text typed, whether the input is shown, and what pressing
    Connect does to the outside. *)
Record ip_form : Type := {
  newIP : string;
  showIPInput : bool
}.

Inductive form_effect : Type :=
| onConnectionChange_called (ip : string)
| nothing_called
| Alert_alert (title message : string).

(** [handleConnectionChange] of the screen; [handler] tells whether the
    [onConnectionChange] property is given. *)
Definition form_handleConnectionChange (handler : bool) (f : ip_form)
  : ip_form * form_effect :=
  if validateIP (newIP f)
  then ({| newIP := EmptyString; showIPInput := false |},
        if handler then onConnectionChange_called (newIP f) else nothing_called)
  else (f, Alert_alert "Invalid IP Address" "Please enter a valid IP address format").

(** A decimal digit, and the number a text of digits spells. *)
Definition is_digit (c : ascii) : bool := Regex.in_range "0" "9" c.

Definition digit_value (c : ascii) : N := (N_of_ascii c - 48)%N.

Fixpoint decimal_from (acc : N) (s : string) : N :=
  match s with
  | EmptyString => acc
  | String c rest => decimal_from (acc * 10 + digit_value c)%N rest
  end.

Definition decimal_value (s : string) : N := decimal_from 0 s.

(** One to three digits that spell a number up to 255. *)
Definition octet (s : string) : Prop :=
  (1 <= String.length s <= 3)%nat
  /\ all_chars is_digit s = true
  /\ (decimal_value s <= 255)%N.

(** ** The application around the service *)

(** [l.slice(-n)] for a positive [n]: the last [n] elements, or all of them
    when there are fewer. *)
Definition slice_last {A} (n : nat) (l : list A) : list A :=
  skipn (List.length l - n) l.

Inductive log_type : Type := info | warning | error_type.

Record LogMessage : Type := {
  timestamp : string;
  message : string;
  type : log_type
}.

Record SystemInfo : Type := {
  fps : spec_float;
  connectionStatus : status;
  connectedIP : string;
  logs : list LogMessage
}.

Record PatientInfo : Type := {
  name : string;
  location : string;
  facility : string;
  city : string;
  isSearching : bool
}.

(** The state [App] holds. *)
Record AppState : Type := {
  vitalSigns : VitalSigns;
  chipImage : js_value;
  rgbImageData : option string;
  thermalImageData : option string;
  systemInfo : SystemInfo;
  patientInfo : PatientInfo
}.

Definition initial_AppState : AppState :=
  {| vitalSigns := {| heartrate := JSString "N/A"; resprate := JSString "N/A";
                      temp := JSString "N/A" |};
     chipImage := JSUndefined;
     rgbImageData := None;
     thermalImageData := None;
     systemInfo := {| fps := S754_zero false; connectionStatus := Inactive;
                      connectedIP := EmptyString; logs := [] |};
     patientInfo := {| name := EmptyString; location := "Health Pod 005";
                       facility := "American Legion Post #175";
                       city := "Severna Park, MD"; isSearching := true |} |}.

Definition set_systemInfo (v : SystemInfo) (a : AppState) : AppState :=
  {| vitalSigns := vitalSigns a; chipImage := chipImage a;
     rgbImageData := rgbImageData a; thermalImageData := thermalImageData a;
     systemInfo := v; patientInfo := patientInfo a |}.

Definition set_patientInfo (v : PatientInfo) (a : AppState) : AppState :=
  {| vitalSigns := vitalSigns a; chipImage := chipImage a;
     rgbImageData := rgbImageData a; thermalImageData := thermalImageData a;
     systemInfo := systemInfo a; patientInfo := v |}.

(** [addLog(type, message)]; [now] is the time of day it reads. *)
Definition addLog (now : string) (t : log_type) (msg : string) (a : AppState) : AppState :=
  let newLog := {| timestamp := now; message := msg; type := t |} in
  let prev := systemInfo a in
  set_systemInfo
    {| fps := fps prev; connectionStatus := connectionStatus prev;
       connectedIP := connectedIP prev;
       logs := slice_last 49 (logs prev) ++ [newLog] |} a.

(** The log lines the diagnostics screen draws:
    [systemInfo.logs.slice(-10).reverse()]. *)
Definition drawn_logs (info : SystemInfo) : list LogMessage :=
  rev (slice_last 10 (logs info)).

(** The callbacks [initializeSocketService] registers, as what each does to
    the state when the service calls it. [searching] is the
    [patientInfo.isSearching] the vitals callback was created with, [show]
    how a value is written in a template text. *)
Definition on_notification (show : js_value -> string) (searching : bool)
    (now : string) (n : notification) (a : AppState) : AppState :=
  match n with
  | VitalSignsUpdate vitals image =>
      let a1 :=
        {| vitalSigns := vitals; chipImage := image;
           rgbImageData := rgbImageData a; thermalImageData := thermalImageData a;
           systemInfo := systemInfo a; patientInfo := patientInfo a |} in
      let a2 :=
        addLog now info
          ("Vital signs updated: HR=" ++ show (heartrate vitals)
           ++ ", RR=" ++ show (resprate vitals)
           ++ ", Temp=" ++ show (temp vitals)) a1 in
      if negb (match heartrate vitals with
               | JSString text => (text =? "N/A")%string
               | _ => false
               end) && searching
      then
        let prev := patientInfo a2 in
        set_patientInfo
          {| name := "Patient Detected"; location := location prev;
             facility := facility prev; city := city prev; isSearching := false |} a2
      else a2
  | RGBImageUpdate imageData =>
      {| vitalSigns := vitalSigns a; chipImage := chipImage a;
         rgbImageData := Some imageData; thermalImageData := thermalImageData a;
         systemInfo := systemInfo a; patientInfo := patientInfo a |}
  | ThermalImageUpdate imageData =>
      {| vitalSigns := vitalSigns a; chipImage := chipImage a;
         rgbImageData := rgbImageData a; thermalImageData := Some imageData;
         systemInfo := systemInfo a; patientInfo := patientInfo a |}
  | FPSUpdate x =>
      let prev := systemInfo a in
      set_systemInfo
        {| fps := x; connectionStatus := connectionStatus prev;
           connectedIP := connectedIP prev; logs := logs prev |} a
  | ConnectionStatusChange st ip =>
      let prev := systemInfo a in
      let a1 :=
        set_systemInfo
          {| fps := fps prev; connectionStatus := st; connectedIP := ip;
             logs := logs prev |} a in
      let msg :=
        match st with
        | Active => "Connected to publisher at " ++ ip
        | Inactive => "Disconnected from publisher"
        end in
      let a2 := addLog now (match st with Active => info | Inactive => warning end) msg a1 in
      match st with
      | Inactive =>
          let prev := patientInfo a2 in
          set_patientInfo
            {| name := EmptyString; location := location prev;
               facility := facility prev; city := city prev; isSearching := true |} a2
      | Active => a2
      end
  end.

(** The notifications of a service handled one after the other, each at its
    time of day. *)
Definition handle_all (show : js_value -> string) (searching : bool)
    (ns : list (string * notification)) (a : AppState) : AppState :=
  fold_left (fun a tn => on_notification show searching (fst tn) (snd tn) a) ns a.

Definition DEFAULT_PUBLISHER_IP : string := "10.0.0.32".

(** [initializeWithDiscovery] up to its call of [initializeSocketService]:
    the address it passes on, and the state with the lines it has logged. *)
Definition initializeWithDiscovery (net : network) (now1 now2 : string) (a : AppState)
  : string * AppState :=
  let a1 := addLog now1 info "Searching for publisher device..." a in
  match fst (discoverPublisher net) with
  | Some discoveredIP =>
      if (discoveredIP =? EmptyString)%string
      then (DEFAULT_PUBLISHER_IP,
            addLog now2 warning
              ("Auto-discovery failed, trying default IP: " ++ DEFAULT_PUBLISHER_IP) a1)
      else (discoveredIP,
            addLog now2 info ("Publisher auto-discovered at " ++ discoveredIP) a1)
  | None =>
      (DEFAULT_PUBLISHER_IP,
       addLog now2 warning
         ("Auto-discovery failed, trying default IP: " ++ DEFAULT_PUBLISHER_IP) a1)
  end.

(** *** The charts of the health screen *)

Record histories : Type := {
  heartRateHistory : list spec_float;
  respRateHistory : list spec_float;
  tempHistory : list spec_float
}.

(** [typeof v === 'number' ? v : 0] *)
Definition number_or_zero (v : js_value) : spec_float :=
  match v with
  | JSNumber x => x
  | _ => S754_zero false
  end.

(** The effect that runs when new vital signs arrive. *)
Definition update_histories (vs : VitalSigns) (h : histories) : histories :=
  {| heartRateHistory := slice_last 20 (heartRateHistory h) ++ [number_or_zero (heartrate vs)];
     respRateHistory := slice_last 20 (respRateHistory h) ++ [number_or_zero (resprate vs)];
     tempHistory := slice_last 20 (tempHistory h) ++ [number_or_zero (temp vs)] |}.

(** The bars of a chart, [history.slice(-20)], and which of them is drawn at
    full strength: the one whose index is [history.length - 1]. *)
Definition chart_bars (history : list spec_float) : list spec_float :=
  slice_last 20 history.

Definition bar_at_full_strength (history : list spec_float) (index : nat) : bool :=
  (Z.of_nat index =? Z.of_nat (List.length history) - 1)%Z.

(** A run of [addLog] calls, one for each entry. *)
Definition log_all (entries : list LogMessage) (a : AppState) : AppState :=
  fold_left (fun a e => addLog (timestamp e) (type e) (message e) a) entries a.

Definition is_status (n : notification) : bool :=
  match n with ConnectionStatusChange _ _ => true | _ => false end.

Definition is_vitals (n : notification) : bool :=
  match n with VitalSignsUpdate _ _ => true | _ => false end.

(** ** Readings used in the further properties *)

(** A frame-rate event of four bytes on socket [i], and the number its bytes
    spell. *)
Definition frame_rate_event (i : nat) (q : byte * byte * byte * byte) : event :=
  let '(b0, b1, b2, b3) := q in
  Net_data i frame_rate (JSArrayBuffer [b0; b1; b2; b3]).

Definition fps_of (q : byte * byte * byte * byte) : spec_float :=
  let '(b0, b1, b2, b3) := q in Float32.ieee754_single_le b0 b1 b2 b3.

(** A frame-rate event whose payload is four bytes and any bytes after
    them. *)
Definition long_frame_rate_event (i : nat) (payload : byte * byte * byte * byte * list byte)
  : event :=
  let '(b0, b1, b2, b3, more) := payload in
  Net_data i frame_rate (JSArrayBuffer (b0 :: b1 :: b2 :: b3 :: more)).

(** Some socket of the service is connected. *)
Definition some_open (s : state) : bool := existsb connected (sockets s).

(** The outcome of the promise a [connect()] call returned. *)
Definition promise_outcome (p : nat) (s : state) : option promise_state :=
  option_map outcome (nth_error (promises s) p).

(** [v === 'N/A']: the value is the text the application starts with. *)
Definition is_not_available (v : js_value) : bool :=
  match v with
  | JSString text => (text =? "N/A")%string
  | _ => false
  end.

(** * Properties *)

Section Base64_facts.
Import Base64.

Lemma below_64_cases (P : N -> Prop) :
  (forall k, (k < 64)%nat -> P (N.of_nat k)) -> forall n, (n < 64)%N -> P n.
Proof.
  intros H n Hn. rewrite <- (N2Nat.id n). apply H. lia.
Qed.

Lemma char_sextet_char n : (n < 64)%N -> char_sextet (sextet_char n) = Some n.
Proof.
  revert n. apply below_64_cases. intros k Hk.
  do 64 (destruct k as [|k]; [reflexivity|]). lia.
Qed.

Lemma sextet_char_not_pad n : (n < 64)%N -> (sextet_char n =? pad)%char = false.
Proof.
  revert n. apply below_64_cases. intros k Hk.
  do 64 (destruct k as [|k]; [reflexivity|]). lia.
Qed.

Lemma code_bound c : (code c < 256)%N.
Proof. apply N_ascii_bounded. Qed.

Lemma byte_of_code c : byte_of_N (code c) = byte_of_ascii c.
Proof.
  unfold byte_of_N, code. now rewrite <- byte_of_ascii_via_N.
Qed.

End Base64_facts.

Section Base64_groups.
Import Base64.
Local Open Scope N_scope.

Ltac divmod := zify; Z.to_euclidean_division_equations; lia.

Lemma decode3_encode3 a b c tail :
  exists c1 c2 c3 c4,
    encode3 a b c tail = String c1 (String c2 (String c3 (String c4 tail)))
    /\ (c4 =? pad)%char = false
    /\ decode3 c1 c2 c3 c4 = Some [byte_of_ascii a; byte_of_ascii b; byte_of_ascii c].
Proof.
  unfold encode3.
  pose proof (code_bound a) as Ha. pose proof (code_bound b) as Hb.
  pose proof (code_bound c) as Hc.
  set (n := code a * 65536 + code b * 256 + code c).
  assert (Hn : n < 16777216) by (subst n; lia).
  do 4 eexists. split; [reflexivity|]. split.
  - apply sextet_char_not_pad. divmod.
  - unfold decode3.
    rewrite !char_sextet_char by divmod.
    replace (n / 262144 * 262144 + n / 4096 mod 64 * 4096 + n / 64 mod 64 * 64 + n mod 64)
      with n by divmod.
    replace (n / 65536) with (code a) by (subst n; divmod).
    replace (n / 256 mod 256) with (code b) by (subst n; divmod).
    replace (n mod 256) with (code c) by (subst n; divmod).
    now rewrite !byte_of_code.
Qed.

Lemma decode_encode2 a b :
  decode (encode2 a b) = Some [byte_of_ascii a; byte_of_ascii b].
Proof.
  unfold encode2.
  pose proof (code_bound a) as Ha. pose proof (code_bound b) as Hb.
  set (n := (code a * 256 + code b) * 4).
  assert (Hn : n < 262144) by (subst n; lia).
  cbn [decode]. rewrite Ascii.eqb_refl.
  rewrite sextet_char_not_pad by divmod.
  unfold decode2. rewrite !char_sextet_char by divmod.
  replace (n / 4096 * 4096 + n / 64 mod 64 * 64 + n mod 64) with n by divmod.
  replace (n / 1024) with (code a) by (subst n; divmod).
  replace (n / 4 mod 256) with (code b) by (subst n; divmod).
  now rewrite !byte_of_code.
Qed.

Lemma decode_encode1 a : decode (encode1 a) = Some [byte_of_ascii a].
Proof.
  unfold encode1.
  pose proof (code_bound a) as Ha.
  set (n := code a * 16).
  cbn [decode]. rewrite !Ascii.eqb_refl.
  unfold decode1. rewrite !char_sextet_char by divmod.
  replace (n / 64 * 64 + n mod 64) with n by divmod.
  replace (n / 16) with (code a) by (subst n; divmod).
  now rewrite byte_of_code.
Qed.

Lemma decode_btoa_3step s :
  decode (btoa s) = Some (bytes_of_binary s)
  /\ (forall a, decode (btoa (String a s)) = Some (bytes_of_binary (String a s)))
  /\ (forall a b, decode (btoa (String a (String b s)))
                  = Some (bytes_of_binary (String a (String b s)))).
Proof.
  induction s as [|c s [IH0 [IH1 IH2]]].
  - repeat split; intros.
    + apply decode_encode1.
    + apply decode_encode2.
  - split; [apply IH1|]. split; [intros; apply IH2|].
    intros a b. cbn [btoa bytes_of_binary].
    destruct (decode3_encode3 a b c (btoa s)) as (c1 & c2 & c3 & c4 & E & Hp & Hd).
    rewrite E. cbn [decode]. rewrite Hp, Hd, IH0. reflexivity.
Qed.

Lemma decode_btoa s : decode (btoa s) = Some (bytes_of_binary s).
Proof. apply decode_btoa_3step. Qed.

End Base64_groups.

Lemma binary_loop bs acc :
  fold_left (fun binary b => binary ++ fromCharCode b) bs acc
  = acc ++ fold_right (fun b s => String (ascii_of_byte b) s) EmptyString bs.
Proof.
  revert acc. induction bs as [|b bs IH]; intros acc; cbn [fold_left fold_right].
  - induction acc; cbn; congruence.
  - rewrite IH. unfold fromCharCode.
    induction acc; cbn; congruence.
Qed.

Lemma bytes_of_binary_loop bs :
  bytes_of_binary (fold_left (fun binary b => binary ++ fromCharCode b) bs EmptyString) = bs.
Proof.
  rewrite binary_loop. cbn [append].
  induction bs as [|b bs IH]; cbn; [reflexivity|].
  now rewrite byte_of_ascii_of_byte, IH.
Qed.

Lemma byte_chars_loop bs :
  fold_left (fun binary b => binary ++ fromCharCode b) bs EmptyString = byte_chars bs.
Proof. now rewrite binary_loop. Qed.

Lemma arrayBufferToBase64_byte_chars bs :
  arrayBufferToBase64 bs = Base64.btoa (byte_chars bs).
Proof. unfold arrayBufferToBase64. now rewrite byte_chars_loop. Qed.

(** C5. For every binary image buffer B, the image encoding (each byte
    mapped to its one-character string, the base64 transform applied to the
    result) yields a base64 text whose decoding gives back B, byte for
    byte. *)
Theorem arrayBufferToBase64_roundtrip (B : list byte) :
  arrayBufferToBase64 B = Base64.btoa (byte_chars B)
  /\ Base64.decode (arrayBufferToBase64 B) = Some B.
Proof.
  split.
  - apply arrayBufferToBase64_byte_chars.
  - unfold arrayBufferToBase64. rewrite decode_btoa. now rewrite bytes_of_binary_loop.
Qed.

Example base64_of_three_two_one_bytes :
  arrayBufferToBase64 [x4d; x61; x6e] = "TWFu"
  /\ arrayBufferToBase64 [x4d; x61] = "TWE="
  /\ arrayBufferToBase64 [x4d] = "TQ=="
  /\ Base64.decode "//4AAQ==" = Some [xff; xfe; x00; x01].
Proof. repeat split. Qed.

(** ** Frame rate *)

Section Float32_facts.
Import Float32.
Local Open Scope Z_scope.

Lemma byte_range b : 0 <= Z.of_N (Byte.to_N b) < 256.
Proof. pose proof (Byte.to_N_bounded b). lia. Qed.

Lemma of_bits_fields b0 b1 b2 b3 :
  of_bits (le_combine [b0; b1; b2; b3]) = ieee754_single_le b0 b1 b2 b3.
Proof.
  unfold of_bits, ieee754_single_le. cbn [le_combine].
  pose proof (byte_range b0). pose proof (byte_range b1).
  pose proof (byte_range b2). pose proof (byte_range b3).
  set (n0 := Z.of_N (Byte.to_N b0)) in *. set (n1 := Z.of_N (Byte.to_N b1)) in *.
  set (n2 := Z.of_N (Byte.to_N b2)) in *. set (n3 := Z.of_N (Byte.to_N b3)) in *.
  set (w := n0 + 256 * (n1 + 256 * (n2 + 256 * (n3 + 256 * 0)))).
  assert (Hw : w = n0 + 256 * n1 + 65536 * n2 + 16777216 * n3) by (subst w; ring).
  assert (Hs : Z.testbit w 31 = (128 <=? n3)).
  { destruct (128 <=? n3) eqn:E.
    - apply Z.leb_le in E. apply Z.testbit_true; [lia|].
      change (2 ^ 31) with 2147483648. Z.div_mod_to_equations. lia.
    - apply Z.leb_gt in E. apply Z.testbit_false; [lia|].
      change (2 ^ 31) with 2147483648. Z.div_mod_to_equations. lia. }
  assert (He : Z.land (Z.shiftr w 23) (Z.ones 8) = n3 mod 128 * 2 + n2 / 128).
  { rewrite Z.land_ones, Z.shiftr_div_pow2 by lia.
    change (2 ^ 23) with 8388608. change (2 ^ 8) with 256.
    Z.div_mod_to_equations. lia. }
  assert (Hm : Z.land w (Z.ones 23) = n2 mod 128 * 65536 + n1 * 256 + n0).
  { rewrite Z.land_ones by lia. change (2 ^ 23) with 8388608.
    Z.div_mod_to_equations. lia. }
  rewrite Hs, He, Hm. change (2 ^ 23) with 8388608. reflexivity.
Qed.

End Float32_facts.

(** C4. Every four-byte frame-rate payload is read as the IEEE-754
    single-precision number its bytes spell in little-endian order (sign,
    exponent and fraction fields as the standard lays them out), the bytes
    00 00 80 3F are read as the number one, and the value read is what the
    frame-rate callback is called with. *)
Theorem frame_rate_is_ieee754_little_endian (b0 b1 b2 b3 : byte) (s : state) :
  bytesToFloat (JSArrayBuffer [b0; b1; b2; b3]) s
    = Return (Float32.ieee754_single_le b0 b1 b2 b3) s
  /\ on_frame_rate (JSArrayBuffer [b0; b1; b2; b3]) s
    = invoke slot_FPS (FPSUpdate (Float32.ieee754_single_le b0 b1 b2 b3)) s
  /\ delivered (after (on_frame_rate (JSArrayBuffer [b0; b1; b2; b3])
                         (register slot_FPS s)))
    = (delivered s ++ [FPSUpdate (Float32.ieee754_single_le b0 b1 b2 b3)])%list
  /\ bytesToFloat (JSArrayBuffer [x00; x00; x80; x3f]) s
    = Return (S754_finite false 8388608 (-23)) s
  /\ Float32.to_Q (S754_finite false 8388608 (-23)) = Some 1%Q.
Proof.
  assert (E : bytesToFloat (JSArrayBuffer [b0; b1; b2; b3]) s
              = Return (Float32.ieee754_single_le b0 b1 b2 b3) s).
  { unfold bytesToFloat, bind, new_DataView, ret, Float32.getFloat32.
    cbn [List.length Nat.ltb Nat.leb Nat.add skipn firstn lift].
    now rewrite of_bits_fields. }
  assert (F : forall s', on_frame_rate (JSArrayBuffer [b0; b1; b2; b3]) s'
              = invoke slot_FPS (FPSUpdate (Float32.ieee754_single_le b0 b1 b2 b3)) s').
  { intros s'. unfold on_frame_rate, bind at 1.
    unfold bytesToFloat, bind, new_DataView, ret, Float32.getFloat32.
    cbn [List.length Nat.ltb Nat.leb Nat.add skipn firstn lift].
    now rewrite of_bits_fields. }
  repeat split.
  - exact E.
  - apply F.
  - rewrite F. unfold invoke. cbn. reflexivity.
Qed.

Example frame_rates_read :
  option_map Float32.to_Q
    (match Float32.getFloat32 [x00; x00; xf0; x41] 0 true with
     | inr fps => Some fps
     | inl _ => None
     end) = Some (Some (30 # 1))
  /\ Float32.getFloat32 [x00; x00; xc0; xff] 0 true = inr S754_nan
  /\ Float32.getFloat32 [x3f; x80; x00; x00] 0 false
     = inr (S754_finite false 8388608 (-23)).
Proof. repeat split. Qed.

(** ** The decoders and their errors *)

Section Decoders.
Context {platform : Platform}.

Lemma guarded_never_raises {A} (body : M A) (recover : js_error -> M A) s :
  (forall e s', raised (recover e s') = None) ->
  raised (try_catch body recover s) = None.
Proof.
  intros H. unfold try_catch. destruct (body s); [reflexivity | apply H].
Qed.

Lemma handleChipUpdate_never_raises data s : raised (handleChipUpdate data s) = None.
Proof. apply guarded_never_raises. reflexivity. Qed.

Lemma on_update_feed_never_raises data s : raised (on_update_feed data s) = None.
Proof. apply guarded_never_raises. reflexivity. Qed.

Lemma on_thermal_image_never_raises data s : raised (on_thermal_image data s) = None.
Proof. apply guarded_never_raises. reflexivity. Qed.

Lemma handleChipUpdate_cases data s :
  handleChipUpdate data s =
    if nullish data || nullish (prop data "chip_data")
    then Return tt (set_console
                      (console s ++ [console_error "Error handling chip update:"])%list s)
    else
      let chipData := prop data "chip_data" in
      invoke slot_VitalSigns
        (VitalSignsUpdate {| heartrate := prop chipData "heartrate";
                             resprate := prop chipData "resprate";
                             temp := prop chipData "temp" |}
                          (prop chipData "chip_img")) s.
Proof.
  unfold handleChipUpdate, try_catch, bind, prop.
  destruct data; try reflexivity;
    cbn [get_prop lift nullish orb ret throw];
    match goal with
    | |- context [lookup_field ?n ?f] =>
        destruct (lookup_field n f); try reflexivity;
        unfold invoke; cbn; destruct (onVitalSignsUpdate s); reflexivity
    | _ => idtac
    end.
Qed.

End Decoders.

(** C1. The decoders of vitals, RGB frames and thermal frames never raise,
    whatever the payload; the frame-rate listener has no guard, and a
    frame-rate payload of three bytes raises a RangeError out of it: on a
    connected service with a frame-rate callback registered, the arrival of
    such an event ends in that error, uncaught and unlogged. *)
Theorem frame_rate_short_payload_raises {platform : Platform}
    (address : string) (port : N) (s : state) :
  let short := JSArrayBuffer [x00; x00; x80] in
  let s1 := run [Call_setCallback slot_FPS; Call_connect; Net_connect 0]
              (new_SocketService address port) in
  (forall data, raised (handleChipUpdate data s) = None)
  /\ (forall data, raised (on_update_feed data s) = None)
  /\ (forall data, raised (on_thermal_image data s) = None)
  /\ on_frame_rate short s = Throw RangeError s
  /\ step (Net_data 0 frame_rate short) s1 = Throw RangeError s1.
Proof.
  cbv zeta.
  split; [intros; apply handleChipUpdate_never_raises|].
  split; [intros; apply on_update_feed_never_raises|].
  split; [intros; apply on_thermal_image_never_raises|].
  split; [reflexivity|].
  destruct platform as [hostname typed]. cbv -[publisher_url].
  match goal with
  | |- context [hostname ?url] => destruct (hostname url)
  end; reflexivity.
Qed.

(** C3 fails as stated: a vitals record without a heart-rate field does not
    raise, yet the vitals callback is called, with the heart rate undefined,
    and the vitals the consumer last received change. *)
Lemma missing_heartrate_reaches_callback :
  let reading := JSObject [("resprate", JSNumber (S754_finite false 1 4));
                           ("temp", JSString "N/A")] in
  let data := JSObject [("chip_data", reading)] in
  let s := register slot_VitalSigns (new_SocketService "10.0.0.32" 27182) in
  let s' := after (handleChipUpdate data s) in
  raised (handleChipUpdate data s) = None
  /\ delivered s = []
  /\ delivered s' = [VitalSignsUpdate {| heartrate := JSUndefined;
                                         resprate := JSNumber (S754_finite false 1 4);
                                         temp := JSString "N/A" |} JSUndefined]
  /\ last_vitals s' <> last_vitals s.
Proof.
  cbv zeta. repeat split. discriminate.
Qed.

(** C3, amended. Decoding a vitals payload never raises. When the payload or
    its chip_data record is null or undefined, the error is logged, no
    callback is called and the vitals last delivered stay as they were. When
    the record is there, the vitals callback is called with the heart rate,
    respiratory rate and temperature as they are read from it, an absent
    field being passed on as undefined. *)
Theorem vitals_decoding_outcome (data : js_value) (s : state) :
  raised (handleChipUpdate data s) = None
  /\ if nullish data || nullish (prop data "chip_data")
     then delivered (after (handleChipUpdate data s)) = delivered s
          /\ last_vitals (after (handleChipUpdate data s)) = last_vitals s
          /\ console (after (handleChipUpdate data s))
             = (console s ++ [console_error "Error handling chip update:"])%list
     else
       let chipData := prop data "chip_data" in
       handleChipUpdate data s
       = invoke slot_VitalSigns
           (VitalSignsUpdate {| heartrate := prop chipData "heartrate";
                                resprate := prop chipData "resprate";
                                temp := prop chipData "temp" |}
                             (prop chipData "chip_img")) s.
Proof.
  split; [apply guarded_never_raises; reflexivity|].
  rewrite handleChipUpdate_cases.
  destruct (nullish data || nullish (prop data "chip_data")); [|reflexivity].
  repeat split.
Qed.

(** C9. With an RGB callback registered: a raw buffer or a typed byte array
    is turned into the base64 text of its bytes (each byte as one character)
    and the callback is called with it; a text payload is handed to the
    callback as it is; for any other payload the callback is not called and
    an error is logged. In no case does the listener raise. *)
Theorem update_feed_decoding (data : js_value) (s : state) :
  onRGBImageUpdate s = true ->
  let s' := after (on_update_feed data s) in
  raised (on_update_feed data s) = None
  /\ match data with
     | JSArrayBuffer bytes | JSUint8Array bytes =>
         delivered s'
         = (delivered s ++ [RGBImageUpdate (Base64.btoa (byte_chars bytes))])%list
         /\ console s' = console s
     | JSString text =>
         delivered s' = (delivered s ++ [RGBImageUpdate text])%list
         /\ console s' = console s
     | _ =>
         delivered s' = delivered s
         /\ console s'
            = (console s ++ [console_error "Unknown data format for update_feed:"])%list
     end.
Proof.
  intros Hreg s'. split; [apply on_update_feed_never_raises|].
  subst s'. unfold on_update_feed, try_catch, invoke.
  destruct data; cbn [registered]; rewrite ?Hreg; cbn;
    rewrite <- ?arrayBufferToBase64_byte_chars; split; reflexivity.
Qed.

Lemma update_feed_decoding_witness :
  let s := register slot_RGBImage (new_SocketService "10.0.0.32" 27182) in
  onRGBImageUpdate s = true
  /\ delivered (after (on_update_feed (JSArrayBuffer [x4d; x61; x6e]) s))
     = [RGBImageUpdate "TWFu"].
Proof.
  cbv zeta. split; [reflexivity|].
  exact (proj1 (proj2 (update_feed_decoding
                         (JSArrayBuffer [x4d; x61; x6e])
                         (register slot_RGBImage (new_SocketService "10.0.0.32" 27182))
                         eq_refl))).
Defined.

(** ** Discovery *)

Section Discovery.
Variable net : network.
Variable port : N.

Lemma requests_app xs ys : requests (xs ++ ys) = (requests xs ++ requests ys)%list.
Proof.
  induction xs as [|x xs IH]; [reflexivity|].
  destruct x; cbn; now rewrite IH.
Qed.

Lemma testConnection_answers ip :
  fst (testConnection net ip port) = answers net port ip.
Proof.
  unfold testConnection, answers, ping_url, fetch_GET.
  destruct (net _) as [t code| t |]; cbn [fst].
  - destruct (t <? 2000)%N; cbn [fst andb]; [|reflexivity].
    unfold response_ok. destruct (code =? 200)%N eqn:E.
    + apply N.eqb_eq in E. now subst code.
    + apply andb_false_r.
  - now destruct (t <? 2000)%N.
  - reflexivity.
Qed.

Lemma testConnection_requests ip :
  requests (snd (testConnection net ip port)) = [ping_url port ip].
Proof.
  unfold testConnection. destruct (fetch_GET _ _ _); reflexivity.
Qed.

Lemma testConnection_timers ip : timers (snd (testConnection net ip port)) = [2000%N].
Proof.
  unfold testConnection. destruct (fetch_GET _ _ _); reflexivity.
Qed.

Lemma probe_in_turn_result ips :
  fst (probe_in_turn net port ips) = find (answers net port) ips.
Proof.
  induction ips as [|ip rest IH]; [reflexivity|].
  cbn [probe_in_turn find]. rewrite <- testConnection_answers.
  destruct (testConnection net ip port) as [reachable evs]. cbn [fst].
  destruct reachable; [reflexivity|].
  destruct (probe_in_turn net port rest). exact IH.
Qed.

Lemma probe_in_turn_requests ips :
  requests (snd (probe_in_turn net port ips))
  = map (ping_url port) (until_first (answers net port) ips).
Proof.
  induction ips as [|ip rest IH]; [reflexivity|].
  cbn [probe_in_turn until_first].
  rewrite <- testConnection_answers.
  pose proof (testConnection_requests ip) as R.
  destruct (testConnection net ip port) as [reachable evs]. cbn [fst snd] in *.
  destruct reachable.
  - cbn [snd requests map]. rewrite requests_app, R. reflexivity.
  - destruct (probe_in_turn net port rest) as [found later]. cbn [snd] in *.
    cbn [requests map]. rewrite requests_app, R, IH. reflexivity.
Qed.

Lemma find_none_iff (f : string -> bool) ips :
  find f ips = None <-> forall ip, In ip ips -> f ip = false.
Proof.
  split.
  - intros H ip Hin. now apply (find_none f ips H).
  - induction ips as [|ip rest IH]; [reflexivity|].
    intros H. cbn [find]. rewrite (H ip (or_introl eq_refl)).
    apply IH. intros ip' Hin. apply H. now right.
Qed.

End Discovery.

(** C6. Discovery asks the candidates of its list one after the other, in
    the order of the list, and stops at the first that answers: its result is
    the first candidate of the list whose probe succeeds, the requests it
    has sent are those of the candidates up to and including that one, and
    the result is none (no error is raised) exactly when no candidate's probe
    succeeds. With three candidates of which only the last answers, the
    first two have been asked before it, and it is the result. *)
Theorem discovery_probes_in_order (net : network) :
  fst (discoverPublisher net) = find (answers net 27182) testIPs
  /\ requests (snd (discoverPublisher net))
     = map (ping_url 27182) (until_first (answers net 27182) testIPs)
  /\ (fst (discoverPublisher net) = None
      <-> forall ip, In ip testIPs -> fst (testConnection net ip 27182) = false)
  /\ (forall port A B C,
        answers net port A = false -> answers net port B = false ->
        answers net port C = true ->
        fst (probe_in_turn net port [A; B; C]) = Some C
        /\ requests (snd (probe_in_turn net port [A; B; C]))
           = [ping_url port A; ping_url port B; ping_url port C]).
Proof.
  unfold discoverPublisher.
  split; [apply probe_in_turn_result|].
  split; [apply probe_in_turn_requests|].
  split.
  - rewrite probe_in_turn_result, find_none_iff.
    split; intros H ip Hin; specialize (H ip Hin);
      now rewrite testConnection_answers in *.
  - intros port A B C HA HB HC.
    rewrite probe_in_turn_result, probe_in_turn_requests.
    cbn [find until_first map]. now rewrite HA, HB, HC.
Qed.

(** C7. The probe of a candidate sends one GET request, to the path /ping on
    the candidate's address and the port it is given, with an abort timer of
    2000 milliseconds; it returns true exactly when a response with status
    200 comes in less than that time, and false (never an error) for any
    other status, a network failure or no answer. *)
Theorem probe_is_ping_within_two_seconds (net : network) (ip : string) (port : N) :
  requests (snd (testConnection net ip port))
    = ["http://" ++ ip ++ ":" ++ port_string port ++ "/ping"]
  /\ timers (snd (testConnection net ip port)) = [2000%N]
  /\ (fst (testConnection net ip port) = true
      <-> exists t, net (ping_url port ip) = Responds t 200 /\ (t < 2000)%N)
  /\ (forall t code, net (ping_url port ip) = Responds t code -> code <> 200%N ->
        fst (testConnection net ip port) = false)
  /\ (forall t, net (ping_url port ip) = Fails t -> fst (testConnection net ip port) = false)
  /\ (net (ping_url port ip) = Hangs -> fst (testConnection net ip port) = false).
Proof.
  split; [apply testConnection_requests|].
  split; [apply testConnection_timers|].
  rewrite testConnection_answers. unfold answers.
  split; [|split; [|split]].
  - split.
    + destruct (net _) as [t code| |]; try discriminate.
      intros H. apply andb_true_iff in H. destruct H as [Ht Hc].
      apply N.ltb_lt in Ht. apply N.eqb_eq in Hc. subst code. now exists t.
    + intros [t [E Ht]]. rewrite E. apply N.ltb_lt in Ht. now rewrite Ht.
  - intros t code E Hne. rewrite E. apply N.eqb_neq in Hne. rewrite Hne.
    apply andb_false_r.
  - intros t E. now rewrite E.
  - intros E. now rewrite E.
Qed.

Lemma discovery_probes_in_order_witness :
  let net := fun url => if (url =? "http://localhost:27182/ping")%string
                        then Responds 12 200 else Fails 3 in
  fst (discoverPublisher net) = Some "localhost"
  /\ requests (snd (discoverPublisher net))
     = ["http://10.0.0.32:27182/ping"; "http://127.0.0.1:27182/ping";
        "http://localhost:27182/ping"].
Proof.
  cbv zeta.
  pose proof (discovery_probes_in_order
                (fun url => if (url =? "http://localhost:27182/ping")%string
                            then Responds 12 200 else Fails 3)) as [H1 [H2 _]].
  split; [exact H1 | exact H2].
Defined.

Lemma probe_is_ping_within_two_seconds_witness :
  let net := fun url => if (url =? "http://localhost:27182/ping")%string
                        then Responds 12 200 else Responds 12 404 in
  fst (testConnection net "localhost" 27182) = true
  /\ fst (testConnection net "10.0.0.32" 27182) = false.
Proof.
  cbv zeta.
  pose proof (probe_is_ping_within_two_seconds
                (fun url => if (url =? "http://localhost:27182/ping")%string
                            then Responds 12 200 else Responds 12 404)) as H.
  split.
  - apply (proj1 (proj2 (proj2 (H "localhost" 27182%N)))).
    exists 12%N. split; [reflexivity | reflexivity].
  - apply (proj1 (proj2 (proj2 (proj2 (H "10.0.0.32" 27182%N)))) 12%N 404%N);
      [reflexivity | discriminate].
Defined.

(** ** The connection *)

Section Preservation.
Context {B : Type} (f : state -> B).

Lemma keeps_ret {A} (a : A) : keeps f (ret a).
Proof. intros s. reflexivity. Qed.

Lemma keeps_throw {A} e : keeps f (@throw A e).
Proof. intros s. reflexivity. Qed.

Lemma keeps_gets {A} (g : state -> A) : keeps f (gets g).
Proof. intros s. reflexivity. Qed.

Lemma keeps_lift {A} (r : js_error + A) : keeps f (lift r).
Proof. destruct r; intros s; reflexivity. Qed.

Lemma keeps_modify g : (forall s, f (g s) = f s) -> keeps f (modify g).
Proof. intros H s. apply H. Qed.

Lemma keeps_bind {A C} (m : M A) (k : A -> M C) :
  keeps f m -> (forall a, keeps f (k a)) -> keeps f (bind m k).
Proof.
  intros Hm Hk s. unfold bind. specialize (Hm s).
  destruct (m s) as [a s'|e s']; cbn [after] in *.
  - now rewrite Hk.
  - exact Hm.
Qed.

Lemma keeps_try_catch {A} (body : M A) (recover : js_error -> M A) :
  keeps f body -> (forall e, keeps f (recover e)) -> keeps f (try_catch body recover).
Proof.
  intros Hb Hr s. unfold try_catch. specialize (Hb s).
  destruct (body s) as [a s'|e s']; cbn [after] in *.
  - exact Hb.
  - now rewrite Hr.
Qed.

Lemma keeps_times n (m : M unit) : keeps f m -> keeps f (times n m).
Proof.
  intros Hm. induction n as [|n IH]; cbn [times].
  - apply keeps_ret.
  - apply keeps_bind; [exact Hm | intros; exact IH].
Qed.

End Preservation.

Ltac keeps_step :=
  first
    [ apply keeps_bind; [|intros]
    | apply keeps_try_catch; [|intros]
    | apply keeps_ret
    | apply keeps_throw
    | apply keeps_gets
    | apply keeps_lift
    | apply keeps_times
    | apply keeps_modify; intros; reflexivity
    | match goal with
      | |- keeps _ (match ?x with _ => _ end) => destruct x
      | |- keeps _ (if ?x then _ else _) => destruct x
      end ].

Ltac keeps_all := repeat keeps_step.

Section Connection.
Context {platform : Platform}.

Lemma invoke_keeps {B} (f : state -> B) sl n :
  (forall v s, f (set_delivered v s) = f s) -> keeps f (invoke sl n).
Proof.
  intros H s. unfold invoke. destruct (registered sl s); cbn [after]; [apply H | reflexivity].
Qed.

(** Nothing that happens, but [changeConnection], moves the target. *)
Lemma listener_keeps_url name data : keeps publisherUrl (listener name data).
Proof.
  destruct name; cbn [listener];
    unfold handleChipUpdate, on_update_feed, on_thermal_image, on_frame_rate,
      bytesToFloat, new_DataView, new_Uint8Array, error;
    keeps_all; try (apply invoke_keeps; reflexivity).
Qed.

Lemma step_keeps_url e : keeps_target e = true -> keeps publisherUrl (step e).
Proof.
  destruct e; cbn [keeps_target step]; intros Hk; try discriminate;
    unfold connect, disconnect, deliver_connect, deliver_connect_error, deliver_drop,
      deliver_data, on_connect, on_disconnect, on_connect_error, socket_disconnect,
      on_disconnect, setupEventHandlers, getIPFromUrl, new_URL_hostname, resolve, reject,
      io, new_Promise, socket_connected, socket_at, update_socket, log, error;
    keeps_all;
    try (apply invoke_keeps; reflexivity);
    try apply listener_keeps_url.
Qed.

Lemma run_keeps_url evs s :
  forallb keeps_target evs = true -> publisherUrl (run evs s) = publisherUrl s.
Proof.
  revert s. induction evs as [|e evs IH]; intros s H; [reflexivity|].
  cbn [forallb] in H. apply andb_true_iff in H. destruct H as [He Hevs].
  cbn [run]. rewrite IH by exact Hevs. now apply step_keeps_url.
Qed.

Lemma getIPFromUrl_reads_url s :
  getIPFromUrl s = Return (hostname_or_unknown (publisherUrl s)) s.
Proof.
  unfold getIPFromUrl, try_catch, bind, gets, new_URL_hostname, hostname_or_unknown.
  destruct (URL_hostname (publisherUrl s)); reflexivity.
Qed.

Lemma changeConnection_sets_url newIP port s :
  publisherUrl (after (changeConnection newIP port s)) = publisher_url newIP port.
Proof.
  unfold changeConnection, bind at 1, modify.
  assert (K : keeps publisherUrl
                (p <- connect ;;
                 modify (fun s => set_promises (update_nth p attach_catch (promises s)) s))).
  { unfold connect, socket_disconnect, on_disconnect, reject, io, new_Promise,
      socket_connected, socket_at, update_socket, log, error.
    keeps_all; try (apply invoke_keeps; reflexivity). }
  rewrite K. reflexivity.
Qed.

End Connection.

(** ** The URL Standard on plain addresses *)

Section URL_facts.
Import Text URL.

Lemma all_chars_app p s t : all_chars p (s ++ t) = all_chars p s && all_chars p t.
Proof.
  induction s as [|c s IH]; [reflexivity|]. cbn. now rewrite IH, andb_assoc.
Qed.

Lemma all_chars_impl (p q : ascii -> bool) s :
  (forall c, p c = true -> q c = true) -> all_chars p s = true -> all_chars q s = true.
Proof.
  intros H. induction s as [|c s IH]; [reflexivity|]. cbn.
  intros E. apply andb_true_iff in E. destruct E as [Ec Es].
  now rewrite (H c Ec), IH.
Qed.

Lemma host_char_facts c :
  is_host_char c = true ->
  is_C0_control_or_space c = false /\ is_tab_or_newline c = false
  /\ is_slash c = false /\ ends_authority c = false
  /\ (c =? "@")%char = false /\ (c =? ":")%char = false
  /\ (c =? "[")%char = false /\ (c =? "]")%char = false
  /\ (c =? "%")%char = false /\ is_ASCII c = true /\ lower c = c
  /\ is_forbidden_domain_code_point c = false.
Proof.
  destruct c as [[] [] [] [] [] [] [] []]; intros H; try discriminate H;
    vm_compute; repeat split.
Qed.

Lemma digit_is_host_char c : is_digit c = true -> is_host_char c = true.
Proof. unfold is_host_char. now intros ->. Qed.

Lemma strip_leading_kept p s t :
  all_chars (fun c => negb (p c)) s = true -> s <> EmptyString ->
  strip_leading p (s ++ t) = (s ++ t)%string.
Proof.
  destruct s as [|c s]; [congruence|]. cbn. intros E _.
  apply andb_true_iff in E. destruct E as [Ec _].
  apply negb_true_iff in Ec. now rewrite Ec.
Qed.

Lemma strip_trailing_kept p s :
  all_chars (fun c => negb (p c)) s = true -> strip_trailing p s = s.
Proof.
  induction s as [|c s IH]; [reflexivity|]. cbn. intros E.
  apply andb_true_iff in E. destruct E as [Ec Es]. apply negb_true_iff in Ec.
  rewrite (IH Es), Ec. now destruct s.
Qed.

Lemma remove_kept p s : all_chars (fun c => negb (p c)) s = true -> remove p s = s.
Proof.
  induction s as [|c s IH]; [reflexivity|]. cbn. intros E.
  apply andb_true_iff in E. destruct E as [Ec Es]. apply negb_true_iff in Ec.
  now rewrite Ec, (IH Es).
Qed.

Lemma before_kept p s : all_chars (fun c => negb (p c)) s = true -> before p s = s.
Proof.
  induction s as [|c s IH]; [reflexivity|]. cbn. intros E.
  apply andb_true_iff in E. destruct E as [Ec Es]. apply negb_true_iff in Ec.
  now rewrite Ec, (IH Es).
Qed.

Lemma after_last_at_none s :
  all_chars (fun c => negb (c =? "@")%char) s = true -> after_last_at s = None.
Proof.
  induction s as [|c s IH]; [reflexivity|]. cbn. intros E.
  apply andb_true_iff in E. destruct E as [Ec Es]. apply negb_true_iff in Ec.
  now rewrite (IH Es), Ec.
Qed.

Lemma host_state_colon s t :
  all_chars is_host_char s = true ->
  host_state false (s ++ String ":" t) = (s, Some t).
Proof.
  induction s as [|c s IH]; [reflexivity|]. cbn [all_chars append host_state]. intros E.
  apply andb_true_iff in E. destruct E as [Ec Es].
  destruct (host_char_facts c Ec) as (_ & _ & _ & _ & _ & -> & -> & -> & _).
  cbn [andb]. now rewrite (IH Es).
Qed.

Lemma percent_decode_kept s :
  all_chars (fun c => negb (c =? "%")%char) s = true -> percent_decode s = s.
Proof.
  induction s as [|c s IH]; [reflexivity|]. cbn [all_chars]. intros E.
  apply andb_true_iff in E. destruct E as [Ec Es]. apply negb_true_iff in Ec.
  cbn [percent_decode]. rewrite Ec, (IH Es).
  destruct s as [|a [|b s']]; reflexivity.
Qed.

Lemma map_chars_kept f s :
  all_chars (fun c => Ascii.eqb (f c) c) s = true -> map_chars f s = s.
Proof.
  induction s as [|c s IH]; [reflexivity|]. cbn. intros E.
  apply andb_true_iff in E. destruct E as [Ec Es]. apply Ascii.eqb_eq in Ec.
  now rewrite Ec, (IH Es).
Qed.

Lemma split_on_part sep s t :
  all_chars (fun c => negb (c =? sep)%char) s = true ->
  split_on sep (s ++ String sep t) = s :: split_on sep t.
Proof.
  induction s as [|c s IH]; cbn [all_chars append split_on]; intros E.
  - now rewrite Ascii.eqb_refl.
  - apply andb_true_iff in E. destruct E as [Ec Es]. apply negb_true_iff in Ec.
    now rewrite Ec, (IH Es).
Qed.

Lemma split_on_last sep s :
  all_chars (fun c => negb (c =? sep)%char) s = true -> split_on sep s = [s].
Proof.
  induction s as [|c s IH]; cbn [all_chars split_on]; intros E; [reflexivity|].
  apply andb_true_iff in E. destruct E as [Ec Es]. apply negb_true_iff in Ec.
  now rewrite Ec, (IH Es).
Qed.

Lemma octets_checked : forallb octet_checked (map N.of_nat (seq 0 256)) = true.
Proof. vm_compute. reflexivity. Qed.

Lemma octet_facts n :
  (n <= 255)%N ->
  all_chars is_digit (decimal n) = true /\ decimal n <> EmptyString
  /\ starts_with "xn--" (decimal n) = false /\ ipv4_number (decimal n) = Some n.
Proof.
  intros Hn.
  assert (In n (map N.of_nat (seq 0 256))) as Hin.
  { apply in_map_iff. exists (N.to_nat n). split; [apply N2Nat.id|]. apply in_seq. lia. }
  pose proof (proj1 (forallb_forall _ _) octets_checked n Hin) as H.
  unfold octet_checked in H.
  apply andb_true_iff in H. destruct H as [H H4].
  apply andb_true_iff in H. destruct H as [H H3].
  apply andb_true_iff in H. destruct H as [H1 H2].
  apply negb_true_iff in H2, H3.
  repeat split; try assumption.
  - intros E. rewrite E in H2. discriminate.
  - destruct (ipv4_number (decimal n)); [|discriminate].
    apply N.eqb_eq in H4. now subst.
Qed.

Lemma digits_of_uint d : all_chars is_digit (NilEmpty.string_of_uint d) = true.
Proof. induction d; cbn [NilEmpty.string_of_uint all_chars]; try rewrite IHd; reflexivity. Qed.

Lemma number_from_uint_acc d : forall acc,
  number_from 10 (Npos acc) (NilEmpty.string_of_uint d) = Some (Npos (Pos.of_uint_acc d acc)).
Proof.
  induction d; intros acc; cbn [NilEmpty.string_of_uint number_from Pos.of_uint_acc];
    try reflexivity;
    match goal with
    | |- context [digit_in 10 ?c] =>
        let v := eval vm_compute in (digit_in 10 c) in change (digit_in 10 c) with v
    end;
    cbv iota;
    match goal with
    | |- number_from 10 ?x _ = Some (Npos (Pos.of_uint_acc _ ?y)) =>
        replace x with (Npos y) by lia
    end;
    apply IHd.
Qed.

Lemma number_of_uint d : number_in 10 (NilEmpty.string_of_uint d) = Some (Pos.of_uint d).
Proof.
  unfold number_in.
  induction d; cbn [NilEmpty.string_of_uint number_from Pos.of_uint]; try reflexivity;
    match goal with
    | |- context [digit_in 10 ?c] =>
        let v := eval vm_compute in (digit_in 10 c) in change (digit_in 10 c) with v
    end;
    cbv iota; cbn [N.mul N.add]; try exact IHd; apply number_from_uint_acc.
Qed.

Lemma port_facts n :
  (n <= 65535)%N ->
  all_chars is_digit (decimal n) = true /\ port_state (decimal n) = true.
Proof.
  intros Hn. split; [apply digits_of_uint|].
  pose proof (number_of_uint (N.to_uint n)) as H.
  change (Pos.of_uint (N.to_uint n)) with (N.of_uint (N.to_uint n)) in H.
  rewrite DecimalN.Unsigned.of_to in H.
  unfold port_state, decimal. rewrite H.
  destruct (NilEmpty.string_of_uint (N.to_uint n)); [reflexivity|]. now apply N.leb_le.
Qed.

Lemma ipv4_serializer_quad a b c d :
  (a <= 255)%N -> (b <= 255)%N -> (c <= 255)%N -> (d <= 255)%N ->
  ipv4_serializer (a * 256 ^ 3 + (b * 256 ^ 2 + (c * 256 ^ 1 + d))) = dotted_quad a b c d.
Proof.
  intros Ha Hb Hc Hd. unfold ipv4_serializer, dotted_quad.
  change (256 ^ 3)%N with 16777216%N. change (256 ^ 2)%N with 65536%N.
  change (256 ^ 1)%N with 256%N.
  set (v := (a * 16777216 + (b * 65536 + (c * 256 + d)))%N).
  replace (v / 16777216 mod 256)%N with a
    by (subst v; zify; Z.to_euclidean_division_equations; lia).
  replace (v / 65536 mod 256)%N with b
    by (subst v; zify; Z.to_euclidean_division_equations; lia).
  replace (v / 256 mod 256)%N with c
    by (subst v; zify; Z.to_euclidean_division_equations; lia).
  replace (v mod 256)%N with d
    by (subst v; zify; Z.to_euclidean_division_equations; lia).
  reflexivity.
Qed.

End URL_facts.

Section URL_of_plain_addresses.
Import Text URL.

Lemma quad_chars a b c d :
  (a <= 255)%N -> (b <= 255)%N -> (c <= 255)%N -> (d <= 255)%N ->
  all_chars is_host_char (dotted_quad a b c d) = true.
Proof.
  intros Ha Hb Hc Hd. unfold dotted_quad.
  rewrite !all_chars_app. cbn [all_chars].
  rewrite !(all_chars_impl _ _ _ digit_is_host_char)
    by (apply octet_facts; assumption).
  reflexivity.
Qed.

Lemma quad_parts a b c d :
  (a <= 255)%N -> (b <= 255)%N -> (c <= 255)%N -> (d <= 255)%N ->
  split_on "." (dotted_quad a b c d) = [decimal a; decimal b; decimal c; decimal d].
Proof.
  intros Ha Hb Hc Hd. unfold dotted_quad.
  assert (No_dot : forall n, (n <= 255)%N ->
            all_chars (fun c => negb (c =? ".")%char) (decimal n) = true).
  { intros n Hn. apply (all_chars_impl is_digit); [|now apply octet_facts].
    intros x. destruct x as [[] [] [] [] [] [] [] []]; now vm_compute. }
  change (split_on "." (decimal a ++ String "." (decimal b ++ String "."
                          (decimal c ++ String "." (decimal d))))
          = [decimal a; decimal b; decimal c; decimal d]).
  rewrite (split_on_part "." (decimal a)) by now apply No_dot.
  rewrite (split_on_part "." (decimal b)) by now apply No_dot.
  rewrite (split_on_part "." (decimal c)) by now apply No_dot.
  now rewrite (split_on_last "." (decimal d)) by now apply No_dot.
Qed.

Ltac host_fact :=
  let x := fresh "x" in
  let Hx := fresh "Hx" in
  intros x Hx;
  destruct (host_char_facts x Hx)
    as (F1 & F2 & F3 & F4 & F5 & F6 & F7 & F8 & F9 & F10 & F11 & F12);
  rewrite ?F1, ?F2, ?F3, ?F4, ?F5, ?F6, ?F7, ?F8, ?F9, ?F10, ?F11, ?F12, ?Ascii.eqb_refl;
  reflexivity.

(** What the host parser does to a host of such characters before it looks
    for a number at its end. *)
Lemma host_parser_plain q :
  q <> EmptyString -> all_chars is_host_char q = true ->
  host_parser q
  = if existsb (starts_with "xn--") (split_on "." q) then Beyond
    else if ends_in_a_number q
         then match ipv4_parser q with
              | Some address => Hostname (ipv4_serializer address)
              | None => Failure
              end
         else Hostname q.
Proof.
  intros Hne Hq.
  assert (Fact : forall (f : ascii -> bool),
             (forall x, is_host_char x = true -> f x = true) -> all_chars f q = true)
    by (intros f Hf; exact (all_chars_impl _ _ _ Hf Hq)).
  unfold host_parser.
  assert (Hbracket : starts_with "[" q = false).
  { destruct q as [|q0 q']; [congruence|]. cbn [starts_with]. cbn [all_chars] in Hq.
    apply andb_true_iff in Hq. destruct Hq as [Hq0 _].
    destruct (host_char_facts q0 Hq0) as (_ & _ & _ & _ & _ & _ & H & _).
    rewrite Ascii.eqb_sym, H. reflexivity. }
  rewrite Hbracket.
  rewrite percent_decode_kept by (apply Fact; host_fact).
  rewrite map_chars_kept by (apply Fact; host_fact).
  rewrite (Fact is_ASCII) by host_fact.
  rewrite (Fact (fun x => negb (is_forbidden_domain_code_point x))) by host_fact.
  reflexivity.
Qed.

(** The URL Standard reads [http://host:port], for a host of such
    characters and a port of at most 65535, as the host parser reads the
    host. *)
Lemma hostname_of_plain_host q port :
  q <> EmptyString -> all_chars is_host_char q = true -> (port <= 65535)%N ->
  hostname ("http://" ++ q ++ ":" ++ decimal port) = host_parser q.
Proof.
  intros Hq_ne Hq Hport.
  destruct (port_facts port Hport) as [Hpd Hps].
  set (p := decimal port) in *.
  assert (Fact : forall (f : ascii -> bool),
             (forall x, is_host_char x = true -> f x = true) -> all_chars f q = true)
    by (intros f Hf; exact (all_chars_impl _ _ _ Hf Hq)).
  assert (Whole : forall (f : ascii -> bool),
             (forall x, is_host_char x = true -> f x = true) -> f ":"%char = true ->
             all_chars f (q ++ ":" ++ p) = true).
  { intros f Hf Hc'. rewrite all_chars_app, (Fact f Hf). cbn [all_chars append andb].
    rewrite Hc'. apply (all_chars_impl is_digit); [|exact Hpd].
    intros x Hx. apply Hf. now apply digit_is_host_char. }
  assert (U : forall (f : ascii -> bool),
             (forall x, is_host_char x = true -> negb (f x) = true) ->
             all_chars (fun x => negb (f x)) "http://:" = true ->
             all_chars (fun x => negb (f x)) ("http://" ++ q ++ ":" ++ p) = true).
  { intros f Hf Hlit. rewrite all_chars_app.
    change "http://:" with ("http://" ++ ":")%string in Hlit.
    rewrite all_chars_app in Hlit. apply andb_true_iff in Hlit. destruct Hlit as [-> Hcolon].
    apply Whole; [exact Hf|]. cbn in Hcolon. now rewrite andb_true_r in Hcolon. }
  unfold hostname, strip.
  change (strip_leading is_C0_control_or_space ("http://" ++ q ++ ":" ++ p))
    with ("http://" ++ q ++ ":" ++ p)%string.
  rewrite strip_trailing_kept by (apply U; [host_fact | reflexivity]).
  rewrite remove_kept by (apply U; [host_fact | reflexivity]).
  change (authority_state (strip_leading is_slash (q ++ String ":" p)) = host_parser q).
  rewrite strip_leading_kept by (try exact Hq_ne; apply Fact; host_fact).
  unfold authority_state.
  rewrite before_kept
    by (apply (Whole (fun x => negb (ends_authority x))); [host_fact | reflexivity]).
  rewrite after_last_at_none
    by (apply (Whole (fun x => negb (x =? "@")%char)); [host_fact | reflexivity]).
  rewrite (host_state_colon q p Hq).
  destruct q as [|q0 q']; [congruence|]. now rewrite Hps.
Qed.

(** An address written as four numbers of at most 255 is read as itself. *)
Lemma host_parser_dotted_quad a b c d :
  (a <= 255)%N -> (b <= 255)%N -> (c <= 255)%N -> (d <= 255)%N ->
  dotted_quad a b c d <> EmptyString
  /\ all_chars is_host_char (dotted_quad a b c d) = true
  /\ host_parser (dotted_quad a b c d) = Hostname (dotted_quad a b c d).
Proof.
  intros Ha Hb Hc Hd.
  pose proof (quad_chars a b c d Ha Hb Hc Hd) as Hq.
  pose proof (quad_parts a b c d Ha Hb Hc Hd) as Hparts.
  pose proof (ipv4_serializer_quad a b c d Ha Hb Hc Hd) as Hback.
  destruct (octet_facts a Ha) as (_ & Hne & _ & Hna).
  destruct (octet_facts b Hb) as (_ & _ & _ & Hnb).
  destruct (octet_facts c Hc) as (_ & _ & _ & Hnc).
  destruct (octet_facts d Hd) as (Hdd & Hnd & _ & Hnd').
  assert (Hxn : forall n, (n <= 255)%N -> starts_with "xn--" (decimal n) = false)
    by (intros n Hn; apply octet_facts; exact Hn).
  assert (Hq_ne : dotted_quad a b c d <> EmptyString).
  { unfold dotted_quad. destruct (decimal a); [congruence | discriminate]. }
  split; [exact Hq_ne|]. split; [exact Hq|].
  rewrite host_parser_plain by assumption.
  rewrite Hparts. cbn [existsb].
  rewrite !Hxn by assumption. cbn [orb].
  unfold ends_in_a_number, ipv4_parser. rewrite Hparts.
  cbn [last removelast List.length Nat.ltb Nat.leb].
  destruct (decimal d) as [|d0 d'] eqn:Ed; [congruence|]. rewrite <- Ed in *.
  rewrite Hdd. cbn [orb ipv4_numbers].
  rewrite Hna, Hnb, Hnc, Hnd'. unfold ipv4_of. cbn [List.length].
  change (3 - 1 - 1 - 1 + 1)%N with 1%N. change (3 - 1 - 1)%N with 1%N.
  change (3 - 1)%N with 2%N.
  replace (255 <? a)%N with false by (symmetry; apply N.ltb_ge; exact Ha).
  replace (255 <? b)%N with false by (symmetry; apply N.ltb_ge; exact Hb).
  replace (255 <? c)%N with false by (symmetry; apply N.ltb_ge; exact Hc).
  replace (d <? 256 ^ 1)%N with true
    by (symmetry; apply N.ltb_lt; change (256 ^ 1)%N with 256%N; lia).
  now rewrite Hback.
Qed.

Lemma lower_letter_facts c :
  is_lower_letter c = true ->
  is_host_char c = true /\ (c =? ".")%char = false /\ (c =? "-")%char = false
  /\ (c =? "0")%char = false /\ digit_in 10 c = None.
Proof.
  destruct c as [[] [] [] [] [] [] [] []]; intros H; try discriminate H;
    vm_compute; repeat split.
Qed.

(** A name of lower-case letters is read as itself. *)
Lemma host_parser_plain_name s :
  plain_name s = true ->
  s <> EmptyString /\ all_chars is_host_char s = true /\ host_parser s = Hostname s.
Proof.
  unfold plain_name. intros H. apply andb_true_iff in H. destruct H as [Hne Hl].
  apply negb_true_iff in Hne.
  assert (Hs : s <> EmptyString) by (intros ->; discriminate).
  assert (Hq : all_chars is_host_char s = true)
    by (apply (all_chars_impl is_lower_letter); [apply lower_letter_facts | exact Hl]).
  split; [exact Hs|]. split; [exact Hq|].
  rewrite host_parser_plain by assumption.
  rewrite split_on_last
    by (apply (all_chars_impl is_lower_letter);
        [intros x Hx; now rewrite (proj1 (proj2 (lower_letter_facts x Hx))) | exact Hl]).
  cbn [existsb].
  assert (Hxn : starts_with "xn--" s = false).
  { destruct s as [|c1 [|c2 [|c3 s']]]; cbn [starts_with];
      rewrite ?andb_false_r; try reflexivity.
    cbn [all_chars] in Hl. apply andb_true_iff in Hl. destruct Hl as [_ Hl].
    apply andb_true_iff in Hl. destruct Hl as [_ Hl].
    apply andb_true_iff in Hl. destruct Hl as [H3 _].
    destruct (lower_letter_facts c3 H3) as (_ & _ & Hdash & _).
    rewrite (Ascii.eqb_sym "-" c3), Hdash. now rewrite !andb_false_r. }
  rewrite Hxn. cbn [orb].
  unfold ends_in_a_number.
  rewrite split_on_last
    by (apply (all_chars_impl is_lower_letter);
        [intros x Hx; now rewrite (proj1 (proj2 (lower_letter_facts x Hx))) | exact Hl]).
  cbn [last].
  destruct s as [|c s']; [congruence|].
  cbn [all_chars] in Hl. apply andb_true_iff in Hl. destruct Hl as [Hc _].
  destruct (lower_letter_facts c Hc) as (_ & _ & _ & Hzero & Hdigit).
  assert (Hnot_digit : is_digit c = false).
  { destruct c as [[] [] [] [] [] [] [] []]; try discriminate Hc; reflexivity. }
  cbn [all_chars]. rewrite Hnot_digit. cbn [andb orb].
  assert (Hnumber : ipv4_number (String c s') = None).
  { unfold ipv4_number.
    assert (Hten : number_in 10 (String c s') = None)
      by (unfold number_in; cbn [number_from]; now rewrite Hdigit).
    destruct c as [[] [] [] [] [] [] [] []]; try discriminate Hc; exact Hten. }
  now rewrite Hnumber.
Qed.

(** The URL Standard reads a plain address, followed by a port of at most
    65535, as that address. *)
Lemma hostname_of_plain_address address port :
  is_plain_address address -> (port <= 65535)%N ->
  hostname ("http://" ++ address ++ ":" ++ decimal port) = Hostname address.
Proof.
  intros [(a & b & c & d & Ha & Hb & Hc & Hd & ->) | Hname] Hport.
  - destruct (host_parser_dotted_quad a b c d Ha Hb Hc Hd) as (Hne & Hq & <-).
    now apply hostname_of_plain_host.
  - destruct (host_parser_plain_name address Hname) as (Hne & Hq & <-).
    now apply hostname_of_plain_host.
Qed.

End URL_of_plain_addresses.

(** C10 fails as stated: [getConnectedIP] does not always return the address
    the service was given. An address with a leading zero, which the address
    form accepts, is read as octal and comes back as another address; a
    name in capitals comes back in lower case; an address of which no URL
    can be made comes back as Unknown. *)
Lemma getConnectedIP_differs_from_given_address :
  let built := new_SocketService "010.0.0.32" 27182 in
  let changed := after (changeConnection "010.0.0.32" 27182
                          (new_SocketService "10.0.0.32" 27182)) in
  let named := new_SocketService "Publisher.local" 27182 in
  let unnamed := new_SocketService EmptyString 27182 in
  validateIP "010.0.0.32" = true
  /\ getConnectedIP (platform := plain_platform) built = Return "8.0.0.32" built
  /\ getConnectedIP (platform := plain_platform) changed = Return "8.0.0.32" changed
  /\ getConnectedIP (platform := plain_platform) named = Return "publisher.local" named
  /\ getConnectedIP (platform := plain_platform) unnamed = Return "Unknown" unnamed.
Proof.
  cbv zeta. split; [vm_compute; reflexivity|]. split; [vm_compute; reflexivity|].
  split; [vm_compute; reflexivity|]. split; vm_compute; reflexivity.
Qed.

(** C10, amended. The address [getConnectedIP] reports is the host name of
    the publisher URL the service is configured with, whatever the state of
    the connection: after the service is built with an address, and after
    [changeConnection] to an address, it is the host name of the URL made
    from that address (Unknown when no URL can be made of it), and it stays
    so through any calls of connect and disconnect and any events of the
    network (handshakes, errors, drops, data): what is reported is the
    target, not a connection. On a platform whose URL parser is that of the
    URL Standard, with a port of at most 65535, [getConnectedIP] returns the
    address itself when the address is written as four decimal numbers of
    at most 255 without leading zeros, or is a name of lower-case letters;
    the addresses publisher discovery tries are of these. *)
Theorem getConnectedIP_reports_configured_target {platform : Platform}
    (address : string) (port : N) (s : state) (evs : list event) :
  forallb keeps_target evs = true ->
  let built := run evs (new_SocketService address port) in
  let changed := run evs (after (changeConnection address port s)) in
  getConnectedIP built
    = Return (hostname_or_unknown (publisher_url address port)) built
  /\ getConnectedIP changed
    = Return (hostname_or_unknown (publisher_url address port)) changed
  /\ (follows_URL_Standard platform -> (port <= 65535)%N ->
      is_plain_address address ->
      getConnectedIP built = Return address built
      /\ getConnectedIP changed = Return address changed)
  /\ Forall is_plain_address testIPs.
Proof.
  intros Hevs built changed. unfold getConnectedIP.
  rewrite !getIPFromUrl_reads_url. subst built changed.
  rewrite !run_keeps_url by exact Hevs.
  rewrite changeConnection_sets_url. cbn [new_SocketService publisherUrl].
  split; [reflexivity|]. split; [reflexivity|]. split.
  - intros Hstd Hport Hplain.
    specialize (Hstd (publisher_url address port)).
    change (publisher_url address port)
      with ("http://" ++ address ++ ":" ++ Text.decimal port)%string in *.
    rewrite hostname_of_plain_address in Hstd by assumption.
    unfold hostname_or_unknown. rewrite Hstd. split; reflexivity.
  - unfold testIPs.
    apply Forall_cons;
      [left; exists 10%N, 0%N, 0%N, 32%N; repeat split; lia || reflexivity|].
    apply Forall_cons;
      [left; exists 127%N, 0%N, 0%N, 1%N; repeat split; lia || reflexivity|].
    apply Forall_cons; [right; reflexivity | apply Forall_nil].
Qed.

Lemma plain_platform_follows_URL_Standard : follows_URL_Standard plain_platform.
Proof.
  intros url. cbn [plain_platform URL_hostname]. now destruct (URL.hostname url).
Qed.

Lemma getConnectedIP_reports_configured_target_witness :
  let evs := [Call_connect; Net_connect_error 0 "xhr poll error"; Call_disconnect;
              Call_connect; Net_connect 1; Net_drop 1] in
  let built := run (platform := plain_platform) evs (new_SocketService "10.0.0.32" 27182) in
  forallb keeps_target evs = true
  /\ follows_URL_Standard plain_platform
  /\ is_plain_address "10.0.0.32"
  /\ isConnected built = false
  /\ getConnectedIP (platform := plain_platform) built = Return "10.0.0.32" built.
Proof.
  assert (Hplain : is_plain_address "10.0.0.32").
  { left. exists 10%N, 0%N, 0%N, 32%N. repeat split; lia || reflexivity. }
  cbv zeta. split; [reflexivity|]. split; [exact plain_platform_follows_URL_Standard|].
  split; [exact Hplain|]. split; [reflexivity|].
  pose proof (getConnectedIP_reports_configured_target (platform := plain_platform)
                "10.0.0.32" 27182 (new_SocketService "10.0.0.32" 27182)
                [Call_connect; Net_connect_error 0 "xhr poll error"; Call_disconnect;
                 Call_connect; Net_connect 1; Net_drop 1]
                eq_refl) as H.
  cbv zeta in H. destruct H as (_ & _ & H & _).
  apply (H plain_platform_follows_URL_Standard); [lia | exact Hplain].
Defined.

Section Lifecycle.
Context {platform : Platform}.



End Lifecycle.



Section Replacement.
Context {platform : Platform}.

Lemma nth_error_update_nth {A} (f : A -> A) (l : list A) i :
  nth_error (update_nth i f l) i = option_map f (nth_error l i).
Proof.
  unfold update_nth. revert i.
  induction l as [|x l IH]; intros [|i]; cbn; try reflexivity.
  apply IH.
Qed.

Lemma connected_live k : connected k = true -> live k = true.
Proof. unfold connected, live. now destruct (sock_phase k). Qed.

Lemma live_at_least_one l : forall i k,
  nth_error l i = Some k -> live k = true -> (0 < List.length (filter live l))%nat.
Proof.
  induction l as [|x l IH]; intros [|i] k E Hk; try discriminate; cbn in E.
  - injection E as ->. cbn [filter]. rewrite Hk. cbn. lia.
  - cbn [filter]. destruct (live x); cbn [List.length]; [lia | eapply IH; eassumption].
Qed.

(** Closing a socket that was connected takes one from the live ones. *)
Lemma live_after_close l : forall i k,
  nth_error l i = Some k -> connected k = true ->
  List.length (filter live (update_nth i (set_phase Closed) l))
  = (List.length (filter live l) - 1)%nat.
Proof.
  unfold update_nth.
  induction l as [|x l IH]; intros [|i] k E C; try discriminate; cbn in E.
  - injection E as ->. cbn [firstn skipn app filter].
    change (live (set_phase Closed k)) with false.
    rewrite (connected_live _ C). cbn [List.length]. lia.
  - cbn [firstn skipn app filter].
    specialize (IH i k E C).
    pose proof (live_at_least_one l i k E (connected_live _ C)).
    destruct (live x); cbn [List.length]; lia.
Qed.

Lemma live_after_io l k :
  live k = true ->
  List.length (filter live (l ++ [k])) = S (List.length (filter live l)).
Proof.
  intros Hk. rewrite filter_app, length_app. cbn [filter]. rewrite Hk. cbn. lia.
Qed.

Ltac unfold_service :=
  cbv beta iota zeta delta
    [changeConnection disconnect connect bind try_catch modify gets ret throw
     socket_connected current_connected new_Promise io log error socket_disconnect
     socket_at update_socket on_disconnect invoke reject registered after count_live
     set_socket set_publisherUrl set_isConnected set_sockets set_promises set_delivered
     set_console
     socket publisherUrl isConnected onVitalSignsUpdate onRGBImageUpdate
     onThermalImageUpdate onFPSUpdate onConnectionStatusChange sockets promises delivered
     console].

(** How many sockets are live after [changeConnection]: one more than
    before, less the current one when it was connected. *)
Lemma changeConnection_live_count newIP port s :
  count_live (after (changeConnection newIP port s))
  = S (count_live s - (if current_connected s then 1 else 0)).
Proof.
  destruct s as [cur url conn f1 f2 f3 f4 f5 socks proms dl cons].
  unfold_service.
  destruct cur as [i|].
  - destruct (nth_error socks i) as [k|] eqn:E.
    + destruct (connected k) eqn:C.
      * rewrite ?E. cbv beta iota. rewrite ?C. unfold_service.
        destruct f5; unfold_service;
          rewrite live_after_io by reflexivity;
          now rewrite (live_after_close _ _ _ E C).
      * rewrite ?E. cbv beta iota. rewrite ?C. unfold_service.
        rewrite live_after_io by reflexivity. now rewrite Nat.sub_0_r.
    + rewrite ?E. unfold_service.
      rewrite live_after_io by reflexivity. now rewrite Nat.sub_0_r.
  - rewrite live_after_io by reflexivity. now rewrite Nat.sub_0_r.
Qed.

(** Where [changeConnection] is [disconnect()] followed by itself: when the
    service does not hold itself connected, or its current socket is. *)
Lemma changeConnection_as_disconnect_then_connect newIP port s :
  isConnected s = false \/ current_connected s = true ->
  changeConnection newIP port s
  = bind disconnect (fun _ => changeConnection newIP port) s.
Proof.
  destruct s as [cur url conn f1 f2 f3 f4 f5 socks proms dl cons].
  unfold current_connected. cbn [isConnected socket sockets]. intros H.
  unfold_service.
  destruct cur as [i|].
  - destruct (nth_error socks i) as [k|] eqn:E.
    + destruct (connected k) eqn:C.
      * rewrite ?E. cbv beta iota. rewrite ?C. unfold_service.
        destruct f5; unfold_service;
          rewrite !nth_error_update_nth, E; cbn [option_map];
          change (connected (set_phase Closed k)) with false;
          unfold_service; reflexivity.
      * rewrite ?E. cbv beta iota. rewrite ?C. unfold_service.
        destruct H as [-> | H]; [reflexivity | discriminate].
    + rewrite ?E. unfold_service. destruct H as [-> | H]; [reflexivity | discriminate].
  - destruct H as [-> | H]; [reflexivity | discriminate].
Qed.

End Replacement.

(** C2. What the code does where the claim fails. After [changeConnection]
    the live sockets are one more than before, less the current socket when
    it was connected: a connection that is established is closed before the
    new socket is opened, an attempt that is still pending is not. So
    [changeConnection] called while the handshake of an earlier [connect()]
    is pending leaves two sockets live at once, and the first can still
    complete its handshake and report the service connected while the
    current socket is only opening. *)
Theorem changeConnection_leaves_pending_attempt_open {platform : Platform}
    (first second : string) (port : N) (s : state) :
  let s1 := run [Call_connect] (new_SocketService first port) in
  let s2 := run [Call_changeConnection second port] s1 in
  let s3 := run [Net_connect 0] s2 in
  let established := run [Call_connect; Net_connect 0; Call_changeConnection second port]
                       (new_SocketService first port) in
  count_live (after (changeConnection second port s))
    = S (count_live s - (if current_connected s then 1 else 0))
  /\ map sock_phase (sockets s1) = [Opening]
  /\ map sock_phase (sockets s2) = [Opening; Opening]
  /\ count_live s2 = 2%nat
  /\ socket s2 = Some 1%nat
  /\ map sock_phase (sockets s3) = [Open; Opening]
  /\ isConnected s3 = true
  /\ map sock_phase (sockets established) = [Closed; Opening]
  /\ count_live established = 1%nat.
Proof.
  cbv zeta. split; [apply changeConnection_live_count|].
  destruct platform as [hostname typed].
  cbv -[publisher_url].
  repeat match goal with
         | |- context [hostname ?url] => destruct (hostname url)
         end;
    repeat split.
Qed.

(** * Further properties of the service *)

Lemma decode_arrayBufferToBase64 bs : Base64.decode (arrayBufferToBase64 bs) = Some bs.
Proof.
  unfold arrayBufferToBase64. rewrite decode_btoa. now rewrite bytes_of_binary_loop.
Qed.

(** X1. The thermal listener, with a thermal callback registered: a raw
    buffer or a typed byte array reaches the callback as a base64 text that
    decodes to its bytes, and nothing is logged. Any other payload, a text
    included, goes to the typed-array constructor: when that throws, the
    error is logged and no callback is called; when it builds an array, the
    callback gets the base64 text of that array. The listener never raises.
    On a platform whose typed-array constructor is that of ECMAScript, a
    text that is not a numeric literal makes an empty array, so the callback
    is called with the empty text: the listener does not hand a text on. *)
Theorem thermal_image_decoding {platform : Platform} (data : js_value) (s : state) :
  onThermalImageUpdate s = true ->
  let s' := after (on_thermal_image data s) in
  raised (on_thermal_image data s) = None
  /\ match data with
     | JSArrayBuffer bytes | JSUint8Array bytes =>
         exists text,
           delivered s' = (delivered s ++ [ThermalImageUpdate text])%list
           /\ Base64.decode text = Some bytes
           /\ console s' = console s
     | other =>
         match Uint8Array_of_other other with
         | inl _ =>
             delivered s' = delivered s
             /\ console s'
                = (console s ++ [console_error "Error processing thermal image data:"])%list
         | inr built =>
             delivered s'
             = (delivered s ++ [ThermalImageUpdate (arrayBufferToBase64 built)])%list
             /\ console s' = console s
         end
     end
  /\ (follows_ECMAScript platform ->
      forall text, ECMAScript.StringToNumber text = ECMAScript.NaN ->
        delivered (after (on_thermal_image (JSString text) s))
        = (delivered s ++ [ThermalImageUpdate EmptyString])%list
        /\ console (after (on_thermal_image (JSString text) s)) = console s).
Proof.
  intros Hreg s'. split; [apply on_thermal_image_never_raises|]. subst s'.
  split.
  - unfold on_thermal_image, try_catch, bind, new_Uint8Array, invoke.
    destruct data; cbn [lift ret registered];
      try (destruct (Uint8Array_of_other _); cbn [lift ret throw registered];
           rewrite ?Hreg; cbn; split; reflexivity);
      rewrite Hreg; cbn; eexists; (split; [reflexivity|]);
      (split; [apply decode_arrayBufferToBase64 | reflexivity]).
  - intros Hes text Hnan.
    unfold on_thermal_image, try_catch, bind, new_Uint8Array, invoke.
    cbn [lift]. rewrite Hes.
    unfold ECMAScript.new_Uint8Array, ECMAScript.ToIndex, ECMAScript.ToIntegerOrInfinity.
    rewrite Hnan. cbn. rewrite Hreg. split; reflexivity.
Qed.

Lemma thermal_image_decoding_witness :
  let s := register slot_ThermalImage (new_SocketService "10.0.0.32" 27182) in
  let minus_one := JSNumber (S754_finite true 1 0) in
  onThermalImageUpdate s = true
  /\ follows_ECMAScript plain_platform
  /\ ECMAScript.StringToNumber "TWFu" = ECMAScript.NaN
  /\ delivered (after (on_thermal_image (platform := plain_platform)
                         (JSUint8Array [x4d; x61; x6e]) s))
     = [ThermalImageUpdate "TWFu"]
  /\ delivered (after (on_thermal_image (platform := plain_platform)
                         (JSString "TWFu") s))
     = [ThermalImageUpdate EmptyString]
  /\ delivered (after (on_thermal_image (platform := plain_platform) minus_one s)) = []
  /\ console (after (on_thermal_image (platform := plain_platform) minus_one s))
     = [console_error "Error processing thermal image data:"].
Proof.
  cbv zeta. split; [reflexivity|]. split; [intros v; reflexivity|].
  split; [reflexivity|]. split; [reflexivity|].
  pose proof (thermal_image_decoding (platform := plain_platform)
                (JSNumber (S754_finite true 1 0))
                (register slot_ThermalImage (new_SocketService "10.0.0.32" 27182))
                eq_refl) as (_ & Hnumber & Htext).
  split; [exact (proj1 (Htext (fun v => eq_refl) "TWFu" eq_refl))|].
  split; [exact (proj1 Hnumber) | exact (proj2 Hnumber)].
Defined.

(** X2. When [bytesToFloat] raises: for anything that is not an ArrayBuffer
    (a typed array included) a TypeError, for a buffer of fewer than four
    bytes a RangeError, and in no other case. A buffer of four bytes or more
    is read from its first four bytes only. When the frame-rate listener
    raises, it has called no callback and logged nothing. *)
Theorem bytesToFloat_raises_exactly (data : js_value) (s : state) :
  raised (bytesToFloat data s)
  = match data with
    | JSArrayBuffer bytes => if (List.length bytes <? 4)%nat then Some RangeError else None
    | _ => Some TypeError
    end
  /\ (forall b0 b1 b2 b3 rest,
        bytesToFloat (JSArrayBuffer (b0 :: b1 :: b2 :: b3 :: rest)) s
        = Return (Float32.ieee754_single_le b0 b1 b2 b3) s)
  /\ (raised (on_frame_rate data s) = raised (bytesToFloat data s))
  /\ (raised (on_frame_rate data s) = None \/ after (on_frame_rate data s) = s).
Proof.
  assert (Long : forall b0 b1 b2 b3 rest,
             bytesToFloat (JSArrayBuffer (b0 :: b1 :: b2 :: b3 :: rest)) s
             = Return (Float32.ieee754_single_le b0 b1 b2 b3) s).
  { intros. unfold bytesToFloat, bind, new_DataView, ret, Float32.getFloat32.
    cbn [List.length Nat.ltb Nat.leb Nat.add skipn firstn lift].
    now rewrite of_bits_fields. }
  assert (Cases : (exists e, bytesToFloat data s = Throw e s
                             /\ match data with
                                | JSArrayBuffer bytes => (List.length bytes <? 4)%nat = true
                                                          /\ e = RangeError
                                | _ => e = TypeError
                                end)
                  \/ (exists b0 b1 b2 b3 rest,
                        data = JSArrayBuffer (b0 :: b1 :: b2 :: b3 :: rest))).
  { destruct data; try (left; exists TypeError; split; reflexivity).
    destruct bytes as [|b0 [|b1 [|b2 [|b3 rest]]]];
      try (left; exists RangeError; repeat split; reflexivity).
    right. now exists b0, b1, b2, b3, rest. }
  split; [|split; [exact Long|]].
  - destruct Cases as [(e & E & H) | (b0 & b1 & b2 & b3 & rest & ->)].
    + rewrite E. cbn [raised]. destruct data; try (now subst e).
      destruct H as [-> ->]. reflexivity.
    + now rewrite Long.
  - unfold on_frame_rate, bind.
    destruct Cases as [(e & E & _) | (b0 & b1 & b2 & b3 & rest & ->)].
    + rewrite E. split; [reflexivity | now right].
    + rewrite Long. unfold invoke. destruct (registered slot_FPS s); cbn [raised];
        split; try reflexivity; now left.
Qed.

Section Streams.
Context {platform : Platform}.

Lemma set_delivered_twice v w s : set_delivered v (set_delivered w s) = set_delivered v s.
Proof. reflexivity. Qed.

Lemma times_invoke n sl x s :
  registered sl s = true ->
  times n (invoke sl x) s
  = Return tt (set_delivered (delivered s ++ repeat x n)%list s).
Proof.
  revert s. induction n as [|n IH]; intros s Hreg; cbn [times repeat].
  - unfold ret. rewrite app_nil_r. now destruct s.
  - unfold bind, invoke at 1. rewrite Hreg.
    rewrite IH by (destruct sl; exact Hreg).
    rewrite set_delivered_twice. cbn [delivered set_delivered].
    now rewrite <- app_assoc.
Qed.

Lemma times_ext n (m m' : M unit) : (forall s, m s = m' s) -> forall s, times n m s = times n m' s.
Proof.
  intros H. induction n as [|n IH]; intros s; [reflexivity|].
  cbn [times]. unfold bind. rewrite H. destruct (m' s); [apply IH | reflexivity].
Qed.

Lemma on_frame_rate_four b0 b1 b2 b3 more s :
  on_frame_rate (JSArrayBuffer (b0 :: b1 :: b2 :: b3 :: more)) s
  = invoke slot_FPS (FPSUpdate (Float32.ieee754_single_le b0 b1 b2 b3)) s.
Proof.
  unfold on_frame_rate, bind at 1.
  unfold bytesToFloat, bind, new_DataView, ret, Float32.getFloat32.
  cbn [List.length Nat.ltb Nat.leb Nat.add skipn firstn lift].
  now rewrite of_bits_fields.
Qed.

Lemma frame_rate_event_step i k q s :
  nth_error (sockets s) i = Some k -> sock_phase k = Open -> onFPSUpdate s = true ->
  step (frame_rate_event i q) s
  = Return tt (set_delivered
                 (delivered s ++ repeat (FPSUpdate (fps_of q)) (data_listeners k))%list s).
Proof.
  intros E Hopen Hreg. destruct q as [[[b0 b1] b2] b3].
  cbn [frame_rate_event step fps_of]. unfold deliver_data, socket_at, bind at 1, gets.
  rewrite E, Hopen. cbn [listener].
  rewrite (times_ext _ _ _ (on_frame_rate_four b0 b1 b2 b3 [])).
  now apply times_invoke.
Qed.

Lemma long_frame_rate_event_step i k payload s :
  nth_error (sockets s) i = Some k -> sock_phase k = Open -> onFPSUpdate s = true ->
  step (long_frame_rate_event i payload) s
  = Return tt (set_delivered
                 (delivered s
                  ++ repeat (FPSUpdate (fps_of (fst payload))) (data_listeners k))%list s).
Proof.
  intros E Hopen Hreg. destruct payload as [[[[b0 b1] b2] b3] more].
  cbn [long_frame_rate_event step fps_of fst].
  unfold deliver_data, socket_at, bind at 1, gets.
  rewrite E, Hopen. cbn [listener].
  rewrite (times_ext _ _ _ (on_frame_rate_four b0 b1 b2 b3 more)).
  now apply times_invoke.
Qed.

End Streams.

(** X3. Frame-rate events are delivered in the order they arrive: on a
    connected socket with a frame-rate callback registered, a run of
    frame-rate events whose payloads are buffers of four bytes or more calls
    the callback for each event in turn, with the number the first four
    bytes of its payload spell, once for every set of data listeners the
    socket carries; no event is lost and nothing else is delivered. *)
Theorem frame_rates_delivered_in_order {platform : Platform}
    (i : nat) (k : io_socket) (payloads : list (byte * byte * byte * byte * list byte))
    (s : state) :
  nth_error (sockets s) i = Some k -> sock_phase k = Open -> onFPSUpdate s = true ->
  delivered (run (map (long_frame_rate_event i) payloads) s)
  = (delivered s
     ++ flat_map (fun p => repeat (FPSUpdate (fps_of (fst p))) (data_listeners k))
                 payloads)%list.
Proof.
  revert s. induction payloads as [|p payloads IH]; intros s E Hopen Hreg.
  - cbn. now rewrite app_nil_r.
  - cbn [map run flat_map].
    rewrite (long_frame_rate_event_step i k p s E Hopen Hreg). cbn [after].
    rewrite IH by assumption. cbn [delivered set_delivered].
    now rewrite <- app_assoc.
Qed.

Lemma frame_rates_delivered_in_order_witness :
  let s := run (platform := plain_platform)
             [Call_setCallback slot_FPS; Call_connect; Net_connect 0]
             (new_SocketService "10.0.0.32" 27182) in
  let payloads := [(x00, x00, x80, x3f, []); (x00, x00, x00, x40, [xff]);
                   (x00, x00, x70, x41, []); (x00, x00, xc8, x41, [x01; x02]);
                   (x00, x00, xf0, x41, [])] in
  option_map sock_phase (nth_error (sockets s) 0) = Some Open
  /\ onFPSUpdate s = true
  /\ map (fun n => match n with FPSUpdate x => Float32.to_Q x | _ => None end)
         (delivered (run (platform := plain_platform)
                       (map (long_frame_rate_event 0) payloads) s))
     = [Some 1%Q; Some (2 # 1); Some (15 # 1); Some (25 # 1); Some (30 # 1)].
Proof.
  cbv zeta. split; [reflexivity|]. split; [reflexivity|].
  rewrite (frame_rates_delivered_in_order (platform := plain_platform) 0
             {| sock_url := "http://10.0.0.32:27182"; sock_phase := Open;
                sock_retries := 5; data_listeners := 1; sock_promise := 0 |}
             [(x00, x00, x80, x3f, []); (x00, x00, x00, x40, [xff]);
              (x00, x00, x70, x41, []); (x00, x00, xc8, x41, [x01; x02]);
              (x00, x00, xf0, x41, [])]
             (run (platform := plain_platform)
                [Call_setCallback slot_FPS; Call_connect; Net_connect 0]
                (new_SocketService "10.0.0.32" 27182))
             eq_refl eq_refl eq_refl).
  reflexivity.
Defined.

Ltac service_cbv :=
  cbv beta iota zeta delta
    [step changeConnection disconnect connect bind try_catch modify gets ret throw
     socket_connected current_connected new_Promise io log error socket_disconnect
     socket_at update_socket on_connect on_disconnect on_connect_error invoke resolve reject
     deliver_connect deliver_connect_error deliver_drop setupEventHandlers
     getIPFromUrl new_URL_hostname registered after raised
     set_socket set_publisherUrl set_isConnected set_sockets set_promises set_delivered
     set_console
     socket publisherUrl isConnected onVitalSignsUpdate onRGBImageUpdate
     onThermalImageUpdate onFPSUpdate onConnectionStatusChange sockets promises delivered
     console].

Section Handshakes.
Context {platform : Platform}.

Lemma update_nth_twice {A} (f g : A -> A) (l : list A) i :
  update_nth i g (update_nth i f l) = update_nth i (fun x => g (f x)) l.
Proof.
  unfold update_nth. revert i.
  induction l as [|x l IH]; intros [|i]; cbn; try reflexivity.
  f_equal. apply IH.
Qed.

(** The sockets after the handshake of the current socket completes. *)
Lemma sockets_after_handshake i k s :
  socket s = Some i -> nth_error (sockets s) i = Some k -> sock_phase k = Opening ->
  exists s',
    step (Net_connect i) s = Return tt s'
    /\ sockets s'
       = update_nth i (fun k => add_listeners (set_phase Open (set_retries reconnectionAttempts k)))
           (sockets s)
    /\ onFPSUpdate s' = onFPSUpdate s
    /\ isConnected s' = true.
Proof.
  destruct s as [cur url conn f1 f2 f3 f4 f5 socks proms dl cons].
  cbn [socket sockets]. intros -> E Hphase.
  service_cbv. rewrite E, Hphase. service_cbv.
  destruct (URL_hostname url); service_cbv;
    destruct f5; service_cbv; eexists; (split; [reflexivity|]);
    cbn [sockets onFPSUpdate isConnected]; rewrite update_nth_twice; repeat split.
Qed.

End Handshakes.

(** X4. Every handshake of the current socket, the first or one after a
    drop, attaches one more set of data listeners to it: if the socket
    carried [n] sets while it was opening, a frame-rate event that arrives
    after the handshake calls the frame-rate callback [n + 1] times. (After
    one reconnection every event is delivered twice.) *)
Theorem handshake_attaches_listeners_again {platform : Platform}
    (i : nat) (k : io_socket) (q : byte * byte * byte * byte) (s : state) :
  socket s = Some i -> nth_error (sockets s) i = Some k -> sock_phase k = Opening ->
  onFPSUpdate s = true ->
  let s' := after (step (Net_connect i) s) in
  option_map data_listeners (nth_error (sockets s') i) = Some (S (data_listeners k))
  /\ delivered (after (step (frame_rate_event i q) s'))
     = (delivered s' ++ repeat (FPSUpdate (fps_of q)) (S (data_listeners k)))%list.
Proof.
  intros Hcur E Hphase Hreg s'.
  destruct (sockets_after_handshake i k s Hcur E Hphase) as (t & Et & Hsocks & Hfps & _).
  subst s'. rewrite Et. cbn [after].
  assert (E' : nth_error (sockets t) i
               = Some (add_listeners (set_phase Open (set_retries reconnectionAttempts k)))).
  { rewrite Hsocks, nth_error_update_nth, E. reflexivity. }
  split; [now rewrite E'|].
  rewrite (frame_rate_event_step i _ q t E' eq_refl) by congruence.
  reflexivity.
Qed.

Lemma handshake_attaches_listeners_again_witness :
  let s := run (platform := plain_platform)
             [Call_setCallback slot_FPS; Call_connect; Net_connect 0; Net_drop 0]
             (new_SocketService "10.0.0.32" 27182) in
  let s' := after (step (platform := plain_platform) (Net_connect 0) s) in
  socket s = Some 0%nat
  /\ option_map sock_phase (nth_error (sockets s) 0) = Some Opening
  /\ onFPSUpdate s = true
  /\ delivered (after (step (platform := plain_platform)
                         (frame_rate_event 0 (x00, x00, x80, x3f)) s'))
     = (delivered s' ++ [FPSUpdate (S754_finite false 8388608 (-23));
                         FPSUpdate (S754_finite false 8388608 (-23))])%list.
Proof.
  cbv zeta. split; [reflexivity|]. split; [reflexivity|]. split; [reflexivity|].
  exact (proj2 (handshake_attaches_listeners_again (platform := plain_platform) 0
                  {| sock_url := "http://10.0.0.32:27182"; sock_phase := Opening;
                     sock_retries := 5; data_listeners := 1; sock_promise := 0 |}
                  (x00, x00, x80, x3f)
                  (run (platform := plain_platform)
                     [Call_setCallback slot_FPS; Call_connect; Net_connect 0; Net_drop 0]
                     (new_SocketService "10.0.0.32" 27182))
                  eq_refl eq_refl eq_refl eq_refl)).
Defined.

Section Disconnecting.
Context {platform : Platform}.

Lemma disconnect_cases s :
  disconnect s
  = Return tt
      (if current_connected s
       then
         match socket s with
         | Some i =>
             set_isConnected false
               (set_delivered
                  (if onConnectionStatusChange s
                   then delivered s ++ [ConnectionStatusChange Inactive "Disconnected"]
                   else delivered s)%list
                  (set_console (console s ++ [console_log "Disconnected from publisher:"])%list
                     (set_sockets (update_nth i (set_phase Closed) (sockets s)) s)))
         | None => set_isConnected false s
         end
       else set_isConnected false s).
Proof.
  destruct s as [cur url conn f1 f2 f3 f4 f5 socks proms dl cons].
  service_cbv.
  destruct cur as [i|]; [|reflexivity].
  destruct (nth_error socks i) as [k|] eqn:E; rewrite ?E; [|reflexivity].
  destruct (connected k) eqn:C; do 3 (rewrite ?E, ?C; service_cbv); [|reflexivity].
  destruct f5; reflexivity.
Qed.

Lemma not_connected_after_close i socks :
  match nth_error (update_nth i (set_phase Closed) socks) i with
  | Some k => connected k
  | None => false
  end = false.
Proof.
  rewrite nth_error_update_nth. now destruct (nth_error socks i).
Qed.

End Disconnecting.

(** X5. [disconnect()] never raises and leaves the service not connected.
    When the current socket is connected it closes that socket and the
    status callback, if one is registered, is called once with Inactive and
    the text Disconnected; when there is no connected socket (none at all,
    one still opening, one already closed) it calls nothing and changes
    nothing but the connected flag. The service keeps the socket it had:
    the field is never cleared. Calling [disconnect()] a second time changes
    nothing. *)
Theorem disconnect_is_idempotent {platform : Platform} (s : state) :
  let s1 := after (disconnect s) in
  raised (disconnect s) = None
  /\ isConnected s1 = false
  /\ current_connected s1 = false
  /\ socket s1 = socket s
  /\ after (disconnect s1) = s1
  /\ (if current_connected s
      then delivered s1
           = (delivered s ++ if onConnectionStatusChange s
                             then [ConnectionStatusChange Inactive "Disconnected"]
                             else [])%list
      else s1 = set_isConnected false s).
Proof.
  cbv zeta. rewrite (disconnect_cases (after (disconnect s))).
  rewrite (disconnect_cases s). cbn [after raised].
  destruct s as [cur url conn f1 f2 f3 f4 f5 socks proms dl cons].
  unfold current_connected.
  cbn [socket sockets isConnected delivered onConnectionStatusChange].
  destruct cur as [i|]; [|repeat split].
  destruct (nth_error socks i) as [k|] eqn:E.
  - destruct (connected k) eqn:C;
      cbn [socket sockets set_isConnected set_delivered set_console set_sockets
           isConnected delivered onConnectionStatusChange];
      rewrite ?nth_error_update_nth, ?E; cbn [option_map];
      rewrite ?C; change (connected (set_phase Closed k)) with false; cbv iota.
    + repeat split. destruct f5; [reflexivity | now rewrite app_nil_r].
    + repeat split.
  - cbn [socket sockets set_isConnected isConnected]. rewrite E. repeat split.
Qed.

(** X6. The promise of [connect()] is settled by the first of the connect
    and connect_error events of its socket, and by that one only. While
    neither has come it is pending. If the first is an error, the promise is
    rejected with that error, the status callback is called with Inactive
    and the text Connection Error, and the socket goes on trying; when a
    later attempt succeeds the service is connected and the status callback
    is called with Active, but the promise stays rejected. If the first is
    a handshake, the promise is resolved, and it stays resolved when the
    connection drops and an attempt to connect again fails. *)
Theorem connect_promise_settled_by_first_event {platform : Platform}
    (address : string) (port : N) (reason : string) :
  let s0 := run [Call_setCallback slot_ConnectionStatus; Call_connect]
              (new_SocketService address port) in
  let failed := run [Net_connect_error 0 reason] s0 in
  let failed_then_up := run [Net_connect 0] failed in
  let up := run [Net_connect 0] s0 in
  let up_then_failed := run [Net_drop 0; Net_connect_error 0 reason] up in
  let active := ConnectionStatusChange Active
                  (hostname_or_unknown (publisher_url address port)) in
  promise_outcome 0 s0 = Some Pending
  /\ (promise_outcome 0 failed = Some (Rejected (TransportError reason))
      /\ isConnected failed = false
      /\ map sock_phase (sockets failed) = [Opening]
      /\ delivered failed = [ConnectionStatusChange Inactive "Connection Error"])
  /\ (promise_outcome 0 failed_then_up = Some (Rejected (TransportError reason))
      /\ isConnected failed_then_up = true
      /\ map sock_phase (sockets failed_then_up) = [Open]
      /\ delivered failed_then_up
         = [ConnectionStatusChange Inactive "Connection Error"; active])
  /\ (promise_outcome 0 up = Some Resolved
      /\ isConnected up = true
      /\ delivered up = [active])
  /\ (promise_outcome 0 up_then_failed = Some Resolved
      /\ isConnected up_then_failed = false
      /\ map sock_phase (sockets up_then_failed) = [Opening]
      /\ delivered up_then_failed
         = [active; ConnectionStatusChange Inactive "Disconnected";
            ConnectionStatusChange Inactive "Connection Error"]).
Proof.
  cbv zeta. destruct platform as [hostname typed].
  unfold hostname_or_unknown. cbn [URL_hostname].
  cbv -[publisher_url].
  match goal with
  | |- context [hostname ?url] => destruct (hostname url)
  end; repeat split.
Qed.

Section Connected_flag.
Context {platform : Platform}.

Lemma existsb_update_nth {A} (p : A -> bool) (f : A -> A) (l : list A) : forall i k,
  nth_error l i = Some k -> p (f k) = true -> existsb p (update_nth i f l) = true.
Proof.
  unfold update_nth.
  induction l as [|x l IH]; intros [|i] k E H; try discriminate; cbn in E.
  - injection E as ->. cbn. now rewrite H.
  - cbn. rewrite (IH i k E H). apply orb_true_r.
Qed.

Lemma existsb_update_nth_same {A} (p : A -> bool) (f : A -> A) (l : list A) i :
  (forall x, p (f x) = p x) -> existsb p (update_nth i f l) = existsb p l.
Proof.
  intros H. unfold update_nth. revert i.
  induction l as [|x l IH]; intros [|i]; cbn; try reflexivity.
  - now rewrite H.
  - now rewrite <- (IH i).
Qed.

Lemma listener_keeps_connection name data :
  keeps (fun s => (isConnected s, sockets s)) (listener name data).
Proof.
  destruct name; cbn [listener];
    unfold handleChipUpdate, on_update_feed, on_thermal_image, on_frame_rate,
      bytesToFloat, new_DataView, new_Uint8Array, error;
    keeps_all; try (apply invoke_keeps; reflexivity).
Qed.

Lemma deliver_data_keeps_connection i name data s :
  isConnected (after (deliver_data i name data s)) = isConnected s
  /\ sockets (after (deliver_data i name data s)) = sockets s.
Proof.
  assert (K : keeps (fun s => (isConnected s, sockets s)) (deliver_data i name data)).
  { unfold deliver_data, socket_at. keeps_all. apply listener_keeps_connection. }
  specialize (K s). cbv beta in K. now injection K.
Qed.

(** The service holds itself connected only while one of its sockets is. *)
Lemma step_keeps_flag_sound e s :
  (isConnected s = true -> some_open s = true) ->
  isConnected (after (step e s)) = true -> some_open (after (step e s)) = true.
Proof.
  intros Inv.
  destruct e as [ | | newIP port | sl | i | i reason | i | i name data].
  8: { cbn [step]. unfold some_open.
       destruct (deliver_data_keeps_connection i name data s) as [-> ->]. exact Inv. }
  all: destruct s as [cur url conn f1 f2 f3 f4 f5 socks proms dl cons];
    unfold some_open in *; cbn [isConnected sockets] in Inv; service_cbv.
  - (* connect() *)
    destruct cur as [j|]; [destruct (nth_error socks j) as [k|] eqn:E;
                           [destruct (connected k) eqn:C|]|];
      do 3 (rewrite ?E, ?C; service_cbv); try destruct f5;
      cbn [isConnected sockets]; intros H; try discriminate H;
      rewrite existsb_app, (Inv H); reflexivity.
  - (* disconnect() *)
    destruct cur as [j|]; [destruct (nth_error socks j) as [k|] eqn:E;
                           [destruct (connected k) eqn:C|]|];
      do 3 (rewrite ?E, ?C; service_cbv); try destruct f5;
      cbn [isConnected sockets]; intros H; discriminate H.
  - (* changeConnection *)
    destruct cur as [j|]; [destruct (nth_error socks j) as [k|] eqn:E;
                           [destruct (connected k) eqn:C|]|];
      do 3 (rewrite ?E, ?C; service_cbv); try destruct f5;
      cbn [isConnected sockets]; intros H; try discriminate H;
      rewrite existsb_app, (Inv H); reflexivity.
  - (* a callback is set *)
    cbv [register isConnected sockets]. exact Inv.
  - (* handshake *)
    destruct (nth_error socks i) as [k|] eqn:E; [|exact Inv].
    destruct (sock_phase k) eqn:P; try exact Inv.
    service_cbv. destruct (URL_hostname url); service_cbv; destruct f5; service_cbv;
      destruct cur as [j|]; service_cbv; cbn [isConnected sockets]; intros _;
      rewrite ?existsb_update_nth_same by reflexivity;
      apply (existsb_update_nth connected _ _ _ _ E); reflexivity.
  - (* a failed attempt *)
    destruct (nth_error socks i) as [k|] eqn:E; [|exact Inv].
    destruct (sock_phase k) eqn:P; try exact Inv.
    service_cbv. destruct f5; service_cbv;
      destruct (nth_error proms (sock_promise k)) as [pr|] eqn:Ep; service_cbv;
      try destruct (outcome pr); service_cbv; try destruct (catch_logs pr); service_cbv;
      destruct (sock_retries k); service_cbv; cbn [isConnected]; intros H; discriminate H.
  - (* a drop *)
    destruct (nth_error socks i) as [k|] eqn:E; [|exact Inv].
    destruct (sock_phase k) eqn:P; try exact Inv.
    service_cbv. destruct f5; service_cbv; cbn [isConnected]; intros H; discriminate H.
Qed.
End Connected_flag.

(** X7. [getConnectionStatus()] is true only while a socket of the service
    is connected: whatever calls and network events a new service goes
    through, when it reports itself connected at least one of the sockets it
    has created is connected. *)
Theorem connected_flag_sound {platform : Platform}
    (address : string) (port : N) (evs : list event) :
  let s := run evs (new_SocketService address port) in
  getConnectionStatus s = true -> some_open s = true.
Proof.
  cbv zeta. unfold getConnectionStatus.
  assert (G : forall s, (isConnected s = true -> some_open s = true) ->
                        isConnected (run evs s) = true -> some_open (run evs s) = true).
  { induction evs as [|e evs IH]; intros s Inv; [exact Inv|].
    cbn [run]. apply IH. now apply step_keeps_flag_sound. }
  apply G. cbn. discriminate.
Qed.

Lemma connected_flag_sound_witness :
  let evs := [Call_connect; Call_changeConnection "10.0.0.7" 27182; Net_connect 0] in
  let s := run (platform := plain_platform) evs (new_SocketService "10.0.0.32" 27182) in
  getConnectionStatus s = true
  /\ current_connected s = false
  /\ some_open s = true.
Proof.
  cbv zeta. split; [reflexivity|]. split; [reflexivity|].
  exact (connected_flag_sound (platform := plain_platform) "10.0.0.32" 27182
           [Call_connect; Call_changeConnection "10.0.0.7" 27182; Net_connect 0] eq_refl).
Defined.

(** ** The shape of the encoded image *)

Section Base64_shape.
Import Base64.

Lemma string_three_step (P : string -> Prop) :
  P EmptyString ->
  (forall a, P (String a EmptyString)) ->
  (forall a b, P (String a (String b EmptyString))) ->
  (forall a b c s, P s -> P (String a (String b (String c s)))) ->
  forall s, P s.
Proof.
  intros H0 H1 H2 H3 s.
  assert (G : P s /\ (forall a, P (String a s)) /\ (forall a b, P (String a (String b s)))).
  { induction s as [|c s (I0 & I1 & I2)]; [now repeat split|].
    split; [apply I1|]. split; [intros; apply I2|]. intros a b. now apply H3. }
  apply G.
Qed.

Lemma sextet_char_in_alphabet n : (n < 64)%N -> is_base64_char (sextet_char n) = true.
Proof.
  intros H. unfold is_base64_char. now rewrite char_sextet_char.
Qed.

Lemma sextet_bounds (n : N) :
  ((n / 4096) mod 64 < 64 /\ (n / 64) mod 64 < 64 /\ n mod 64 < 64)%N.
Proof. repeat split; apply N.mod_lt; discriminate. Qed.

Lemma three_more_div n : ((S (S (S n)) + 2) / 3 = S ((n + 2) / 3))%nat.
Proof.
  replace (S (S (S n)) + 2)%nat with (n + 2 + 1 * 3)%nat by lia.
  rewrite Nat.div_add by discriminate. lia.
Qed.

Lemma three_more_mod n : (S (S (S n)) mod 3 = n mod 3)%nat.
Proof.
  replace (S (S (S n))) with (n + 1 * 3)%nat by lia.
  apply Nat.Div0.mod_add.
Qed.

Lemma btoa_shape s :
  String.length (btoa s) = (4 * ((String.length s + 2) / 3))%nat
  /\ all_chars is_base64_char (btoa s) = true
  /\ count_pads (btoa s) = ((3 - String.length s mod 3) mod 3)%nat.
Proof.
  induction s as [ | a | a b | a b c s (IHl & IHc & IHp)] using string_three_step.
  - repeat split.
  - pose proof (code_bound a). unfold btoa, encode1.
    cbn [String.length all_chars count_pads].
    rewrite !sextet_char_not_pad, !sextet_char_in_alphabet
      by (zify; Z.to_euclidean_division_equations; lia).
    repeat split.
  - pose proof (code_bound a). pose proof (code_bound b). unfold btoa, encode2.
    cbn [String.length all_chars count_pads].
    rewrite !sextet_char_not_pad, !sextet_char_in_alphabet
      by (zify; Z.to_euclidean_division_equations; lia).
    repeat split.
  - pose proof (code_bound a). pose proof (code_bound b). pose proof (code_bound c).
    cbn [btoa]. unfold encode3. cbn [String.length all_chars count_pads].
    rewrite !sextet_char_not_pad, !sextet_char_in_alphabet
      by (zify; Z.to_euclidean_division_equations; lia).
    rewrite IHl, IHc, IHp, three_more_div, three_more_mod. cbn [andb].
    repeat split. lia.
Qed.

Lemma byte_chars_length bs : String.length (byte_chars bs) = List.length bs.
Proof.
  unfold byte_chars.
  induction bs as [|b bs IH]; cbn [fold_right String.length List.length];
    [reflexivity | now rewrite IH].
Qed.

Lemma btoa_pads_at_end s :
  exists body,
    btoa s = (body ++ pads ((3 - String.length s mod 3) mod 3))%string
    /\ all_chars is_alphabet_char body = true.
Proof.
  induction s as [ | a | a b | a b c s (body & E & Hbody)] using string_three_step.
  - now exists EmptyString.
  - pose proof (code_bound a). unfold btoa, encode1.
    eexists (String _ (String _ EmptyString)). split; [reflexivity|].
    cbn [all_chars]. unfold is_alphabet_char.
    rewrite !char_sextet_char by (zify; Z.to_euclidean_division_equations; lia).
    reflexivity.
  - pose proof (code_bound a). pose proof (code_bound b). unfold btoa, encode2.
    eexists (String _ (String _ (String _ EmptyString))). split; [reflexivity|].
    cbn [all_chars]. unfold is_alphabet_char.
    rewrite !char_sextet_char by (zify; Z.to_euclidean_division_equations; lia).
    reflexivity.
  - pose proof (code_bound a). pose proof (code_bound b). pose proof (code_bound c).
    cbn [btoa]. unfold encode3. rewrite E.
    eexists (String _ (String _ (String _ (String _ body)))).
    cbn [String.length]. rewrite three_more_mod. split; [reflexivity|].
    cbn [all_chars]. unfold is_alphabet_char at 1 2 3 4.
    rewrite !char_sextet_char by (zify; Z.to_euclidean_division_equations; lia).
    exact Hbody.
Qed.

End Base64_shape.

(** X8. The text [arrayBufferToBase64] produces for a buffer of [n] bytes
    has four characters for every three bytes of the buffer, rounded up. It
    is a run of characters of the 64 of the base64 alphabet followed by pad
    characters at its end and nowhere else: two pads when [n] leaves
    remainder 1 by 3, one when it leaves 2, none when it leaves 0. An empty
    buffer gives the empty text. *)
Theorem arrayBufferToBase64_shape (B : list byte) :
  String.length (arrayBufferToBase64 B) = (4 * ((List.length B + 2) / 3))%nat
  /\ (exists body,
        arrayBufferToBase64 B = (body ++ pads ((3 - List.length B mod 3) mod 3))%string
        /\ all_chars is_alphabet_char body = true)
  /\ all_chars is_base64_char (arrayBufferToBase64 B) = true
  /\ count_pads (arrayBufferToBase64 B) = ((3 - List.length B mod 3) mod 3)%nat
  /\ (arrayBufferToBase64 B = EmptyString <-> B = []).
Proof.
  rewrite arrayBufferToBase64_byte_chars.
  destruct (btoa_shape (byte_chars B)) as (Hl & Hc & Hp).
  pose proof (btoa_pads_at_end (byte_chars B)) as Hend.
  rewrite byte_chars_length in *.
  repeat split; try assumption.
  - intros E. rewrite E in Hl. destruct B as [|b B]; [reflexivity|].
    cbn [List.length String.length] in Hl.
    replace (S (List.length B) + 2)%nat with (List.length B + 1 * 3)%nat in Hl by lia.
    rewrite Nat.div_add in Hl by discriminate. lia.
  - now intros ->.
Qed.

(** ** The address form *)

Section Regex_facts.
Import Regex.

Lemma append_nil_inv s1 s2 : (s1 ++ s2)%string = EmptyString -> s1 = EmptyString /\ s2 = EmptyString.
Proof. destruct s1; [now cbn | discriminate]. Qed.

Lemma append_cons_inv c s s1 s2 :
  String c s = (s1 ++ s2)%string ->
  (s1 = EmptyString /\ s2 = String c s)
  \/ (exists s1', s1 = String c s1' /\ s = (s1' ++ s2)%string).
Proof.
  destruct s1 as [|d s1']; cbn; intros H.
  - now left.
  - injection H as -> ->. right. now exists s1'.
Qed.

Lemma nullable_lang r : nullable r = true <-> lang r EmptyString.
Proof.
  induction r as [ | | c | lo hi | r1 IH1 r2 IH2 | r1 IH1 r2 IH2]; cbn [nullable lang].
  - split; [discriminate | contradiction].
  - now split.
  - split; discriminate.
  - split; [discriminate | intros (c & H & _); discriminate].
  - rewrite andb_true_iff, IH1, IH2. split.
    + intros [H1 H2]. now exists EmptyString, EmptyString.
    + intros (s1 & s2 & E & H1 & H2). symmetry in E.
      apply append_nil_inv in E as [-> ->]. now split.
  - rewrite orb_true_iff, IH1, IH2. reflexivity.
Qed.

Lemma derive_lang r : forall c s, lang (derive c r) s <-> lang r (String c s).
Proof.
  induction r as [ | | d | lo hi | r1 IH1 r2 IH2 | r1 IH1 r2 IH2]; intros c s;
    cbn [derive lang].
  - reflexivity.
  - split; [contradiction | discriminate].
  - destruct (Ascii.eqb_spec c d) as [->|Hne]; cbn [lang].
    + split; [now intros -> | now intros [= ->]].
    + split; [contradiction | intros [= -> _]; now contradiction Hne].
  - destruct (in_range lo hi c) eqn:R; cbn [lang].
    + split; [intros ->; now exists c | now intros (c' & [= -> ->] & _)].
    + split; [contradiction | intros (c' & [= -> ->] & R'); congruence].
  - split.
    + intros [(s1 & s2 & -> & H1 & H2) | H].
      * exists (String c s1), s2. split; [reflexivity|]. split; [now apply IH1 | exact H2].
      * destruct (nullable r1) eqn:N; [|contradiction].
        exists EmptyString, (String c s). split; [reflexivity|].
        split; [now apply nullable_lang | now apply IH2].
    + intros (s1 & s2 & E & H1 & H2).
      apply append_cons_inv in E as [[-> ->] | (s1' & -> & ->)].
      * right. apply nullable_lang in H1. rewrite H1. now apply IH2.
      * left. exists s1', s2. split; [reflexivity|]. split; [now apply IH1 | exact H2].
  - now rewrite IH1, IH2.
Qed.

Lemma matches_lang s : forall r, matches r s = true <-> lang r s.
Proof.
  induction s as [|c s IH]; intros r; cbn [matches].
  - apply nullable_lang.
  - rewrite IH. apply derive_lang.
Qed.

End Regex_facts.

Section Address_form.
Import Regex.

Lemma in_range_spec lo hi c :
  in_range lo hi c = true <-> (N_of_ascii lo <= N_of_ascii c <= N_of_ascii hi)%N.
Proof.
  unfold in_range. rewrite andb_true_iff, !N.leb_le. reflexivity.
Qed.

Lemma char_of_code c n : N_of_ascii c = n -> c = ascii_of_N n.
Proof. intros <-. symmetry. apply ascii_N_embedding. Qed.

Lemma string_append_assoc (a b c : string) : ((a ++ b) ++ c = a ++ (b ++ c))%string.
Proof. induction a as [|x a IH]; cbn; [reflexivity | now rewrite IH]. Qed.

Lemma string_append_nil_r (a : string) : (a ++ EmptyString)%string = a.
Proof. induction a as [|x a IH]; cbn; [reflexivity | now rewrite IH]. Qed.

Ltac lang_inv :=
  repeat match goal with
         | H : _ \/ _ |- _ => destruct H
         | H : exists _, _ |- _ => destruct H
         | H : _ /\ _ |- _ => destruct H
         | H : False |- _ => contradiction
         | H : in_range _ _ _ = true |- _ => apply in_range_spec in H; cbn in H
         end; subst.

Lemma lang_octet_sound x : lang octet_re x -> octet x.
Proof.
  unfold octet_re, Opt. cbn [lang]. intros H. lang_inv;
    cbn [append]; unfold octet;
    (split; [cbn [String.length]; lia|]);
    (split; [cbn [all_chars]; unfold is_digit;
             repeat match goal with
                    | |- context [in_range ?lo ?hi ?c] =>
                        replace (in_range lo hi c) with true
                          by (symmetry; apply in_range_spec; cbn; lia)
                    end; reflexivity|]);
    unfold decimal_value; cbn [decimal_from]; unfold digit_value;
    change (N_of_ascii "0") with 48%N; change (N_of_ascii "1") with 49%N;
    change (N_of_ascii "2") with 50%N; change (N_of_ascii "5") with 53%N; lia.
Qed.

Lemma lang_digit c : is_digit c = true -> lang (Range "0" "9") (String c EmptyString).
Proof. intros H. now exists c. Qed.

Lemma lang_octet_complete x : octet x -> lang octet_re x.
Proof.
  unfold octet. intros (Hlen & Hdig & Hval).
  destruct x as [|c1 [|c2 [|c3 [|c4 x]]]]; cbn [String.length] in Hlen; try lia;
    cbn [all_chars] in Hdig;
    repeat match goal with
           | H : _ && _ = true |- _ => apply andb_true_iff in H; destruct H
           end.
  - (* one digit *)
    right. right. exists EmptyString, (String c1 EmptyString).
    split; [reflexivity|]. split; [now right|].
    exists (String c1 EmptyString), EmptyString.
    split; [reflexivity|]. split; [now apply lang_digit | now right].
  - (* two digits *)
    right. right. exists EmptyString, (String c1 (String c2 EmptyString)).
    split; [reflexivity|]. split; [now right|].
    exists (String c1 EmptyString), (String c2 EmptyString).
    split; [reflexivity|]. split; [now apply lang_digit | left; now apply lang_digit].
  - (* three digits *)
    pose proof (proj1 (in_range_spec _ _ _) H) as R1.
    pose proof (proj1 (in_range_spec _ _ _) H0) as R2.
    pose proof (proj1 (in_range_spec _ _ _) H1) as R3.
    change (N_of_ascii "0") with 48%N in *. change (N_of_ascii "9") with 57%N in *.
    unfold decimal_value in Hval. cbn [decimal_from] in Hval. unfold digit_value in Hval.
    destruct (N.le_gt_cases (N_of_ascii c1) 49) as [L1|G1].
    + (* 0xx and 1xx *)
      right. right.
      exists (String c1 EmptyString), (String c2 (String c3 EmptyString)).
      split; [reflexivity|]. split.
      * left. assert (N_of_ascii c1 = 48 \/ N_of_ascii c1 = 49)%N as [E|E] by lia;
          apply char_of_code in E; subst c1; [now left | now right].
      * exists (String c2 EmptyString), (String c3 EmptyString).
        split; [reflexivity|]. split; [now apply lang_digit | left; now apply lang_digit].
    + assert (E1 : N_of_ascii c1 = 50%N) by lia.
      apply char_of_code in E1. subst c1.
      destruct (N.le_gt_cases (N_of_ascii c2) 52) as [L2|G2].
      * (* 200..249 *)
        right. left. exists "2"%string, (String c2 (String c3 EmptyString)).
        split; [reflexivity|]. split; [reflexivity|].
        exists (String c2 EmptyString), (String c3 EmptyString).
        split; [reflexivity|]. split; [|now apply lang_digit].
        exists c2. split; [reflexivity|]. apply in_range_spec.
        change (N_of_ascii "0") with 48%N. change (N_of_ascii "4") with 52%N. lia.
      * (* 250..255 *)
        change (N_of_ascii (ascii_of_N 50)) with 50%N in Hval.
        assert (E2 : N_of_ascii c2 = 53%N) by lia.
        apply char_of_code in E2. subst c2.
        change (N_of_ascii (ascii_of_N 53)) with 53%N in Hval.
        left. exists "2"%string, (String "5" (String c3 EmptyString)).
        split; [reflexivity|]. split; [reflexivity|].
        exists "5"%string, (String c3 EmptyString).
        split; [reflexivity|]. split; [reflexivity|].
        exists c3. split; [reflexivity|]. apply in_range_spec.
        change (N_of_ascii "0") with 48%N. change (N_of_ascii "5") with 53%N. lia.
Qed.

Lemma lang_ipRegex ip :
  lang ipRegex ip
  <-> exists a b c d,
        ip = (a ++ "." ++ b ++ "." ++ c ++ "." ++ d)%string
        /\ octet a /\ octet b /\ octet c /\ octet d.
Proof.
  unfold ipRegex. cbn [Times lang]. split.
  - intros (s1 & d & -> & (t1 & s2 & -> & (a & p1 & -> & Ha & ->)
                           & (t2 & s3 & -> & (b & p2 & -> & Hb & ->)
                              & (t3 & s4 & -> & (c & p3 & -> & Hc & ->) & ->))) & Hd).
    exists a, b, c, d.
    split; [now rewrite string_append_nil_r, !string_append_assoc|].
    repeat split; now apply lang_octet_sound.
  - intros (a & b & c & d & -> & Ha & Hb & Hc & Hd).
    exists (a ++ "." ++ b ++ "." ++ c ++ ".")%string, d.
    split; [now rewrite !string_append_assoc|].
    split; [|now apply lang_octet_complete].
    exists (a ++ ".")%string, (b ++ "." ++ c ++ ".")%string.
    split; [now rewrite !string_append_assoc|].
    split; [exists a, "."%string; repeat split; now apply lang_octet_complete|].
    exists (b ++ ".")%string, (c ++ ".")%string.
    split; [now rewrite !string_append_assoc|].
    split; [exists b, "."%string; repeat split; now apply lang_octet_complete|].
    exists (c ++ ".")%string, EmptyString.
    split; [now rewrite string_append_nil_r|].
    split; [exists c, "."%string; repeat split; now apply lang_octet_complete | reflexivity].
Qed.

End Address_form.

Example validateIP_samples :
  validateIP "10.0.0.32" = true
  /\ validateIP "255.255.255.255" = true
  /\ validateIP "010.001.0.1" = true
  /\ validateIP "256.0.0.1" = false
  /\ validateIP "1.2.3" = false
  /\ validateIP "1.2.3.4.5" = false
  /\ validateIP "1.2.3.4 " = false
  /\ validateIP "localhost" = false
  /\ validateIP EmptyString = false.
Proof. repeat split. Qed.

(** X9. [validateIP] accepts exactly the dotted quads: four parts joined by
    three dots, each part one to three decimal digits that spell a number
    up to 255 (leading zeros are accepted). Everything else, the empty text
    and host names included, is refused. *)
Theorem validateIP_accepts_dotted_quads (ip : string) :
  validateIP ip = true
  <-> exists a b c d,
        ip = (a ++ "." ++ b ++ "." ++ c ++ "." ++ d)%string
        /\ octet a /\ octet b /\ octet c /\ octet d.
Proof.
  unfold validateIP. rewrite matches_lang. apply lang_ipRegex.
Qed.

(** X10. Pressing Connect on the address form: the text typed is handed to
    [onConnectionChange] only when it is a dotted quad, and then as it was
    typed, the input is hidden and the text cleared; any other text raises
    the alert, calls nothing and leaves the form as it is. *)
Theorem form_forwards_dotted_quads_only (handler : bool) (f : ip_form) :
  let f' := fst (form_handleConnectionChange handler f) in
  let effect := snd (form_handleConnectionChange handler f) in
  (forall ip, effect = onConnectionChange_called ip ->
     ip = newIP f
     /\ f' = {| newIP := EmptyString; showIPInput := false |}
     /\ exists a b c d,
          ip = (a ++ "." ++ b ++ "." ++ c ++ "." ++ d)%string
          /\ octet a /\ octet b /\ octet c /\ octet d)
  /\ (validateIP (newIP f) = false ->
      effect = Alert_alert "Invalid IP Address" "Please enter a valid IP address format"
      /\ f' = f)
  /\ (validateIP (newIP f) = true -> handler = true ->
      effect = onConnectionChange_called (newIP f)).
Proof.
  cbv zeta. unfold form_handleConnectionChange.
  destruct (validateIP (newIP f)) eqn:V; cbn [fst snd].
  - split; [|split; [discriminate | now intros _ ->]].
    intros ip E. destruct handler; [|discriminate]. injection E as <-.
    split; [reflexivity|]. split; [reflexivity|].
    apply matches_lang in V. now apply lang_ipRegex.
  - split; [discriminate|]. split; [now split | discriminate].
Qed.

Lemma form_forwards_dotted_quads_only_witness :
  let f := {| newIP := "192.168.1.20"; showIPInput := true |} in
  let g := {| newIP := "192.168.1"; showIPInput := true |} in
  snd (form_handleConnectionChange true f) = onConnectionChange_called "192.168.1.20"
  /\ fst (form_handleConnectionChange true f)
     = {| newIP := EmptyString; showIPInput := false |}
  /\ validateIP (newIP g) = false
  /\ fst (form_handleConnectionChange true g) = g.
Proof.
  cbv zeta.
  pose proof (form_forwards_dotted_quads_only true
                {| newIP := "192.168.1.20"; showIPInput := true |}) as (H1 & _ & H3).
  pose proof (form_forwards_dotted_quads_only true
                {| newIP := "192.168.1"; showIPInput := true |}) as (_ & H2 & _).
  cbv zeta in *.
  split; [exact (H3 eq_refl eq_refl)|].
  split; [exact (proj1 (proj2 (H1 _ (H3 eq_refl eq_refl))))|].
  split; [reflexivity | exact (proj2 (H2 eq_refl))].
Defined.

(** * The application *)

Section Slices.
Context {A : Type}.

Lemma slice_last_length n (l : list A) :
  List.length (slice_last n l) = Nat.min n (List.length l).
Proof. unfold slice_last. rewrite length_skipn. lia. Qed.

Lemma slice_last_all n (l : list A) : (List.length l <= n)%nat -> slice_last n l = l.
Proof.
  intros H. unfold slice_last. now replace (List.length l - n)%nat with 0%nat by lia.
Qed.

Lemma slice_last_app k (l es : list A) :
  slice_last k (slice_last k l ++ es) = slice_last k (l ++ es).
Proof.
  unfold slice_last. rewrite !length_app, length_skipn, !skipn_app, skipn_skipn, length_skipn.
  f_equal; f_equal; lia.
Qed.

Lemma slice_last_push n (l : list A) x :
  (slice_last n l ++ [x])%list = slice_last (S n) (l ++ [x]).
Proof.
  unfold slice_last. rewrite length_app, skipn_app. cbn [List.length].
  replace (List.length l + 1 - S n)%nat with (List.length l - n)%nat by lia.
  replace (List.length l - n - List.length l)%nat with 0%nat by lia.
  reflexivity.
Qed.

Lemma slice_last_slice n m (l : list A) :
  (n <= m)%nat -> slice_last n (slice_last m l) = slice_last n l.
Proof.
  intros H. unfold slice_last. rewrite length_skipn, skipn_skipn. f_equal. lia.
Qed.

(** Pushing on a list kept to its last [n] elements, again and again. *)
Lemma push_all n (es l : list A) :
  (List.length l <= S n)%nat ->
  fold_left (fun l x => slice_last n l ++ [x])%list es l = slice_last (S n) (l ++ es).
Proof.
  revert l. induction es as [|e es IH]; intros l H; cbn [fold_left].
  - rewrite app_nil_r. symmetry. now apply slice_last_all.
  - rewrite IH.
    + rewrite slice_last_push, slice_last_app, <- app_assoc. reflexivity.
    + rewrite length_app, slice_last_length. cbn [List.length]. lia.
Qed.

End Slices.

Section Logs.

Lemma logs_of_log_all entries a :
  logs (systemInfo (log_all entries a))
  = fold_left (fun l x => slice_last 49 l ++ [x])%list entries (logs (systemInfo a))
  /\ fps (systemInfo (log_all entries a)) = fps (systemInfo a)
  /\ connectionStatus (systemInfo (log_all entries a)) = connectionStatus (systemInfo a)
  /\ connectedIP (systemInfo (log_all entries a)) = connectedIP (systemInfo a).
Proof.
  unfold log_all. revert a. induction entries as [|e entries IH]; intros a; cbn [fold_left].
  - repeat split.
  - destruct (IH (addLog (timestamp e) (type e) (message e) a)) as (H1 & H2 & H3 & H4).
    rewrite H1, H2, H3, H4. destruct e. repeat split.
Qed.

End Logs.

(** X11. The log keeps the last 50 lines: after any run of [addLog] calls on
    a state that holds at most 50 lines, the log is the last 50 of the old
    lines followed by the new ones, in the order they were logged (so never
    longer than 50), the other fields of the system information are as they
    were, and the diagnostics screen draws the last 10 of them, newest
    first. *)
Theorem addLog_keeps_last_fifty (entries : list LogMessage) (a : AppState) :
  (List.length (logs (systemInfo a)) <= 50)%nat ->
  let a' := log_all entries a in
  logs (systemInfo a') = slice_last 50 (logs (systemInfo a) ++ entries)
  /\ (List.length (logs (systemInfo a')) <= 50)%nat
  /\ drawn_logs (systemInfo a') = rev (slice_last 10 (logs (systemInfo a) ++ entries))
  /\ fps (systemInfo a') = fps (systemInfo a)
  /\ connectionStatus (systemInfo a') = connectionStatus (systemInfo a)
  /\ connectedIP (systemInfo a') = connectedIP (systemInfo a).
Proof.
  intros H a'. subst a'.
  destruct (logs_of_log_all entries a) as (H1 & H2 & H3 & H4).
  rewrite push_all in H1 by exact H.
  unfold drawn_logs. rewrite H1, slice_last_length, slice_last_slice by lia.
  repeat split; try assumption. lia.
Qed.

Lemma addLog_keeps_last_fifty_witness :
  let line n := {| timestamp := "10:00:00"; message := port_string n; type := info |} in
  let entries := map line (map N.of_nat (seq 0 60)) in
  (List.length (logs (systemInfo initial_AppState)) <= 50)%nat
  /\ List.length (logs (systemInfo (log_all entries initial_AppState))) = 50%nat
  /\ map message (drawn_logs (systemInfo (log_all entries initial_AppState)))
     = ["59"; "58"; "57"; "56"; "55"; "54"; "53"; "52"; "51"; "50"].
Proof.
  cbv zeta. split; [cbn; lia|].
  pose proof (addLog_keeps_last_fifty
                (map (fun n => {| timestamp := "10:00:00"; message := port_string n;
                                  type := info |})
                     (map N.of_nat (seq 0 60)))
                initial_AppState (Nat.le_0_l 50)) as (H1 & _ & H3 & _).
  cbv zeta in H1, H3. rewrite H1, H3. split; reflexivity.
Defined.

Section Charts.

Lemma histories_after vss h :
  let h' := fold_left (fun h vs => update_histories vs h) vss h in
  heartRateHistory h'
  = fold_left (fun l x => slice_last 20 l ++ [x])%list
      (map (fun vs => number_or_zero (heartrate vs)) vss) (heartRateHistory h)
  /\ respRateHistory h'
     = fold_left (fun l x => slice_last 20 l ++ [x])%list
         (map (fun vs => number_or_zero (resprate vs)) vss) (respRateHistory h)
  /\ tempHistory h'
     = fold_left (fun l x => slice_last 20 l ++ [x])%list
         (map (fun vs => number_or_zero (temp vs)) vss) (tempHistory h).
Proof.
  cbv zeta. revert h. induction vss as [|vs vss IH]; intros h; cbn [fold_left map].
  - repeat split.
  - destruct (IH (update_histories vs h)) as (H1 & H2 & H3).
    rewrite H1, H2, H3. repeat split.
Qed.

End Charts.

(** X12. The charts of the health screen. Starting with no history, after
    the vital signs have arrived the heart-rate history holds the last 21
    readings (a reading that is not a number counted as zero) and the chart
    draws the last 20 of them. While the history holds 20 readings or fewer
    the bar drawn at full strength is the newest one; once it holds 21 the
    index compared with is past the bars, and no bar is drawn at full
    strength. *)
Theorem heart_rate_chart_window (vss : list VitalSigns) :
  let start := {| heartRateHistory := []; respRateHistory := []; tempHistory := [] |} in
  let readings := map (fun vs => number_or_zero (heartrate vs)) vss in
  let history := heartRateHistory (fold_left (fun h vs => update_histories vs h) vss start) in
  history = slice_last 21 readings
  /\ chart_bars history = slice_last 20 readings
  /\ (forall index, (index < List.length (chart_bars history))%nat ->
        bar_at_full_strength history index
        = if (List.length readings <=? 20)%nat
          then (index =? List.length readings - 1)%nat
          else false).
Proof.
  cbv zeta.
  destruct (histories_after vss
              {| heartRateHistory := []; respRateHistory := []; tempHistory := [] |})
    as (H & _ & _).
  cbv zeta in H. rewrite H. cbn [heartRateHistory].
  rewrite push_all by (cbn; lia). cbn [app].
  split; [reflexivity|]. unfold chart_bars.
  rewrite slice_last_slice by lia. split; [reflexivity|].
  intros index. rewrite !slice_last_length. unfold bar_at_full_strength.
  rewrite slice_last_length. intros Hi.
  destruct (Nat.leb_spec (List.length (map (fun vs => number_or_zero (heartrate vs)) vss)) 20).
  - destruct (Nat.eqb_spec index
                (List.length (map (fun vs => number_or_zero (heartrate vs)) vss) - 1)).
    + apply Z.eqb_eq. lia.
    + apply Z.eqb_neq. lia.
  - apply Z.eqb_neq. lia.
Qed.

(** X13. [initializeWithDiscovery] passes on the first candidate whose probe
    succeeds and logs the discovery as information; when no probe succeeds it
    passes on the default address and logs a warning. The address passed on
    is always one of the candidates; the default is a candidate itself, so
    when it is used its own probe has just failed. Two lines are logged, the
    first being that the search has started. *)
Theorem initializeWithDiscovery_target (net : network) (now1 now2 : string) (a : AppState) :
  let address := fst (initializeWithDiscovery net now1 now2 a) in
  let a' := snd (initializeWithDiscovery net now1 now2 a) in
  address = match find (answers net 27182) testIPs with
            | Some ip => ip
            | None => DEFAULT_PUBLISHER_IP
            end
  /\ In address testIPs
  /\ (answers net 27182 address = true
      \/ (address = DEFAULT_PUBLISHER_IP
          /\ forall ip, In ip testIPs -> answers net 27182 ip = false))
  /\ a' = log_all
            [{| timestamp := now1; message := "Searching for publisher device...";
                type := info |};
             match find (answers net 27182) testIPs with
             | Some ip =>
                 {| timestamp := now2; message := "Publisher auto-discovered at " ++ ip;
                    type := info |}
             | None =>
                 {| timestamp := now2;
                    message := "Auto-discovery failed, trying default IP: 10.0.0.32";
                    type := warning |}
             end] a.
Proof.
  cbv zeta. unfold initializeWithDiscovery, discoverPublisher.
  rewrite probe_in_turn_result.
  destruct (find (answers net 27182) testIPs) as [ip|] eqn:F.
  - destruct (find_some _ _ F) as [Hin Hans].
    assert (Hne : (ip =? EmptyString)%string = false).
    { cbn in Hin. destruct Hin as [<-|[<-|[<-|[]]]]; reflexivity. }
    rewrite Hne. cbn [fst snd].
    split; [reflexivity|]. split; [exact Hin|]. split; [now left | reflexivity].
  - cbn [fst snd]. split; [reflexivity|]. split; [now left|].
    split; [|reflexivity]. right. split; [reflexivity|].
    now apply find_none_iff.
Qed.

Lemma heart_rate_chart_window_witness :
  let vss := repeat {| heartrate := JSNumber (S754_finite false 9 3);
                       resprate := JSString "N/A"; temp := JSUndefined |} 25 in
  let history :=
    heartRateHistory
      (fold_left (fun h vs => update_histories vs h) vss
         {| heartRateHistory := []; respRateHistory := []; tempHistory := [] |}) in
  (19 < List.length (chart_bars history))%nat
  /\ List.length history = 21%nat
  /\ bar_at_full_strength history 19 = false.
Proof.
  cbv zeta.
  assert (B : (19 < List.length
                      (chart_bars
                         (heartRateHistory
                            (fold_left (fun h vs => update_histories vs h)
                               (repeat {| heartrate := JSNumber (S754_finite false 9 3);
                                          resprate := JSString "N/A";
                                          temp := JSUndefined |} 25)
                               {| heartRateHistory := []; respRateHistory := [];
                                  tempHistory := [] |}))))%nat).
  { vm_compute. apply le_n. }
  split; [exact B|]. split; [vm_compute; reflexivity|].
  etransitivity;
    [exact (proj2 (proj2 (heart_rate_chart_window
                            (repeat {| heartrate := JSNumber (S754_finite false 9 3);
                                       resprate := JSString "N/A";
                                       temp := JSUndefined |} 25))) 19%nat B)
    | vm_compute; reflexivity].
Defined.

Section Status_shown.
Variable show : js_value -> string.
Variable searching : bool.

Lemma other_notifications_keep_status t n a :
  is_status n = false ->
  connectionStatus (systemInfo (on_notification show searching t n a))
  = connectionStatus (systemInfo a)
  /\ connectedIP (systemInfo (on_notification show searching t n a))
     = connectedIP (systemInfo a).
Proof.
  destruct n; try discriminate; intros _; cbn [on_notification]; try (split; reflexivity).
  destruct (negb _ && searching); split; reflexivity.
Qed.

Lemma other_notifications_keep_patient t n a :
  is_status n = false -> is_vitals n = false ->
  patientInfo (on_notification show searching t n a) = patientInfo a.
Proof.
  destruct n; try discriminate; intros _ _; reflexivity.
Qed.

Lemma handle_all_keeps_status ns a :
  forallb (fun tn => negb (is_status (snd tn))) ns = true ->
  connectionStatus (systemInfo (handle_all show searching ns a))
  = connectionStatus (systemInfo a)
  /\ connectedIP (systemInfo (handle_all show searching ns a)) = connectedIP (systemInfo a).
Proof.
  unfold handle_all. revert a. induction ns as [|[t n] ns IH]; intros a H; [now split|].
  cbn [forallb snd] in H. apply andb_true_iff in H. destruct H as [Hn Hns].
  apply negb_true_iff in Hn. cbn [fold_left fst snd].
  destruct (IH (on_notification show searching t n a) Hns) as [-> ->].
  now apply other_notifications_keep_status.
Qed.

Lemma handle_all_keeps_patient ns a :
  forallb (fun tn => negb (is_status (snd tn))) ns = true ->
  forallb (fun tn => negb (is_vitals (snd tn))) ns = true ->
  patientInfo (handle_all show searching ns a) = patientInfo a.
Proof.
  unfold handle_all. revert a. induction ns as [|[t n] ns IH]; intros a H V; [reflexivity|].
  cbn [forallb snd] in H, V. apply andb_true_iff in H. destruct H as [Hn Hns].
  apply andb_true_iff in V. destruct V as [Vn Vns].
  apply negb_true_iff in Hn. apply negb_true_iff in Vn. cbn [fold_left fst snd].
  rewrite IH by assumption. now apply other_notifications_keep_patient.
Qed.

End Status_shown.

(** X14. What the application shows follows the last status notification:
    whatever was handled before it and whatever notifications of other kinds
    come after it, the connection status is the one it carried and the
    publisher address shown is the text it carried (after a disconnect that
    text is Disconnected, or Connection Error, not an address). As long as
    no vital signs have arrived since, the patient is as that notification
    left it: reset (searched for, without a name) when the status is
    Inactive, and as it was before the notification when the status is
    Active. *)
Theorem application_shows_last_status (show : js_value -> string) (searching : bool)
    (before later : list (string * notification)) (t : string) (st : status) (ip : string)
    (a : AppState) :
  forallb (fun tn => negb (is_status (snd tn))) later = true ->
  let a0 := handle_all show searching before a in
  let a' := handle_all show searching
              (before ++ (t, ConnectionStatusChange st ip) :: later) a in
  connectionStatus (systemInfo a') = st
  /\ connectedIP (systemInfo a') = ip
  /\ (forallb (fun tn => negb (is_vitals (snd tn))) later = true ->
      patientInfo a'
      = match st with
        | Inactive =>
            {| name := EmptyString; location := location (patientInfo a0);
               facility := facility (patientInfo a0); city := city (patientInfo a0);
               isSearching := true |}
        | Active => patientInfo a0
        end).
Proof.
  intros Hlater a0 a'. subst a0 a'. unfold handle_all. rewrite fold_left_app.
  cbn [fold_left fst snd].
  fold (handle_all show searching before a).
  set (a0 := handle_all show searching before a).
  fold (handle_all show searching later
          (on_notification show searching t (ConnectionStatusChange st ip) a0)).
  destruct (handle_all_keeps_status show searching later
              (on_notification show searching t (ConnectionStatusChange st ip) a0) Hlater)
    as [-> ->].
  split; [now destruct st|]. split; [now destruct st|].
  intros Hv. rewrite handle_all_keeps_patient by assumption. now destruct st.
Qed.

Lemma application_shows_last_status_witness :
  let s := run (platform := plain_platform)
             [Call_setCallback slot_ConnectionStatus; Call_setCallback slot_FPS;
              Call_connect; Net_connect 0;
              Net_data 0 frame_rate (JSArrayBuffer [x00; x00; xf0; x41]);
              Call_disconnect]
             (new_SocketService "10.0.0.32" 27182) in
  let a' := handle_all (fun _ => EmptyString) true
              (map (fun n => ("10:00:00", n)) (delivered s)) initial_AppState in
  delivered s = [ConnectionStatusChange Active "10.0.0.32";
                 FPSUpdate (S754_finite false 15728640 (-19));
                 ConnectionStatusChange Inactive "Disconnected"]
  /\ connectionStatus (systemInfo a') = Inactive
  /\ connectedIP (systemInfo a') = "Disconnected"
  /\ isSearching (patientInfo a') = true.
Proof.
  cbv zeta. split; [reflexivity|].
  pose proof (application_shows_last_status (fun _ => EmptyString) true
                [("10:00:00", ConnectionStatusChange Active "10.0.0.32");
                 ("10:00:00", FPSUpdate (S754_finite false 15728640 (-19)))]
                [] "10:00:00" Inactive "Disconnected" initial_AppState eq_refl)
    as (H1 & H2 & H3).
  split; [exact H1|]. split; [exact H2|]. exact (f_equal isSearching (H3 eq_refl)).
Defined.

(** X15. From a vitals event to what the application shows, with the vitals
    callback registered. An event whose payload or chip_data record is null
    or undefined changes nothing in the application. Any other event
    replaces the vital signs and the chip image by what is read from the
    record; it marks the patient detected when the callback was made while
    the application was searching for a patient and the heart rate is not
    the text N/A, and leaves the patient as it was otherwise. A record
    without a heart-rate field has an undefined heart rate, which is not
    that text, so while searching it marks the patient detected as well. *)
Theorem vitals_event_marks_patient_detected (show : js_value -> string)
    (searching : bool) (t : string) (data : js_value) (s : state) (a : AppState) :
  onVitalSignsUpdate s = true -> delivered s = [] ->
  let calls := delivered (after (handleChipUpdate data s)) in
  let a' := handle_all show searching (map (fun n => (t, n)) calls) a in
  let chipData := prop data "chip_data" in
  if nullish data || nullish chipData
  then a' = a
  else vitalSigns a' = {| heartrate := prop chipData "heartrate";
                          resprate := prop chipData "resprate";
                          temp := prop chipData "temp" |}
       /\ chipImage a' = prop chipData "chip_img"
       /\ patientInfo a'
          = (if negb (is_not_available (prop chipData "heartrate")) && searching
             then {| name := "Patient Detected"; location := location (patientInfo a);
                     facility := facility (patientInfo a); city := city (patientInfo a);
                     isSearching := false |}
             else patientInfo a)
       /\ (prop chipData "heartrate" = JSUndefined -> searching = true ->
           isSearching (patientInfo a') = false).
Proof.
  intros Hreg Hnone. cbv zeta. rewrite handleChipUpdate_cases.
  destruct (nullish data || nullish (prop data "chip_data")).
  - cbn [after delivered set_console]. now rewrite Hnone.
  - cbv zeta. unfold invoke. cbn [registered]. rewrite Hreg.
    cbn [after delivered set_delivered]. rewrite Hnone.
    cbn [app map handle_all fold_left fst snd on_notification heartrate].
    fold (is_not_available (prop (prop data "chip_data") "heartrate")).
    destruct (is_not_available (prop (prop data "chip_data") "heartrate")) eqn:E;
      destruct searching; cbn; repeat split; try discriminate.
    intros U. rewrite U in E. discriminate.
Qed.

Lemma vitals_event_marks_patient_detected_witness :
  let s := register slot_VitalSigns (new_SocketService "10.0.0.32" 27182) in
  let data := JSObject [("chip_data", JSObject [("resprate", JSNumber (S754_finite false 1 4))])] in
  onVitalSignsUpdate s = true /\ delivered s = []
  /\ isSearching
       (patientInfo
          (handle_all (fun _ => "?") true
             (map (fun n => ("10:00:00", n)) (delivered (after (handleChipUpdate data s))))
             initial_AppState))
     = false.
Proof.
  cbv zeta. split; [reflexivity|]. split; [reflexivity|].
  pose proof (vitals_event_marks_patient_detected (fun _ => "?") true "10:00:00"
                (JSObject [("chip_data", JSObject [("resprate", JSNumber (S754_finite false 1 4))])])
                (register slot_VitalSigns (new_SocketService "10.0.0.32" 27182))
                initial_AppState eq_refl eq_refl) as H.
  cbv zeta in H. cbn in H. destruct H as (_ & _ & _ & H).
  exact (H eq_refl eq_refl).
Defined.
